(** * Drone-Survey backend: a shallow embedding of the Python services

    The development follows the layout of the repository:

    - [Py]              : the fragment of Python's dynamic semantics the code
                          relies on (values, truthiness, exceptions, argument
                          binding at a call site);
    - [WaypointGen]     : [app/services/waypoint_generator.py];
    - [Planner]         : [app/services/mission_planner.py];
    - [ErrorHandling]   : [app/core/error_handling.py] (application errors and
                          the circuit breaker);
    - [Models]          : the persistence layer used by the blueprints and the
                          simulator;
    - [MissionsApi]     : [app/blueprints/missions.py];
    - [DronesApi]       : [app/blueprints/drones.py];
    - [Simulator]       : [simulator.py];
    - [DroneSelection]  : [app/services/ai_mission_optimizer.py];
    - [ConfigSchema]    : [app/core/config_schema.py];
    - [PlannerScoring]  : the choice of a drone and the cost estimate of
                          [app/services/mission_planner.py];
    - [ErrorMetrics]    : the bookkeeping of [ErrorHandler] in
                          [app/core/error_handling.py];
    - [MissionOptimizer]: terrain, weather, flight patterns and the selection
                          of a drone in [app/services/ai_mission_optimizer.py].

    Python floats are modelled by exact rationals ([Q]); integers by [Z].
    Functions that can raise return a result in the [Res] monad. *)

From Stdlib Require Import ZArith QArith Qround Qabs List Bool Lia Lqa Sorted.
From stdpp Require Import gmap strings.
Import ListNotations.

Set Warnings "-register-all".

Local Open Scope Z_scope.
Local Open Scope string_scope.
Local Open Scope list_scope.

(* ===================================================================== *)
(** * Part I: definitions                                                 *)
(* ===================================================================== *)

(** ** Rational helpers (Python [float] arithmetic, exact) *)

Definition Qltb (x y : Q) : bool := negb (Qle_bool y x).
Definition Qgtb (x y : Q) : bool := Qltb y x.
Definition Qgeb (x y : Q) : bool := Qle_bool y x.
Definition Qmax (x y : Q) : Q := if Qle_bool x y then y else x.
Definition Qmin (x y : Q) : Q := if Qle_bool x y then x else y.
Definition Qis_zero (x : Q) : bool := Qeq_bool x 0.

(** [int(x)] on a float: truncation towards zero. *)
Definition Qtrunc (x : Q) : Z := Z.quot (Qnum x) (Zpos (Qden x)).

(** [round(x, ndigits)]: nearest multiple of [10^-ndigits], ties to even. *)
Definition Qround_half_even (x : Q) : Z :=
  let f := Qfloor x in
  let r := (x - inject_Z f)%Q in
  if Qltb r (1 # 2) then f
  else if Qltb (1 # 2) r then (f + 1)%Z
  else if Z.even f then f else (f + 1)%Z.

Definition py_round (x : Q) (ndigits : nat) : Q :=
  let scale := inject_Z (10 ^ Z.of_nat ndigits) in
  (inject_Z (Qround_half_even (x * scale)) / scale)%Q.

Module Py.

(** Dynamically typed values, as far as the modelled code handles them. *)
Inductive PyVal : Type :=
| VNone
| VBool (b : bool)
| VInt (z : Z)
| VFloat (q : Q)
| VStr (s : string)
| VList (l : list PyVal)
| VDict (d : list (string * PyVal)).

Definition PyDict := list (string * PyVal).

Fixpoint dict_get {V} (d : list (string * V)) (k : string) : option V :=
  match d with
  | [] => None
  | (k', v) :: d' => if String.eqb k k' then Some v else dict_get d' k
  end.

Definition dict_has {V} (d : list (string * V)) (k : string) : bool :=
  match dict_get d k with Some _ => true | None => false end.

Fixpoint dict_set {V} (d : list (string * V)) (k : string) (v : V)
  : list (string * V) :=
  match d with
  | [] => [(k, v)]
  | (k', v') :: d' =>
      if String.eqb k k' then (k', v) :: d' else (k', v') :: dict_set d' k v
  end.

(** Truth value testing ([bool(x)]). *)
Definition truthy (v : PyVal) : bool :=
  match v with
  | VNone => false
  | VBool b => b
  | VInt z => negb (Z.eqb z 0)
  | VFloat q => negb (Qis_zero q)
  | VStr s => negb (String.eqb s "")
  | VList l => match l with [] => false | _ => true end
  | VDict d => match d with [] => false | _ => true end
  end.

(** [isinstance(v, (int, float))]; [bool] is a subclass of [int]. *)
Definition is_number (v : PyVal) : bool :=
  match v with
  | VBool _ | VInt _ | VFloat _ => true
  | _ => false
  end.

Definition as_number (v : PyVal) : option Q :=
  match v with
  | VBool b => Some (if b then 1 else 0)%Q
  | VInt z => Some (inject_Z z)
  | VFloat q => Some q
  | _ => None
  end.

(** Exceptions raised by the modelled code.  [ApplicationError] carries an
    instance of [BaseApplicationError] or of one of its subclasses: the
    class name and the attributes set by [__init__]. *)
Inductive PyExc : Type :=
| TypeError (msg : string)
| ValueError (msg : string)
| KeyError (key : string)
| IndexError
| AttributeError (msg : string)
| NotImplementedError (msg : string)
| ZeroDivisionError
| JSONDecodeError
| NotFound
| ApplicationError (cls : string) (attrs : PyDict)
| OtherException (msg : string).

(** Outcome of a call: a value, an exception, or [OutOfFuel] when the
    fuel given to a [while] loop did not suffice (the loop may not
    terminate; no [except] clause sees this outcome). *)
Inductive Res (A : Type) : Type :=
| Ret (a : A)
| Raise (e : PyExc)
| OutOfFuel.
Arguments Ret {A} a.
Arguments Raise {A} e.
Arguments OutOfFuel {A}.

Definition bind {A B} (m : Res A) (k : A -> Res B) : Res B :=
  match m with
  | Ret a => k a
  | Raise e => Raise e
  | OutOfFuel => OutOfFuel
  end.

(** [str(e)] *)
Definition exc_str (e : PyExc) : string :=
  match e with
  | TypeError msg | ValueError msg | AttributeError msg
  | NotImplementedError msg | OtherException msg => msg
  | KeyError key => "'" +:+ key +:+ "'"
  | IndexError => "list index out of range"
  | ZeroDivisionError => "float division by zero"
  | JSONDecodeError => "Expecting value"
  | NotFound => "404 Not Found"
  | ApplicationError _ attrs =>
      match dict_get attrs "message" with
      | Some (VStr msg) => msg
      | _ => ""
      end
  end.

(** [d[k]] on a dictionary. *)
Definition subscript (d : PyDict) (k : string) : Res PyVal :=
  match dict_get d k with
  | Some v => Ret v
  | None => Raise (KeyError k)
  end.

(** [x / y] on floats. *)
Definition py_div (x y : Q) : Res Q :=
  if Qis_zero y then Raise ZeroDivisionError else Ret (x / y)%Q.

(** *** Argument binding

    A signature lists the named parameters in order, each with its default
    if it has one, and says whether a [**kwargs] parameter collects the
    remaining keywords. *)
Record Signature : Type := {
  sig_name : string;
  sig_params : list (string * option PyVal);
  sig_varkw : bool
}.

(** Keywords of a call [f(..., k1=v1, ..., **extra)]: a keyword given both
    explicitly and through the [**] expansion is a [TypeError]. *)
Fixpoint merge_keywords (fname : string) (explicit extra : PyDict)
  : Res PyDict :=
  match extra with
  | [] => Ret explicit
  | (k, v) :: extra' =>
      if dict_has explicit k
      then Raise (TypeError
             (fname +:+ "() got multiple values for keyword argument '"
                    +:+ k +:+ "'"))
      else merge_keywords fname (explicit ++ [(k, v)]) extra'
  end.

(** Positional arguments fill the parameters from the left. *)
Fixpoint bind_positional (fname : string)
         (params : list (string * option PyVal)) (args : list PyVal)
  : Res (PyDict * list (string * option PyVal)) :=
  match args, params with
  | [], _ => Ret ([], params)
  | _ :: _, [] =>
      Raise (TypeError (fname +:+ "() takes too many positional arguments"))
  | a :: args', (p, _) :: params' =>
      bind (bind_positional fname params' args') (fun '(bound, rest) =>
      Ret ((p, a) :: bound, rest))
  end.

(** Keywords fill the remaining parameters; a parameter without keyword
    takes its default, and a parameter without default is missing. *)
Definition missing_params (rest : list (string * option PyVal))
           (kw : PyDict) : list string :=
  map fst
      (List.filter (fun '(p, dflt) =>
                 match dict_get kw p, dflt with
                 | None, None => true
                 | _, _ => false
                 end) rest).

Fixpoint bind_remaining (rest : list (string * option PyVal)) (kw : PyDict)
  : PyDict :=
  match rest with
  | [] => []
  | (p, dflt) :: rest' =>
      match dict_get kw p, dflt with
      | Some v, _ | None, Some v => (p, v) :: bind_remaining rest' kw
      | None, None => bind_remaining rest' kw
      end
  end.

Definition quote_names (names : list string) : string :=
  String.concat ", " (map (fun n => "'" +:+ n +:+ "'") names).

Definition param_names (params : list (string * option PyVal))
  : list string := map fst params.

Definition name_in (k : string) (names : list string) : bool :=
  existsb (String.eqb k) names.

(** [bind_call sg args kw] returns the bound parameters and the content of
    [**kwargs]. *)
Definition bind_call (sg : Signature) (args : list PyVal) (kw : PyDict)
  : Res (PyDict * PyDict) :=
  let fname := sig_name sg in
  bind (bind_positional fname (sig_params sg) args) (fun '(bound, rest) =>
  match find (fun '(k, _) => name_in k (map fst bound)) kw with
  | Some (k, _) =>
      Raise (TypeError
        (fname +:+ "() got multiple values for argument '" +:+ k +:+ "'"))
  | None =>
      let extra :=
        List.filter (fun '(k, _) => negb (name_in k (param_names (sig_params sg))))
               kw in
      match extra, sig_varkw sg with
      | (k, _) :: _, false =>
          Raise (TypeError
            (fname +:+ "() got an unexpected keyword argument '" +:+ k +:+ "'"))
      | _, _ =>
          match missing_params rest kw with
          | [] => Ret (bound ++ bind_remaining rest kw, extra)
          | missing =>
              Raise (TypeError
                (fname +:+ "() missing required positional argument(s): "
                       +:+ quote_names missing))
          end
      end
  end).

End Py.
Import Py.

Notation "'let*' p ':=' m 'in' k" := (Py.bind m (fun p => k))
  (at level 10, p pattern, m at level 100, k at level 200).

(* --------------------------------------------------------------------- *)
(** ** [app/services/waypoint_generator.py]                               *)
(* --------------------------------------------------------------------- *)

Module WaypointGen.

Record WaypointData : Type := {
  latitude : Q;
  longitude : Q;
  altitude : Q;
  order : Z;
  action : string;                      (* default "capture" *)
  estimated_time_seconds : option Z     (* default None *)
}.

Definition Coord : Type := (Q * Q)%type.          (* (x, y) = (lon, lat) *)
Definition Bounds : Type := (Q * Q * Q * Q)%type. (* minx, miny, maxx, maxy *)

(** The survey polygon is a Shapely [Polygon] (given by its exterior ring)
    when the geometry library was imported, and the dictionary built by
    [_create_simple_polygon] otherwise. *)
Inductive SurveyPolygon : Type :=
| ShapelyPolygon (ring : list Coord)
| SimplePolygon (coordinates : list (list Q)) (bounds : Bounds).

(** What the module takes from its environment: whether [import shapely]
    succeeded, the operations of Shapely and of the [json] and [math]
    modules.  Sine, cosine, square root and arc tangent are not rational
    functions, so [math.cos(math.radians(x))] and the haversine distance of
    [_calculate_distance] are taken as they are. *)
Class Platform : Type := {
  SHAPELY_AVAILABLE : bool;
  json_loads : string -> option PyVal;            (* None: JSONDecodeError *)
  cos_radians : Q -> Q;                           (* cos(radians(x)) *)
  _calculate_distance : Q -> Q -> Q -> Q -> Q;    (* lat1 lon1 lat2 lon2 *)
  shapely_Polygon : list (list Q) -> Res (list Coord);
  shapely_is_valid : list Coord -> bool;
  shapely_area : list Coord -> Q;
  shapely_bounds : list Coord -> Bounds;
  shapely_exterior_coords : list Coord -> list Coord;
  (** [polygon.intersection(LineString([a, b]))]: [Some coords] when the
      result is non-empty and has a coordinate sequence; the attribute
      test itself can raise. *)
  shapely_intersection : list Coord -> Coord -> Coord
                         -> Res (option (list Coord))
}.

(** Instance attributes set by [__init__]. *)
Definition earth_radius_m : Q := 6371000.
Definition default_speed_mps : Q := 15.
Definition turn_time_seconds : Q := 3.
Definition capture_time_seconds : Q := 2.

(** Names defined by [class WaypointGenerator]; looking up any other
    attribute on an instance raises [AttributeError]. *)
Definition WaypointGenerator_attributes : list string :=
  [ "earth_radius_m"; "default_speed_mps"; "turn_time_seconds";
    "capture_time_seconds"; "generate_waypoints"; "_validate_inputs";
    "_parse_survey_area"; "_create_simple_polygon"; "_calculate_bounds";
    "_generate_crosshatch_pattern"; "_generate_crosshatch_shapely";
    "_generate_crosshatch_simple"; "_generate_grid_pattern";
    "_generate_perimeter_pattern"; "_calculate_line_spacing";
    "_add_takeoff_landing"; "_calculate_timing"; "_calculate_distance";
    "_point_in_polygon_simple"; "estimate_mission_duration";
    "validate_waypoints" ].

Definition getattr_WaypointGenerator (name : string) : Res unit :=
  if name_in name WaypointGenerator_attributes then Ret tt
  else Raise (AttributeError
         ("'WaypointGenerator' object has no attribute '" +:+ name +:+ "'")).

Section Generator.
Context `{Platform}.

Definition _validate_inputs (survey_area_geojson : string)
           (altitude_m overlap_percentage : Q) (pattern_type : string)
  : Res unit :=
  if String.eqb survey_area_geojson "" then
    Raise (ValueError "Survey area GeoJSON is required")
  else if Qltb altitude_m 10 || Qgtb altitude_m 400 then
    Raise (ValueError "Altitude must be between 10 and 400 meters")
  else if Qltb overlap_percentage 30 || Qgtb overlap_percentage 90 then
    Raise (ValueError "Overlap percentage must be between 30 and 90")
  else if negb (name_in pattern_type ["crosshatch"; "grid"; "perimeter"])
  then Raise (ValueError "Pattern type must be one of: ['crosshatch', 'grid', 'perimeter']")
  else Ret tt.

(** [coord[i]] on a coordinate list. *)
Definition coord_item (coord : list Q) (i : nat) : Res Q :=
  match nth_error coord i with
  | Some q => Ret q
  | None => Raise IndexError
  end.

Fixpoint collect_items (i : nat) (coordinates : list (list Q))
  : Res (list Q) :=
  match coordinates with
  | [] => Ret []
  | coord :: rest =>
      let* q := coord_item coord i in
      let* qs := collect_items i rest in
      Ret (q :: qs)
  end.

(** [min(xs)] and [max(xs)]; an empty sequence is a [ValueError]. *)
Definition py_min (xs : list Q) : Res Q :=
  match xs with
  | [] => Raise (ValueError "min() arg is an empty sequence")
  | x :: xs' => Ret (fold_left Qmin xs' x)
  end.

Definition py_max (xs : list Q) : Res Q :=
  match xs with
  | [] => Raise (ValueError "max() arg is an empty sequence")
  | x :: xs' => Ret (fold_left Qmax xs' x)
  end.

Definition _calculate_bounds (coordinates : list (list Q)) : Res Bounds :=
  let* lons := collect_items 0 coordinates in
  let* lats := collect_items 1 coordinates in
  let* min_lon := py_min lons in
  let* min_lat := py_min lats in
  let* max_lon := py_max lons in
  let* max_lat := py_max lats in
  Ret (min_lon, min_lat, max_lon, max_lat).

Definition _create_simple_polygon (coordinates : list (list Q))
  : Res SurveyPolygon :=
  let* bounds := _calculate_bounds coordinates in
  Ret (SimplePolygon coordinates bounds).

(** Reading the exterior ring out of the parsed JSON: a list of
    coordinates, each a list of numbers.  Anything else makes the Python
    code raise at its first use of the value; the model raises
    [TypeError] for all of these. *)
Fixpoint decode_numbers (vs : list PyVal) : Res (list Q) :=
  match vs with
  | [] => Ret []
  | v :: vs' =>
      match as_number v with
      | Some q => let* qs := decode_numbers vs' in Ret (q :: qs)
      | None => Raise (TypeError "coordinate is not a number")
      end
  end.

Fixpoint decode_ring (vs : list PyVal) : Res (list (list Q)) :=
  match vs with
  | [] => Ret []
  | VList c :: vs' =>
      let* c' := decode_numbers c in
      let* cs := decode_ring vs' in
      Ret (c' :: cs)
  | _ :: _ => Raise (TypeError "coordinate is not a sequence")
  end.

(** The [except (json.JSONDecodeError, KeyError, IndexError)] clause of
    [_parse_survey_area]. *)
Definition reraise_as_invalid_geojson {A} (r : Res A) : Res A :=
  match r with
  | Raise JSONDecodeError => Raise (ValueError "Invalid GeoJSON format: JSONDecodeError")
  | Raise (KeyError k) => Raise (ValueError ("Invalid GeoJSON format: '" +:+ k +:+ "'"))
  | Raise IndexError => Raise (ValueError "Invalid GeoJSON format: list index out of range")
  | _ => r
  end.

Definition _parse_survey_area (survey_area_geojson : string)
  : Res SurveyPolygon :=
  reraise_as_invalid_geojson (
    let* geojson_data :=
      match json_loads survey_area_geojson with
      | Some v => Ret v
      | None => Raise JSONDecodeError
      end in
    match geojson_data with
    | VDict d =>
        match dict_get d "type" with
        | Some (VStr "Polygon") =>
            let* rings :=
              match dict_get d "coordinates" with
              | Some v => Ret v
              | None => Raise (KeyError "coordinates")
              end in
            let* coordinates :=
              match rings with
              | VList (VList ring :: _) => Ret ring
              | VList [] => Raise IndexError
              | VDict _ => Raise (KeyError "0")
              | _ => Raise (TypeError "exterior ring is not a list")
              end in
            if SHAPELY_AVAILABLE then
              let* cs := decode_ring coordinates in
              let* polygon := shapely_Polygon cs in
              if negb (shapely_is_valid polygon) then
                Raise (ValueError "Invalid polygon geometry")
              else Ret (ShapelyPolygon polygon)
            else
              if (length coordinates <? 4)%nat then
                Raise (ValueError "Polygon must have at least 4 coordinates")
              else
                let* cs := decode_ring coordinates in
                _create_simple_polygon cs
        | _ => Raise (ValueError "GeoJSON must be a Polygon")
        end
    | _ => Raise (AttributeError "object has no attribute 'get'")
    end).

Definition _calculate_line_spacing (altitude_m overlap_percentage : Q)
  : Q :=
  let ground_width_m := (altitude_m * (1732 # 1000))%Q in
  let overlap_factor := ((100 - overlap_percentage) / 100)%Q in
  let line_spacing_m := (ground_width_m * overlap_factor)%Q in
  Qmax line_spacing_m 10.

Definition capture_at (altitude_m : Q) (order : Z) (lat lon : Q)
  : WaypointData :=
  {| latitude := lat; longitude := lon; altitude := altitude_m;
     order := order; action := "capture";
     estimated_time_seconds := None |}.

(** [for coord in intersection.coords: waypoints.append(...); order += 1] *)
Fixpoint append_coords (altitude_m : Q) (coords : list Coord)
         (waypoints : list WaypointData) (order : Z)
  : list WaypointData * Z :=
  match coords with
  | [] => (waypoints, order)
  | c :: cs =>
      append_coords altitude_m cs
        (waypoints ++ [capture_at altitude_m order (snd c) (fst c)])
        (order + 1)
  end.

Definition add_intersection (altitude_m : Q)
           (intersection : option (list Coord))
           (waypoints : list WaypointData) (order : Z)
  : list WaypointData * Z :=
  match intersection with
  | Some coords => append_coords altitude_m coords waypoints order
  | None => (waypoints, order)
  end.

(** [while current_lon <= maxx]: the north-south lines. *)
Fixpoint north_south_lines (fuel : nat) (polygon : list Coord)
         (altitude_m miny maxx maxy lon_spacing_deg : Q)
         (current_lon : Q) (direction : Z)
         (waypoints : list WaypointData) (order : Z)
  : Res (list WaypointData * Z) :=
  if Qle_bool current_lon maxx then
    match fuel with
    | O => OutOfFuel
    | S fuel' =>
        let line :=
          if (direction =? 1)%Z
          then ((current_lon, miny), (current_lon, maxy))
          else ((current_lon, maxy), (current_lon, miny)) in
        let* intersection :=
          shapely_intersection polygon (fst line) (snd line) in
        let '(waypoints', order') :=
          add_intersection altitude_m intersection waypoints order in
        north_south_lines fuel' polygon altitude_m miny maxx maxy
          lon_spacing_deg (current_lon + lon_spacing_deg)%Q
          (direction * -1)%Z waypoints' order'
    end
  else Ret (waypoints, order).

(** [while current_lat <= maxy]: the cross lines. *)
Fixpoint east_west_lines (fuel : nat) (polygon : list Coord)
         (altitude_m minx maxx maxy lat_spacing_deg : Q)
         (current_lat : Q)
         (waypoints : list WaypointData) (order : Z)
  : Res (list WaypointData * Z) :=
  if Qle_bool current_lat maxy then
    match fuel with
    | O => OutOfFuel
    | S fuel' =>
        let* intersection :=
          shapely_intersection polygon (minx, current_lat)
                               (maxx, current_lat) in
        let '(waypoints', order') :=
          add_intersection altitude_m intersection waypoints order in
        east_west_lines fuel' polygon altitude_m minx maxx maxy
          lat_spacing_deg (current_lat + lat_spacing_deg)%Q
          waypoints' order'
    end
  else Ret (waypoints, order).

Definition _generate_crosshatch_shapely (fuel : nat)
           (polygon : list Coord) (altitude_m line_spacing_m : Q)
           (cross_lines : bool) : Res (list WaypointData) :=
  let '(minx, miny, maxx, maxy) := shapely_bounds polygon in
  let lat_spacing_deg := (line_spacing_m / 111000)%Q in
  let* lon_spacing_deg :=
    py_div line_spacing_m (111000 * cos_radians ((miny + maxy) / 2))%Q in
  let* (waypoints, order) :=
    north_south_lines fuel polygon altitude_m miny maxx maxy
                      lon_spacing_deg minx 1 [] 1 in
  if cross_lines then
    let* (waypoints', _) :=
      east_west_lines fuel polygon altitude_m minx maxx maxy
                      lat_spacing_deg miny waypoints order in
    Ret waypoints'
  else Ret waypoints.

(** [p1x, p1y = coord]: exactly two items. *)
Definition unpack_pair (coord : list Q) : Res (Q * Q) :=
  match coord with
  | [x; y] => Ret (x, y)
  | _ => Raise (ValueError "wrong number of values to unpack")
  end.

(** Body of [for i in range(1, n + 1)] in the ray-casting test. *)
Fixpoint ray_casting (x y : Q) (polygon_coords : list (list Q))
         (indices : list nat) (p1 : Q * Q) (inside : bool) : Res bool :=
  match indices with
  | [] => Ret inside
  | i :: indices' =>
      let n := length polygon_coords in
      let* c :=
        match nth_error polygon_coords (i mod n) with
        | Some c => Ret c
        | None => Raise IndexError
        end in
      let* p2 := unpack_pair c in
      let '(p1x, p1y) := p1 in
      let '(p2x, p2y) := p2 in
      let* inside' :=
        if Qgtb y (Qmin p1y p2y) then
          if Qle_bool y (Qmax p1y p2y) then
            if Qle_bool x (Qmax p1x p2x) then
              let* xinters :=
                if negb (Qeq_bool p1y p2y) then
                  let* q := py_div ((y - p1y) * (p2x - p1x)) (p2y - p1y) in
                  Ret (q + p1x)%Q
                else Raise (OtherException "xinters referenced before assignment") in
              if Qeq_bool p1x p2x || Qle_bool x xinters
              then Ret (negb inside) else Ret inside
            else Ret inside
          else Ret inside
        else Ret inside in
      ray_casting x y polygon_coords indices' p2 inside'
  end.

Definition _point_in_polygon_simple (x y : Q)
           (polygon_coords : list (list Q)) : Res bool :=
  let n := length polygon_coords in
  let* c0 :=
    match polygon_coords with
    | c :: _ => Ret c
    | [] => Raise IndexError
    end in
  let* p1 := unpack_pair c0 in
  ray_casting x y polygon_coords (seq 1 n) p1 false.

(** Inner [while current_lon < maxx] of the fallback lattice. *)
Fixpoint lattice_row (fuel : nat) (coordinates : list (list Q))
         (altitude_m maxx lon_spacing_deg current_lat : Q)
         (current_lon : Q)
         (waypoints : list WaypointData) (order : Z)
  : Res (list WaypointData * Z) :=
  if Qltb current_lon maxx then
    match fuel with
    | O => OutOfFuel
    | S fuel' =>
        let* inside :=
          _point_in_polygon_simple current_lon current_lat coordinates in
        let '(waypoints', order') :=
          if inside
          then (waypoints ++ [capture_at altitude_m order current_lat
                                         current_lon], (order + 1)%Z)
          else (waypoints, order) in
        lattice_row fuel' coordinates altitude_m maxx lon_spacing_deg
                    current_lat (current_lon + lon_spacing_deg)%Q
                    waypoints' order'
    end
  else Ret (waypoints, order).

(** Outer [while current_lat < maxy]. *)
Fixpoint lattice_rows (fuel fuel_row : nat) (coordinates : list (list Q))
         (altitude_m minx maxx maxy lat_spacing_deg lon_spacing_deg : Q)
         (current_lat : Q)
         (waypoints : list WaypointData) (order : Z)
  : Res (list WaypointData * Z) :=
  if Qltb current_lat maxy then
    match fuel with
    | O => OutOfFuel
    | S fuel' =>
        let* (waypoints', order') :=
          lattice_row fuel_row coordinates altitude_m maxx lon_spacing_deg
                      current_lat (minx + lon_spacing_deg)%Q
                      waypoints order in
        lattice_rows fuel' fuel_row coordinates altitude_m minx maxx maxy
                     lat_spacing_deg lon_spacing_deg
                     (current_lat + lat_spacing_deg)%Q waypoints' order'
    end
  else Ret (waypoints, order).

Definition _generate_crosshatch_simple (fuel : nat)
           (coordinates : list (list Q)) (bounds : Bounds)
           (altitude_m line_spacing_m : Q) (cross_lines : bool)
  : Res (list WaypointData) :=
  let '(minx, miny, maxx, maxy) := bounds in
  let lat_spacing_deg := (line_spacing_m / 111000)%Q in
  let* lon_spacing_deg :=
    py_div line_spacing_m (111000 * cos_radians ((miny + maxy) / 2))%Q in
  let* (waypoints, _) :=
    lattice_rows fuel fuel coordinates altitude_m minx maxx maxy
                 lat_spacing_deg lon_spacing_deg
                 (miny + lat_spacing_deg)%Q [] 1 in
  Ret waypoints.

Definition _generate_crosshatch_pattern (fuel : nat)
           (polygon : SurveyPolygon)
           (altitude_m overlap_percentage : Q) (kwargs : PyDict)
  : Res (list WaypointData) :=
  let line_spacing_m := _calculate_line_spacing altitude_m overlap_percentage in
  let* line_spacing_m :=
    match dict_get kwargs "line_spacing_m" with
    | Some v =>
        match as_number v with
        | Some q => Ret q
        | None => Raise (TypeError "unsupported operand type(s) for /")
        end
    | None => Ret line_spacing_m
    end in
  let cross_lines :=
    match dict_get kwargs "cross_lines" with
    | Some v => truthy v
    | None => true
    end in
  if SHAPELY_AVAILABLE then
    match polygon with
    | ShapelyPolygon ring =>
        _generate_crosshatch_shapely fuel ring altitude_m line_spacing_m
                                     cross_lines
    | SimplePolygon _ _ =>
        Raise (AttributeError "'dict' object has no attribute 'bounds'")
    end
  else
    match polygon with
    | SimplePolygon coordinates bounds =>
        _generate_crosshatch_simple fuel coordinates bounds altitude_m
                                    line_spacing_m cross_lines
    | ShapelyPolygon _ =>
        Raise (TypeError "'Polygon' object is not subscriptable")
    end.

(** [_generate_crosshatch_pattern(..., cross_lines=True, **kwargs)] *)
Definition _generate_grid_pattern (fuel : nat) (polygon : SurveyPolygon)
           (altitude_m overlap_percentage : Q) (kwargs : PyDict)
  : Res (list WaypointData) :=
  let* kwargs' :=
    merge_keywords "_generate_crosshatch_pattern"
                   [("cross_lines", VBool true)] kwargs in
  _generate_crosshatch_pattern fuel polygon altitude_m overlap_percentage
                               kwargs'.

(** [for i, coord in enumerate(coords[:-1])] *)
Fixpoint perimeter_points (altitude_m : Q) (coords : list (list Q))
         (waypoints : list WaypointData) (order : Z)
  : Res (list WaypointData) :=
  match coords with
  | [] => Ret waypoints
  | coord :: rest =>
      let* lat := coord_item coord 1 in
      let* lon := coord_item coord 0 in
      perimeter_points altitude_m rest
        (waypoints ++ [capture_at altitude_m order lat lon]) (order + 1)
  end.

Definition _generate_perimeter_pattern (polygon : SurveyPolygon)
           (altitude_m : Q) (kwargs : PyDict) : Res (list WaypointData) :=
  let buffer_distance_m :=
    match dict_get kwargs "buffer_distance_m" with
    | Some v => v
    | None => VFloat 10
    end in
  let coords :=
    match polygon with
    | ShapelyPolygon ring =>
        map (fun c : Coord => [fst c; snd c]) (shapely_exterior_coords ring)
    | SimplePolygon coordinates _ => coordinates
    end in
  perimeter_points altitude_m (removelast coords) [] 1.

Definition set_order (w : WaypointData) (o : Z) : WaypointData :=
  {| latitude := latitude w; longitude := longitude w;
     altitude := altitude w; order := o; action := action w;
     estimated_time_seconds := estimated_time_seconds w |}.

Definition set_estimated_time (w : WaypointData) (t : Z) : WaypointData :=
  {| latitude := latitude w; longitude := longitude w;
     altitude := altitude w; order := order w; action := action w;
     estimated_time_seconds := Some t |}.

(** [for i, waypoint in enumerate(waypoints): waypoint.order = i + 1] *)
Fixpoint renumber (i : Z) (waypoints : list WaypointData)
  : list WaypointData :=
  match waypoints with
  | [] => []
  | w :: ws => set_order w (i + 1) :: renumber (i + 1) ws
  end.

Definition _add_takeoff_landing (waypoints : list WaypointData)
           (polygon : SurveyPolygon) : list WaypointData :=
  match waypoints with
  | [] => waypoints
  | first_waypoint :: _ =>
      let takeoff_waypoint :=
        {| latitude := latitude first_waypoint;
           longitude := longitude first_waypoint;
           altitude := altitude first_waypoint;
           order := 0; action := "takeoff";
           estimated_time_seconds := None |} in
      let landing_waypoint :=
        {| latitude := latitude first_waypoint;
           longitude := longitude first_waypoint;
           altitude := 0;
           order := Z.of_nat (length waypoints) + 1; action := "land";
           estimated_time_seconds := None |} in
      [takeoff_waypoint] ++ renumber 0 waypoints ++ [landing_waypoint]
  end.

(** [for i, waypoint in enumerate(waypoints)] of [_calculate_timing];
    [prev] is [waypoints[i - 1]], absent when [i = 0]. *)
Fixpoint timing_loop (prev : option WaypointData) (total_time : Q)
         (waypoints : list WaypointData) : list WaypointData :=
  match waypoints with
  | [] => []
  | waypoint :: rest =>
      match prev with
      | None =>
          let waypoint' := set_estimated_time waypoint (Qtrunc total_time) in
          let total_time' :=
            if String.eqb (action waypoint) "takeoff"
            then (total_time + 10)%Q else total_time in
          waypoint' :: timing_loop (Some waypoint') total_time' rest
      | Some prev_waypoint =>
          let distance_m :=
            _calculate_distance (latitude prev_waypoint)
                                (longitude prev_waypoint)
                                (latitude waypoint) (longitude waypoint) in
          let travel_time := (distance_m / default_speed_mps)%Q in
          let total_time := (total_time + travel_time)%Q in
          let total_time :=
            if String.eqb (action waypoint) "capture"
            then (total_time + capture_time_seconds)%Q
            else if String.eqb (action waypoint) "hover"
            then (total_time + 5)%Q
            else if String.eqb (action waypoint) "land"
            then (total_time + 15)%Q
            else total_time in
          let waypoint' := set_estimated_time waypoint (Qtrunc total_time) in
          waypoint' :: timing_loop (Some waypoint') total_time rest
      end
  end.

Definition _calculate_timing (waypoints : list WaypointData)
  : list WaypointData := timing_loop None 0 waypoints.

(** The survey points of the selected pattern: the first three steps of
    [generate_waypoints]. *)
Definition survey_points (fuel : nat) (survey_area_geojson : string)
           (altitude_m overlap_percentage : Q) (pattern_type : string)
           (kwargs : PyDict) : Res (SurveyPolygon * list WaypointData) :=
  let* _ := _validate_inputs survey_area_geojson altitude_m
                             overlap_percentage pattern_type in
  let* survey_polygon := _parse_survey_area survey_area_geojson in
  let* waypoints :=
    if String.eqb pattern_type "crosshatch" then
      _generate_crosshatch_pattern fuel survey_polygon altitude_m
                                   overlap_percentage kwargs
    else if String.eqb pattern_type "grid" then
      _generate_grid_pattern fuel survey_polygon altitude_m
                             overlap_percentage kwargs
    else if String.eqb pattern_type "perimeter" then
      _generate_perimeter_pattern survey_polygon altitude_m kwargs
    else
      Raise (NotImplementedError
               ("Pattern type '" +:+ pattern_type +:+ "' not implemented")) in
  Ret (survey_polygon, waypoints).

Definition generate_waypoints (fuel : nat) (survey_area_geojson : string)
           (altitude_m overlap_percentage : Q) (pattern_type : string)
           (kwargs : PyDict) : Res (list WaypointData) :=
  let* (survey_polygon, waypoints) :=
    survey_points fuel survey_area_geojson altitude_m overlap_percentage
                  pattern_type kwargs in
  let waypoints := _add_takeoff_landing waypoints survey_polygon in
  let waypoints := _calculate_timing waypoints in
  Ret waypoints.

Definition estimate_mission_duration (waypoints : list WaypointData) : Z :=
  match last waypoints with
  | None => 0
  | Some last_waypoint =>
      let total_seconds :=
        match estimated_time_seconds last_waypoint with
        | Some t => t
        | None => 0
        end in
      let total_seconds := Qtrunc (inject_Z total_seconds * (11 # 10)) in
      Z.max 1 (total_seconds / 60)
  end.

(** *** Calling [generate_waypoints] from dynamically typed code

    [def generate_waypoints(self, survey_area_geojson, altitude_m,
    overlap_percentage, pattern_type, **kwargs)] *)
Definition generate_waypoints_signature : Signature :=
  {| sig_name := "generate_waypoints";
     sig_params := [ ("survey_area_geojson", None); ("altitude_m", None);
                     ("overlap_percentage", None); ("pattern_type", None) ];
     sig_varkw := true |}.

Definition expect_number (v : option PyVal) : Res Q :=
  match v with
  | Some v' =>
      match as_number v' with
      | Some q => Ret q
      | None => Raise (TypeError "'<' not supported between these types")
      end
  | None => Raise (TypeError "unbound parameter")
  end.

(** Binding comes first; the body runs on the bound values.  A GeoJSON
    argument that is not a [str] is falsy (rejected by [_validate_inputs])
    or rejected by [json.loads]. *)
Definition call_generate_waypoints (fuel : nat) (args : list PyVal)
           (keywords : PyDict) : Res (list WaypointData) :=
  let* (bound, kwargs) := bind_call generate_waypoints_signature args
                                     keywords in
  let* altitude_m := expect_number (dict_get bound "altitude_m") in
  let* overlap_percentage :=
    expect_number (dict_get bound "overlap_percentage") in
  match dict_get bound "survey_area_geojson", dict_get bound "pattern_type" with
  | Some (VStr survey_area_geojson), Some (VStr pattern_type) =>
      generate_waypoints fuel survey_area_geojson altitude_m
                         overlap_percentage pattern_type kwargs
  | Some v, Some (VStr _) =>
      if truthy v
      then Raise (TypeError "the JSON object must be str, bytes or bytearray")
      else Raise (ValueError "Survey area GeoJSON is required")
  | _, _ =>
      Raise (ValueError "Pattern type must be one of: ['crosshatch', 'grid', 'perimeter']")
  end.

End Generator.

(** What every pattern generator produces: capture points at the mission
    altitude. *)
Definition surveyed (altitude_m : Q) (w : WaypointData) : Prop :=
  altitude w = altitude_m /\ action w = "capture".


(** *** A platform without Shapely, for running the generator

    The JSON reader knows two documents; the cosine is the one of the
    equator and distances are taken on a flat grid of 111 km per degree. *)
Definition dq : string := String (Ascii.ascii_of_nat 34) EmptyString.

Definition polygon_json (ring : string) : string :=
  "{" +:+ dq +:+ "type" +:+ dq +:+ ": " +:+ dq +:+ "Polygon" +:+ dq
      +:+ ", " +:+ dq +:+ "coordinates" +:+ dq +:+ ": [" +:+ ring +:+ "]}".

Definition polygon_value (ring : list (Q * Q)) : PyVal :=
  VDict [ ("type", VStr "Polygon");
          ("coordinates",
           VList [VList (map (fun c : Q * Q =>
                                VList [VFloat (fst c); VFloat (snd c)]) ring)]) ].

(** A square of one hundredth of a degree and one of one ten-thousandth. *)
Definition field_json : string :=
  polygon_json "[[0, 0], [0.01, 0], [0.01, 0.01], [0, 0.01], [0, 0]]".
Definition field_ring : list (Q * Q) :=
  [ (0, 0); (1 # 100, 0); (1 # 100, 1 # 100); (0, 1 # 100); (0, 0) ]%Q.

Definition plot_json : string :=
  polygon_json "[[0, 0], [0.0001, 0], [0.0001, 0.0001], [0, 0.0001], [0, 0]]".
Definition plot_ring : list (Q * Q) :=
  [ (0, 0); (1 # 10000, 0); (1 # 10000, 1 # 10000); (0, 1 # 10000); (0, 0) ]%Q.

Definition fallback_platform : Platform :=
  {| SHAPELY_AVAILABLE := false;
     json_loads := fun s =>
       if String.eqb s field_json then Some (polygon_value field_ring)
       else if String.eqb s plot_json then Some (polygon_value plot_ring)
       else None;
     cos_radians := fun _ => 1%Q;
     _calculate_distance := fun lat1 lon1 lat2 lon2 =>
       (111000 * (Qabs (lat2 - lat1) + Qabs (lon2 - lon1)))%Q;
     shapely_Polygon := fun _ => Raise (OtherException "shapely is not installed");
     shapely_is_valid := fun _ => false;
     shapely_area := fun _ => 0%Q;
     shapely_bounds := fun _ => (0, 0, 0, 0)%Q;
     shapely_exterior_coords := fun ring => ring;
     shapely_intersection := fun _ _ _ =>
       Raise (OtherException "shapely is not installed") |}.

End WaypointGen.

(* --------------------------------------------------------------------- *)
(** ** [app/services/mission_planner.py]                                  *)
(* --------------------------------------------------------------------- *)

Module Planner.
Import WaypointGen.

Record ValidationResult : Type := {
  valid : bool;
  errors : list string
}.

(** The dictionaries returned by [plan_mission]. *)
Inductive PlanningError : Type :=
| ValidationErrors (errs : list string)
| GenerationFailed (message : string).

Inductive PlanningResult : Type :=
| PlanningFailure (error : PlanningError)
    (* 'success': False, 'mission': None, 'waypoints': [] *)
| PlanningSuccess (mission_data : PyDict) (waypoints : list WaypointData)
                  (assigned_drone : option PyDict).

Definition success (r : PlanningResult) : bool :=
  match r with
  | PlanningFailure _ => false
  | PlanningSuccess _ _ _ => true
  end.

Definition result_waypoints (r : PlanningResult) : list WaypointData :=
  match r with
  | PlanningFailure _ => []
  | PlanningSuccess _ waypoints _ => waypoints
  end.

(** [self.waypoint_generator.<name>(waypoints)] for a method from waypoint
    lists to minutes: the attribute is looked up on the generator first. *)
Definition duration_method `{Platform} (name : string)
  : Res (list WaypointData -> Z) :=
  let* _ := getattr_WaypointGenerator name in
  if String.eqb name "estimate_mission_duration"
  then Ret estimate_mission_duration
  else Raise (TypeError ("'" +:+ name +:+ "' does not take a waypoint list")).

Section MissionPlanner.
Context `{Platform}.

(** The drones table and the scoring of [find_best_drone_for_mission]
    stay abstract: a drone, its identifier and its [to_dict()]. *)
Context {Drone : Type}.
Variable drone_id : Drone -> Z.
Variable drone_to_dict : Drone -> PyDict.
Variable find_best_drone_for_mission :
  list WaypointData -> Z -> Res (option Drone).

Definition required_fields : list string :=
  [ "name"; "survey_area_geojson"; "altitude_m"; "overlap_percentage";
    "survey_pattern" ].

Definition missing_field_errors (mission_data : PyDict) : list string :=
  map (fun field => "Missing required field: " +:+ field)
      (List.filter (fun field => negb (dict_has mission_data field))
                   required_fields).

Definition altitude_errors (altitude : PyVal) : list string :=
  match (if is_number altitude then as_number altitude else None) with
  | None => ["Altitude must be a positive number"]
  | Some a =>
      if Qle_bool a 0 then ["Altitude must be a positive number"]
      else if Qgtb a 120 then
        ["Altitude exceeds maximum limit of 120 meters"]
      else if Qltb a 10 then
        ["Altitude below minimum safe limit of 10 meters"]
      else []
  end.

Definition overlap_errors (overlap : PyVal) : list string :=
  match (if is_number overlap then as_number overlap else None) with
  | None => ["Overlap percentage must be a number"]
  | Some o =>
      if Qltb o 10 || Qgtb o 90
      then ["Overlap percentage must be between 10% and 90%"]
      else []
  end.

(** The [try] block that checks the survey area. *)
Definition survey_area_check (geojson : PyVal) : Res (list string) :=
  let* geojson :=
    match geojson with
    | VStr s =>
        match json_loads s with
        | Some v => Ret v
        | None => Raise JSONDecodeError
        end
    | v => Ret v
    end in
  let* rings :=
    match geojson with
    | VDict d => subscript d "coordinates"
    | _ => Raise (TypeError "object is not subscriptable")
    end in
  let* coords :=
    match rings with
    | VList (VList ring :: _) => Ret ring
    | VList [] => Raise IndexError
    | VDict _ => Raise (KeyError "0")
    | _ => Raise (TypeError "exterior ring is not a list")
    end in
  let* cs := decode_ring coords in
  let* polygon := shapely_Polygon cs in
  if negb (shapely_is_valid polygon) then
    Ret ["Survey area polygon is not valid"]
  else if Qis_zero (shapely_area polygon) then
    Ret ["Survey area has zero area"]
  else Ret [].

Definition validate_mission_parameters (mission_data : PyDict)
  : Res ValidationResult :=
  let errors := missing_field_errors mission_data in
  match errors with
  | _ :: _ => Ret {| valid := false; errors := errors |}
  | [] =>
      let* altitude := subscript mission_data "altitude_m" in
      let errors := errors ++ altitude_errors altitude in
      let* overlap := subscript mission_data "overlap_percentage" in
      let errors := errors ++ overlap_errors overlap in
      let* errors :=
        match (let* geojson := subscript mission_data "survey_area_geojson" in
               survey_area_check geojson) with
        | Ret area_errors => Ret (errors ++ area_errors)
        | Raise e =>
            Ret (errors ++ ["Invalid survey area GeoJSON: " +:+ exc_str e])
        | OutOfFuel => OutOfFuel
        end in
      Ret {| valid := (length errors =? 0)%nat; errors := errors |}
  end.

Definition plan_mission (fuel : nat) (mission_data : PyDict)
           (auto_assign_drone : bool) : Res PlanningResult :=
  let* validation_result := validate_mission_parameters mission_data in
  if negb (valid validation_result) then
    Ret (PlanningFailure (ValidationErrors (errors validation_result)))
  else
    match (let* survey_area_geojson :=
             subscript mission_data "survey_area_geojson" in
           let* altitude_m := subscript mission_data "altitude_m" in
           let* overlap_percentage :=
             subscript mission_data "overlap_percentage" in
           let* survey_pattern := subscript mission_data "survey_pattern" in
           call_generate_waypoints fuel []
             [ ("survey_area_geojson", survey_area_geojson);
               ("altitude_m", altitude_m);
               ("overlap_percentage", overlap_percentage);
               ("survey_pattern", survey_pattern) ]) with
    | Raise e =>
        Ret (PlanningFailure
               (GenerationFailed
                  ("Waypoint generation failed: " +:+ exc_str e)))
    | OutOfFuel => OutOfFuel
    | Ret waypoints =>
        let* calculate_estimated_duration :=
          duration_method "calculate_estimated_duration" in
        let estimated_duration := calculate_estimated_duration waypoints in
        let* assigned_drone :=
          if auto_assign_drone
          then find_best_drone_for_mission waypoints estimated_duration
          else Ret None in
        Ret (PlanningSuccess
               (dict_set
                  (dict_set mission_data "estimated_duration_minutes"
                            (VInt estimated_duration))
                  "drone_id"
                  (match assigned_drone with
                   | Some d => VInt (drone_id d)
                   | None => VNone
                   end))
               waypoints
               (option_map drone_to_dict assigned_drone))
    end.

End MissionPlanner.

(** *** A platform with a stand-in for Shapely

    Every ring is taken as valid, its area is the one of the shoelace
    formula and no line meets it. *)
Fixpoint shoelace (ring : list Coord) : Q :=
  match ring with
  | (x1, y1) :: (((x2, y2) :: _) as rest) =>
      (x1 * y2 - x2 * y1 + shoelace rest)%Q
  | _ => 0%Q
  end.

Fixpoint ring_pairs (cs : list (list Q)) : Res (list Coord) :=
  match cs with
  | [] => Ret []
  | c :: cs' =>
      let* p := unpack_pair c in
      let* ps := ring_pairs cs' in
      Ret (p :: ps)
  end.

Definition shoelace_platform : Platform :=
  {| SHAPELY_AVAILABLE := true;
     json_loads := json_loads (Platform := fallback_platform);
     cos_radians := cos_radians (Platform := fallback_platform);
     _calculate_distance := _calculate_distance (Platform := fallback_platform);
     shapely_Polygon := fun cs =>
       if (length cs <? 3)%nat
       then Raise (ValueError "A LinearRing must have at least 3 coordinate tuples")
       else ring_pairs cs;
     shapely_is_valid := fun _ => true;
     shapely_area := fun ring => (Qabs (shoelace ring) / 2)%Q;
     shapely_bounds := fun ring =>
       match ring with
       | [] => (0, 0, 0, 0)%Q
       | (x, y) :: rest =>
           (fold_left Qmin (map fst rest) x, fold_left Qmin (map snd rest) y,
            fold_left Qmax (map fst rest) x, fold_left Qmax (map snd rest) y)
       end;
     shapely_exterior_coords := fun ring => ring;
     shapely_intersection := fun _ _ _ => Ret None |}.

(** A request body as the mission-creation endpoint receives it. *)
Definition field_mission : PyDict :=
  [ ("name", VStr "North field");
    ("survey_area_geojson", VStr field_json);
    ("altitude_m", VInt 100);
    ("overlap_percentage", VInt 70);
    ("survey_pattern", VStr "grid") ].

End Planner.

(* --------------------------------------------------------------------- *)
(** ** [app/core/error_handling.py]                                       *)
(* --------------------------------------------------------------------- *)

Module ErrorHandling.

(** Members of [ErrorSeverity] and [ErrorCategory] are given by their
    values. *)
Definition ErrorSeverity_MEDIUM : PyVal := VStr "medium".
Definition ErrorSeverity_HIGH : PyVal := VStr "high".
Definition ErrorCategory_SYSTEM : PyVal := VStr "system".
Definition ErrorCategory_EXTERNAL_SERVICE : PyVal := VStr "external_service".

(** [ErrorContext()] with every field at its default. *)
Definition ErrorContext_default : PyVal :=
  VDict [ ("user_id", VNone); ("request_id", VNone); ("endpoint", VNone);
          ("method", VNone); ("ip_address", VNone); ("user_agent", VNone);
          ("additional_data", VDict []) ].

(** [a or b] *)
Definition py_or (a b : PyVal) : PyVal := if truthy a then a else b.

Definition bound_value (bound : PyDict) (k : string) : PyVal :=
  match dict_get bound k with
  | Some v => v
  | None => VNone
  end.

(** [BaseApplicationError.__init__(self, message, error_code=None,
    category=ErrorCategory.SYSTEM, severity=ErrorSeverity.MEDIUM,
    context=None, cause=None, user_message=None, retry_after=None,
    metadata=None)] *)
Definition BaseApplicationError_signature : Signature :=
  {| sig_name := "__init__";
     sig_params :=
       [ ("message", None); ("error_code", Some VNone);
         ("category", Some ErrorCategory_SYSTEM);
         ("severity", Some ErrorSeverity_MEDIUM);
         ("context", Some VNone); ("cause", Some VNone);
         ("user_message", Some VNone); ("retry_after", Some VNone);
         ("metadata", Some VNone) ];
     sig_varkw := false |}.

(** The attributes set by [__init__] on an instance of class [cls].  The
    [timestamp] and the [error_id] come from the clock and from a random
    UUID; they are left out. *)
Definition BaseApplicationError_init (cls : string) (args : list PyVal)
           (keywords : PyDict) : Res PyDict :=
  let* (bound, _) := bind_call BaseApplicationError_signature args keywords in
  Ret [ ("message", bound_value bound "message");
        ("error_code", py_or (bound_value bound "error_code") (VStr cls));
        ("category", bound_value bound "category");
        ("severity", bound_value bound "severity");
        ("context", py_or (bound_value bound "context") ErrorContext_default);
        ("cause", bound_value bound "cause");
        ("user_message",
         py_or (bound_value bound "user_message")
               (VStr "An error occurred while processing your request"));
        ("retry_after", bound_value bound "retry_after");
        ("metadata", py_or (bound_value bound "metadata") (VDict [])) ].

(** [ExternalServiceError.__init__(self, message, service_name, **kwargs)] *)
Definition ExternalServiceError_signature : Signature :=
  {| sig_name := "__init__";
     sig_params := [ ("message", None); ("service_name", None) ];
     sig_varkw := true |}.

Definition ExternalServiceError_init (args : list PyVal) (keywords : PyDict)
  : Res PyDict :=
  let* (bound, kwargs) :=
    bind_call ExternalServiceError_signature args keywords in
  let* super_keywords :=
    merge_keywords "__init__"
      [ ("category", ErrorCategory_EXTERNAL_SERVICE);
        ("severity", ErrorSeverity_HIGH);
        ("user_message", VStr "External service temporarily unavailable");
        ("retry_after", VInt 300) ]
      kwargs in
  let* attrs :=
    BaseApplicationError_init "ExternalServiceError"
                              [bound_value bound "message"] super_keywords in
  let metadata :=
    match bound_value attrs "metadata" with
    | VDict d => VDict (dict_set d "service_name"
                                 (bound_value bound "service_name"))
    | v => v
    end in
  Ret (dict_set attrs "metadata" metadata).

(** [raise ExternalServiceError(...)]: the instance is built first. *)
Definition raise_ExternalServiceError {A} (args : list PyVal)
           (keywords : PyDict) : Res A :=
  match ExternalServiceError_init args keywords with
  | Ret attrs => Raise (ApplicationError "ExternalServiceError" attrs)
  | Raise e => Raise e
  | OutOfFuel => OutOfFuel
  end.

(** *** The circuit breaker *)

Record CircuitBreaker : Type := {
  failure_threshold : Z;
  recovery_timeout : Z;
  expected_exception : PyExc -> bool;   (* isinstance(e, expected_exception) *)
  failure_count : Z;
  last_failure_time : option Q;         (* None, or a POSIX timestamp *)
  state : string                        (* CLOSED, OPEN, HALF_OPEN *)
}.

(** [CircuitBreaker(failure_threshold, recovery_timeout, expected_exception)] *)
Definition CircuitBreaker_init (failure_threshold recovery_timeout : Z)
           (expected_exception : PyExc -> bool) : CircuitBreaker :=
  {| failure_threshold := failure_threshold;
     recovery_timeout := recovery_timeout;
     expected_exception := expected_exception;
     failure_count := 0;
     last_failure_time := None;
     state := "CLOSED" |}.

(** Every exception of the model is an instance of [Exception]. *)
Definition Exception (e : PyExc) : bool := true.

(** [CircuitBreaker()] *)
Definition default_breaker : CircuitBreaker := CircuitBreaker_init 5 60 Exception.

Definition with_state (cb : CircuitBreaker) (s : string) : CircuitBreaker :=
  {| failure_threshold := failure_threshold cb;
     recovery_timeout := recovery_timeout cb;
     expected_exception := expected_exception cb;
     failure_count := failure_count cb;
     last_failure_time := last_failure_time cb;
     state := s |}.

(** [now] is [datetime.utcnow().timestamp()]. *)
Definition _should_attempt_reset (cb : CircuitBreaker) (now : Q) : bool :=
  match last_failure_time cb with
  | None => false
  | Some t =>
      negb (Qis_zero t)
      && Qgeb (now - t) (inject_Z (recovery_timeout cb))
  end.

Definition _on_success (cb : CircuitBreaker) : CircuitBreaker :=
  {| failure_threshold := failure_threshold cb;
     recovery_timeout := recovery_timeout cb;
     expected_exception := expected_exception cb;
     failure_count := 0;
     last_failure_time := last_failure_time cb;
     state := "CLOSED" |}.

Definition _on_failure (cb : CircuitBreaker) (now : Q) : CircuitBreaker :=
  let count := failure_count cb + 1 in
  {| failure_threshold := failure_threshold cb;
     recovery_timeout := recovery_timeout cb;
     expected_exception := expected_exception cb;
     failure_count := count;
     last_failure_time := Some now;
     state := if count >=? failure_threshold cb then "OPEN" else state cb |}.

Section Wrapper.
(** The wrapped function runs in a world [W] that it may change and from
    which the clock is read. *)
Context {W R : Type}.
Variable clock : W -> Q.

Definition Callable : Type := W -> Res R * W.

(** The [wrapper] closure for the function [func] named [func_name], already
    applied to the arguments of the call. *)
Definition wrapper (func_name : string) (func : Callable)
           (cb : CircuitBreaker) (w : W) : Res R * CircuitBreaker * W :=
  let attempt (cb : CircuitBreaker) :=
    let '(result, w') := func w in
    match result with
    | Ret r => (Ret r, _on_success cb, w')
    | Raise e =>
        if expected_exception cb e
        then (Raise e, _on_failure cb (clock w'), w')
        else (Raise e, cb, w')
    | OutOfFuel => (OutOfFuel, cb, w')
    end in
  if String.eqb (state cb) "OPEN" then
    if _should_attempt_reset cb (clock w) then
      attempt (with_state cb "HALF_OPEN")
    else
      (raise_ExternalServiceError
         [VStr "Service unavailable (circuit breaker open)"]
         [ ("service_name", VStr func_name);
           ("retry_after", VInt (recovery_timeout cb)) ],
       cb, w)
  else attempt cb.

(** Successive calls of the wrapper, each with the function it wraps applied
    to the arguments of that call. *)
Fixpoint calls (func_name : string) (funcs : list Callable)
         (cb : CircuitBreaker) (w : W) : CircuitBreaker * W :=
  match funcs with
  | [] => (cb, w)
  | func :: rest =>
      let '(_, cb', w') := wrapper func_name func cb w in
      calls func_name rest cb' w'
  end.

(** A call that raises an exception whatever the world it runs in. *)
Definition failing (func : Callable) : Prop :=
  forall w, exists e, fst (func w) = Raise e.

End Wrapper.

(** *** A service that is down, for running the breaker

    The world counts the invocations and carries the time; the call takes
    one second and raises. *)
Record Probe : Type := { invocations : nat; time : Q }.

Definition unreachable_service : @Callable Probe unit :=
  fun w => (Raise (OtherException "connection refused"),
            {| invocations := S (invocations w); time := (time w + 1)%Q |}).

End ErrorHandling.

(* --------------------------------------------------------------------- *)
(** ** The persistence layer ([app/models])                               *)
(* --------------------------------------------------------------------- *)

Module Models.

Inductive DroneStatus : Type :=
| AVAILABLE | IN_MISSION | MAINTENANCE.

Definition DroneStatus_value (s : DroneStatus) : string :=
  match s with
  | AVAILABLE => "available"
  | IN_MISSION => "in-mission"
  | MAINTENANCE => "maintenance"
  end.

Definition DroneStatus_eqb (a b : DroneStatus) : bool :=
  match a, b with
  | AVAILABLE, AVAILABLE | IN_MISSION, IN_MISSION
  | MAINTENANCE, MAINTENANCE => true
  | _, _ => false
  end.

Inductive MissionStatus : Type :=
| PLANNED | IN_PROGRESS | PAUSED | COMPLETED | ABORTED.

Definition MissionStatus_value (s : MissionStatus) : string :=
  match s with
  | PLANNED => "planned"
  | IN_PROGRESS => "in-progress"
  | PAUSED => "paused"
  | COMPLETED => "completed"
  | ABORTED => "aborted"
  end.

Definition MissionStatus_eqb (a b : MissionStatus) : bool :=
  match a, b with
  | PLANNED, PLANNED | IN_PROGRESS, IN_PROGRESS | PAUSED, PAUSED
  | COMPLETED, COMPLETED | ABORTED, ABORTED => true
  | _, _ => false
  end.

(** Rows are stored under their primary key; a [datetime] column holds the
    instant in seconds (an instant, when present, is truthy). *)
Record Drone : Type := {
  drone_name : string;
  drone_model : string;
  drone_status : DroneStatus;
  battery_percentage : Q;
  drone_latitude : option Q;
  drone_longitude : option Q;
  drone_altitude : option Q;
  last_seen : option Q;
  missions_completed : Z
}.

Record Mission : Type := {
  mission_name : string;
  mission_status : MissionStatus;
  mission_drone_id : option Z;
  progress_percentage : Q;
  current_waypoint : option Z;
  started_at : option Q;
  completed_at : option Q;
  actual_duration_minutes : option Z;
  abort_reason : option string
}.

Record Waypoint : Type := {
  waypoint_id : Z;
  waypoint_mission_id : Z;
  waypoint_latitude : Q;
  waypoint_longitude : Q;
  waypoint_altitude : Q;
  waypoint_order : Z;
  waypoint_action : string;
  waypoint_completed : bool
}.

Record MissionLog : Type := {
  log_mission_id : Z;
  log_drone_id : option Z;
  log_message : string;
  log_type : string;
  log_details : option string;
  log_timestamp : Q
}.

Record Database : Type := {
  missions : gmap Z Mission;
  drones : gmap Z Drone;
  waypoints : list Waypoint;
  mission_logs : list MissionLog
}.

Definition set_missions (db : Database) (ms : gmap Z Mission) : Database :=
  {| missions := ms; drones := drones db; waypoints := waypoints db;
     mission_logs := mission_logs db |}.

Definition set_drones (db : Database) (ds : gmap Z Drone) : Database :=
  {| missions := missions db; drones := ds; waypoints := waypoints db;
     mission_logs := mission_logs db |}.

Definition set_waypoints (db : Database) (ws : list Waypoint) : Database :=
  {| missions := missions db; drones := drones db; waypoints := ws;
     mission_logs := mission_logs db |}.

Definition add_log (db : Database) (entry : MissionLog) : Database :=
  {| missions := missions db; drones := drones db; waypoints := waypoints db;
     mission_logs := mission_logs db ++ [entry] |}.

Definition with_drone_status (d : Drone) (s : DroneStatus) : Drone :=
  {| drone_name := drone_name d; drone_model := drone_model d;
     drone_status := s; battery_percentage := battery_percentage d;
     drone_latitude := drone_latitude d; drone_longitude := drone_longitude d;
     drone_altitude := drone_altitude d; last_seen := last_seen d;
     missions_completed := missions_completed d |}.

(** Modelled from the spec: the methods of [Drone] ([app/models] is not among
    the sources).  [is_battery_low()] is below 20 %, [is_battery_critical()]
    below 10 %; a drone can take a mission when its status is [available]. *)
Definition is_battery_low (d : Drone) : bool := Qltb (battery_percentage d) 20.
Definition is_battery_critical (d : Drone) : bool :=
  Qltb (battery_percentage d) 10.
Definition is_available_for_mission (d : Drone) : bool :=
  DroneStatus_eqb (drone_status d) AVAILABLE.

(** Modelled from the spec: the methods of [Mission].  [start_mission()]
    goes to in-progress and stamps the start time. *)
Definition Mission_start_mission (m : Mission) (now : Q) : Mission :=
  {| mission_name := mission_name m; mission_status := IN_PROGRESS;
     mission_drone_id := mission_drone_id m;
     progress_percentage := progress_percentage m;
     current_waypoint := current_waypoint m;
     started_at := Some now; completed_at := completed_at m;
     actual_duration_minutes := actual_duration_minutes m;
     abort_reason := abort_reason m |}.

Definition with_mission_status (m : Mission) (s : MissionStatus) : Mission :=
  {| mission_name := mission_name m; mission_status := s;
     mission_drone_id := mission_drone_id m;
     progress_percentage := progress_percentage m;
     current_waypoint := current_waypoint m;
     started_at := started_at m; completed_at := completed_at m;
     actual_duration_minutes := actual_duration_minutes m;
     abort_reason := abort_reason m |}.

(** Modelled from the spec: [pause_mission()] goes to paused and
    [resume_mission()] back to in-progress. *)
Definition Mission_pause_mission (m : Mission) : Mission :=
  with_mission_status m PAUSED.
Definition Mission_resume_mission (m : Mission) : Mission :=
  with_mission_status m IN_PROGRESS.

(** Modelled from the spec: [abort_mission(reason)] goes to aborted, stamps
    the completion time and releases the assigned drone to [available].  The
    reason it was given is kept with the mission. *)
Definition Mission_abort_mission (db : Database) (mission_id : Z)
           (m : Mission) (reason : option string) (now : Q) : Database :=
  let m' :=
    {| mission_name := mission_name m; mission_status := ABORTED;
       mission_drone_id := mission_drone_id m;
       progress_percentage := progress_percentage m;
       current_waypoint := current_waypoint m;
       started_at := started_at m; completed_at := Some now;
       actual_duration_minutes := actual_duration_minutes m;
       abort_reason := reason |} in
  let ds :=
    match mission_drone_id m with
    | Some d => alter (fun dr => with_drone_status dr AVAILABLE) d (drones db)
    | None => drones db
    end in
  set_drones (set_missions db (<[mission_id := m']> (missions db))) ds.

(** Modelled from the spec: [complete_mission()] goes to completed, stamps
    the completion time and the actual duration in minutes. *)
Definition Mission_complete_mission (m : Mission) (now : Q) : Mission :=
  {| mission_name := mission_name m; mission_status := COMPLETED;
     mission_drone_id := mission_drone_id m;
     progress_percentage := progress_percentage m;
     current_waypoint := current_waypoint m;
     started_at := started_at m; completed_at := Some now;
     actual_duration_minutes :=
       match started_at m with
       | Some t0 => Some (Qtrunc ((now - t0) / 60))
       | None => None
       end;
     abort_reason := abort_reason m |}.

(** Modelled from the spec: [update_progress(percentage,
    current_waypoint_id=None)]. *)
Definition Mission_update_progress (m : Mission) (percentage : Q)
           (current_waypoint_id : option Z) : Mission :=
  {| mission_name := mission_name m; mission_status := mission_status m;
     mission_drone_id := mission_drone_id m;
     progress_percentage := percentage;
     current_waypoint :=
       match current_waypoint_id with
       | Some w => Some w
       | None => current_waypoint m
       end;
     started_at := started_at m; completed_at := completed_at m;
     actual_duration_minutes := actual_duration_minutes m;
     abort_reason := abort_reason m |}.

(** Modelled from the spec: [mark_completed()] on a waypoint. *)
Definition Waypoint_mark_completed (w : Waypoint) : Waypoint :=
  {| waypoint_id := waypoint_id w;
     waypoint_mission_id := waypoint_mission_id w;
     waypoint_latitude := waypoint_latitude w;
     waypoint_longitude := waypoint_longitude w;
     waypoint_altitude := waypoint_altitude w;
     waypoint_order := waypoint_order w;
     waypoint_action := waypoint_action w;
     waypoint_completed := true |}.

(** [MissionLog.create_log(mission_id, message, log_type, drone_id=None,
    details=None)] *)
Definition create_log (mission_id : Z) (message log_type : string)
           (drone_id : option Z) (details : option string) (now : Q)
  : MissionLog :=
  {| log_mission_id := mission_id; log_drone_id := drone_id;
     log_message := message; log_type := log_type; log_details := details;
     log_timestamp := now |}.

End Models.

(* --------------------------------------------------------------------- *)
(** ** [app/blueprints/missions.py]: the lifecycle endpoints              *)
(* --------------------------------------------------------------------- *)

Module MissionsApi.
Import Models.

(** The JSON body of a response, as far as the lifecycle endpoints fill it. *)
Inductive Body : Type :=
| ErrorBody (error : string)
| MissionBody (message : string) (mission : Mission) (drone : option Drone)
              (reason : option string).

Record Response : Type := {
  body : Body;
  status_code : Z
}.

Definition jsonify_error (error : string) (code : Z) : Response :=
  {| body := ErrorBody error; status_code := code |}.

(** [Mission.query.get_or_404(mission_id)] *)
Definition get_or_404 (db : Database) (mission_id : Z) : Res Mission :=
  match missions db !! mission_id with
  | Some m => Ret m
  | None => Raise NotFound
  end.

(** [except Exception as e: db.session.rollback(); return ..., 500].  The
    handlers change the session only after their last check, so the state
    rolled back to is the one the request started from. *)
Definition or_500 (db : Database) (r : Res (Response * Database))
  : Response * Database :=
  match r with
  | Ret out => out
  | Raise e => (jsonify_error (exc_str e) 500, db)
  | OutOfFuel => (jsonify_error "" 500, db)
  end.

(** [not mission.drone_id]: no drone, or the identifier 0. *)
Definition falsy_id (drone_id : option Z) : bool :=
  match drone_id with
  | None => true
  | Some d => Z.eqb d 0
  end.

Definition start_mission (db : Database) (now : Q) (mission_id : Z)
  : Response * Database :=
  or_500 db (
    let* mission := get_or_404 db mission_id in
    if negb (MissionStatus_eqb (mission_status mission) PLANNED) then
      Ret (jsonify_error ("Cannot start mission with status: "
                          +:+ MissionStatus_value (mission_status mission))
                         400, db)
    else if falsy_id (mission_drone_id mission) then
      Ret (jsonify_error "No drone assigned to mission" 400, db)
    else
      let drone_id := default 0 (mission_drone_id mission) in
      match drones db !! drone_id with
      | None => Ret (jsonify_error "Assigned drone is not available" 400, db)
      | Some drone =>
          if negb (is_available_for_mission drone) then
            Ret (jsonify_error "Assigned drone is not available" 400, db)
          else
            let mission' := Mission_start_mission mission now in
            let drone' := with_drone_status drone IN_MISSION in
            let log_entry :=
              create_log mission_id
                         ("Mission started with drone " +:+ drone_name drone')
                         "STATUS_CHANGE" (Some drone_id) None now in
            let db' :=
              add_log
                (set_drones
                   (set_missions db (<[mission_id := mission']> (missions db)))
                   (<[drone_id := drone']> (drones db)))
                log_entry in
            Ret ({| body := MissionBody "Mission started successfully"
                                        mission' (Some drone') None;
                    status_code := 200 |}, db')
      end).

Definition pause_mission (db : Database) (now : Q) (mission_id : Z)
  : Response * Database :=
  or_500 db (
    let* mission := get_or_404 db mission_id in
    if negb (MissionStatus_eqb (mission_status mission) IN_PROGRESS) then
      Ret (jsonify_error ("Cannot pause mission with status: "
                          +:+ MissionStatus_value (mission_status mission))
                         400, db)
    else
      let mission' := Mission_pause_mission mission in
      let log_entry :=
        create_log mission_id "Mission paused by operator" "STATUS_CHANGE"
                   None None now in
      let db' :=
        add_log (set_missions db (<[mission_id := mission']> (missions db)))
                log_entry in
      Ret ({| body := MissionBody "Mission paused successfully" mission'
                                  None None;
              status_code := 200 |}, db')).

Definition resume_mission (db : Database) (now : Q) (mission_id : Z)
  : Response * Database :=
  or_500 db (
    let* mission := get_or_404 db mission_id in
    if negb (MissionStatus_eqb (mission_status mission) PAUSED) then
      Ret (jsonify_error ("Cannot resume mission with status: "
                          +:+ MissionStatus_value (mission_status mission))
                         400, db)
    else
      let mission' := Mission_resume_mission mission in
      let log_entry :=
        create_log mission_id "Mission resumed by operator" "STATUS_CHANGE"
                   None None now in
      let db' :=
        add_log (set_missions db (<[mission_id := mission']> (missions db)))
                log_entry in
      Ret ({| body := MissionBody "Mission resumed successfully" mission'
                                  None None;
              status_code := 200 |}, db')).

(** [request.get_json()] is given by its outcome; [data.get('reason', ...)]
    is read from it. *)
Definition request_reason (request_json : Res PyVal) : Res string :=
  let* data := request_json in
  let data := if truthy data then data else VDict [] in
  match data with
  | VDict d =>
      match dict_get d "reason" with
      | None => Ret "Mission aborted by operator"
      | Some (VStr reason) => Ret reason
      | Some _ => Raise (TypeError "reason is not a string")
      end
  | _ => Raise (AttributeError "object has no attribute 'get'")
  end.

Definition abort_mission (db : Database) (now : Q) (request_json : Res PyVal)
           (mission_id : Z) : Response * Database :=
  or_500 db (
    let* mission := get_or_404 db mission_id in
    if negb (MissionStatus_eqb (mission_status mission) IN_PROGRESS
             || MissionStatus_eqb (mission_status mission) PAUSED) then
      Ret (jsonify_error ("Cannot abort mission with status: "
                          +:+ MissionStatus_value (mission_status mission))
                         400, db)
    else
      let* reason := request_reason request_json in
      let db1 := Mission_abort_mission db mission_id mission None now in
      let db2 :=
        match mission_drone_id mission with
        | Some d =>
            set_drones db1
              (alter (fun dr => with_drone_status dr AVAILABLE) d (drones db1))
        | None => db1
        end in
      let log_entry :=
        create_log mission_id ("Mission aborted: " +:+ reason) "STATUS_CHANGE"
                   None (Some reason) now in
      let db3 := add_log db2 log_entry in
      match missions db3 !! mission_id with
      | Some mission' =>
          Ret ({| body := MissionBody "Mission aborted successfully" mission'
                                      None (Some reason);
                  status_code := 200 |}, db3)
      | None => Raise (OtherException "mission row is gone")
      end).

(** A response of the guard of a lifecycle endpoint: status 400, and the
    database as it was. *)
Definition rejected (db : Database) (out : Response * Database) : Prop :=
  status_code (fst out) = 400 /\ snd out = db.

(** A small database: a completed mission and a planned one with its drone. *)
Definition hangar : Database :=
  {| missions :=
       {[ 1 := {| mission_name := "Orchard"; mission_status := COMPLETED;
                  mission_drone_id := Some 7; progress_percentage := 100%Q;
                  current_waypoint := None; started_at := Some 100%Q;
                  completed_at := Some 1300%Q;
                  actual_duration_minutes := Some 20;
                  abort_reason := None |};
          2 := {| mission_name := "Quarry"; mission_status := PLANNED;
                  mission_drone_id := Some 7; progress_percentage := 0%Q;
                  current_waypoint := None; started_at := None;
                  completed_at := None; actual_duration_minutes := None;
                  abort_reason := None |} ]};
     drones :=
       {[ 7 := {| drone_name := "Kestrel"; drone_model := "Surveyor X";
                  drone_status := AVAILABLE; battery_percentage := 90%Q;
                  drone_latitude := None; drone_longitude := None;
                  drone_altitude := None; last_seen := Some 1300%Q;
                  missions_completed := 1 |} ]};
     waypoints := [];
     mission_logs := [] |}.

End MissionsApi.

(* --------------------------------------------------------------------- *)
(** ** [app/blueprints/drones.py]: the fleet summary                      *)
(* --------------------------------------------------------------------- *)

Module DronesApi.
Import Models.

(** The objects the module reaches through its global names.  The import
    line is [from datetime import datetime, timezone]: the global
    [datetime] is the class [datetime.datetime], not the module. *)
Inductive PyObject : Type :=
| module_datetime
| class_datetime
| class_timezone
| class_timedelta
| bound_method (owner : PyObject) (name : string).

(** Attributes of the module [datetime] and of the classes in it. *)
Definition module_datetime_names : list (string * PyObject) :=
  [ ("datetime", class_datetime); ("timezone", class_timezone);
    ("timedelta", class_timedelta) ].

Definition class_datetime_attributes : list string :=
  [ "now"; "utcnow"; "today"; "fromtimestamp"; "utcfromtimestamp";
    "fromisoformat"; "strptime"; "combine"; "min"; "max"; "resolution";
    "replace"; "timestamp"; "isoformat"; "date"; "time"; "year"; "month";
    "day"; "hour"; "minute"; "second"; "microsecond"; "tzinfo" ].

Definition getattr (o : PyObject) (name : string) : Res PyObject :=
  match o with
  | module_datetime =>
      match dict_get module_datetime_names name with
      | Some v => Ret v
      | None => Raise (AttributeError
                  ("module 'datetime' has no attribute '" +:+ name +:+ "'"))
      end
  | class_datetime =>
      if name_in name class_datetime_attributes
      then Ret (bound_method class_datetime name)
      else Raise (AttributeError
             ("type object 'datetime.datetime' has no attribute '"
                +:+ name +:+ "'"))
  | _ =>
      Raise (AttributeError ("object has no attribute '" +:+ name +:+ "'"))
  end.

(** The globals of [drones.py] bound by its imports. *)
Definition global_datetime : PyObject := class_datetime.
Definition global_timezone : PyObject := class_timezone.

(** [timedelta(hours=h)], in seconds. *)
Definition call_timedelta_hours (callee : PyObject) (h : Q) : Res Q :=
  match callee with
  | class_timedelta => Ret (h * 3600)%Q
  | _ => Raise (TypeError "object is not callable")
  end.

(** Responses are a JSON body and a status code. *)
Record Response : Type := {
  body : PyDict;
  status_code : Z
}.

(** The [handle_errors] decorator, on the exceptions of the model: a
    [ValueError] is a 400, anything else a 500 after a rollback. *)
Definition handle_errors (r : Res Response) : Response :=
  match r with
  | Ret response => response
  | Raise (ValueError msg) =>
      {| body := [ ("error", VStr "Invalid input"); ("message", VStr msg);
                   ("status", VStr "error") ];
         status_code := 400 |}
  | Raise _ | OutOfFuel =>
      {| body := [ ("error", VStr "Internal server error");
                   ("message", VStr "An unexpected error occurred");
                   ("status", VStr "error") ];
         status_code := 500 |}
  end.

(** The response of the last clause of [handle_errors]. *)
Definition internal_server_error : Response :=
  {| body := [ ("error", VStr "Internal server error");
               ("message", VStr "An unexpected error occurred");
               ("status", VStr "error") ];
     status_code := 500 |}.

(** Score of one drone in [calculate_fleet_health_score]. *)
Definition drone_health_score (now : Q) (drone : Drone) : Q :=
  let drone_score := 100%Q in
  let drone_score :=
    if is_battery_critical drone then (drone_score - 30)%Q
    else if is_battery_low drone then (drone_score - 15)%Q
    else drone_score in
  let drone_score :=
    match drone_status drone with
    | MAINTENANCE => (drone_score - 20)%Q
    | _ => drone_score
    end in
  let drone_score :=
    match last_seen drone with
    | Some seen =>
        let hours_since_seen := ((now - seen) / 3600)%Q in
        if Qgtb hours_since_seen 24 then (drone_score - 25)%Q
        else if Qgtb hours_since_seen 1 then (drone_score - 10)%Q
        else drone_score
    | None => drone_score
    end in
  Qmax 0 drone_score.

Definition calculate_fleet_health_score (now : Q) (drones : list Drone) : Q :=
  match drones with
  | [] => 0%Q
  | _ :: _ =>
      let total_score :=
        fold_left (fun total drone => (total + drone_health_score now drone)%Q)
                  drones 0%Q in
      py_round (total_score / inject_Z (Z.of_nat (length drones))) 1
  end.

Definition model_distribution (drones : list Drone) : PyDict :=
  fold_left
    (fun dist drone =>
       let n := match dict_get dist (drone_model drone) with
                | Some (VInt n) => n
                | _ => 0
                end in
       dict_set dist (drone_model drone) (VInt (n + 1)))
    drones [].

(** [summary.update({...})] *)
Definition dict_update (d : PyDict) (items : PyDict) : PyDict :=
  fold_left (fun acc '(k, v) => dict_set acc k v) items d.

Section FleetSummary.
(** [Drone.get_fleet_summary()] of the persistence layer: a dictionary of
    counts and averages, taken as it is. *)
Variable Drone_get_fleet_summary : Database -> PyDict.

(** The view function under [@handle_errors]; [now] is the clock, in
    seconds. *)
Definition get_fleet_summary (db : Database) (now : Q) : Response :=
  handle_errors (
    let summary := Drone_get_fleet_summary db in
    let all_drones := snd <$> map_to_list (drones db) in
    let* summary :=
      match all_drones with
      | [] => Ret summary
      | _ :: _ =>
          let* timedelta := getattr global_datetime "timedelta" in
          let* hour := call_timedelta_hours timedelta 1 in
          let one_hour_ago := (inject_Z (Qfloor now) - hour)%Q in
          let offline_drones :=
            List.filter
              (fun d => match last_seen d with
                        | Some seen => Qltb seen one_hour_ago
                        | None => false
                        end)
              all_drones in
          Ret (dict_update summary
                 [ ("offline_count",
                    VInt (Z.of_nat (length offline_drones)));
                   ("online_count",
                    VInt (Z.of_nat (length all_drones)
                          - Z.of_nat (length offline_drones)));
                   ("model_distribution",
                    VDict (model_distribution all_drones));
                   ("fleet_health_score",
                    VFloat (calculate_fleet_health_score now all_drones)) ])
      end in
    Ret {| body := [ ("fleet_summary", VDict summary);
                     ("status", VStr "success") ];
           status_code := 200 |}).

(** The field of the claim, read from a response. *)
Definition fleet_health_score_of (r : Response) : option PyVal :=
  match dict_get (body r) "fleet_summary" with
  | Some (VDict summary) => dict_get summary "fleet_health_score"
  | _ => None
  end.

End FleetSummary.

(** The drone of the example: battery 5 %, in maintenance, seen 30 hours
    before the request. *)
Definition grounded_drone (now : Q) : Drone :=
  {| drone_name := "Heron"; drone_model := "Surveyor X";
     drone_status := MAINTENANCE; battery_percentage := 5;
     drone_latitude := None; drone_longitude := None;
     drone_altitude := None; last_seen := Some (now - 30 * 3600)%Q;
     missions_completed := 3 |}.

Definition grounded_fleet (now : Q) : Database :=
  {| missions := ∅; drones := {[ 1 := grounded_drone now ]};
     waypoints := []; mission_logs := [] |}.

End DronesApi.

(* --------------------------------------------------------------------- *)
(** ** [app/services/ai_mission_optimizer.py]: drone scoring              *)
(* --------------------------------------------------------------------- *)

Module DroneSelection.
Import Models.

(** A line of [reasoning]: plain text, or text around a formatted number. *)
Inductive Note : Type :=
| Text (s : string)
| Formatted (before : string) (value : Q) (after : string).

Record DroneScore : Type := {
  score_drone_id : Z;                  (* str(drone.id) *)
  score_drone_name : string;
  total_score : Q;
  factors : list (string * Q);         (* in insertion order *)
  recommendation : string;
  confidence : Q;
  reasoning : list Note
}.

(** [random.uniform(a, b)] is [a + (b - a) * random.random()]; the source of
    randomness is the sequence of values of [random.random()], and a call
    says how many it consumed. *)
Definition uniform (random : nat -> Q) (k : nat) (a b : Q) : Q * nat :=
  ((a + (b - a) * random k)%Q, S k).

(** [x and y] on two optional floats, as a truth value. *)
Definition located (latitude longitude : option Q) : bool :=
  match latitude, longitude with
  | Some lat, Some lon => negb (Qis_zero lat) && negb (Qis_zero lon)
  | _, _ => false
  end.

Definition weights : list (string * Q) :=
  [ ("battery_level", 25 # 100); ("availability", 30 # 100);
    ("proximity", 15 # 100); ("mission_experience", 15 # 100);
    ("maintenance_status", 10 # 100); ("weather_suitability", 5 # 100) ]%Q.

Definition factor (fs : list (string * Q)) (name : string) : Q :=
  default 0%Q (dict_get fs name).

(** [sum(factors[factor] * weights[factor] for factor in factors)] *)
Definition weighted_total (fs : list (string * Q)) : Q :=
  fold_left (fun acc name => (acc + factor fs name * factor weights name)%Q)
            (map fst fs) 0%Q.

(** The [if]/[elif] chain that assigns [recommendation] and [confidence]. *)
Definition recommendation_band (total_score : Q) : string * Q :=
  if Qgtb total_score 85 then ("Highly Recommended", 95 # 100)%Q
  else if Qgtb total_score 70 then ("Recommended", 80 # 100)%Q
  else if Qgtb total_score 55 then ("Suitable with Cautions", 65 # 100)%Q
  else ("Not Recommended", 45 # 100)%Q.

Definition score_drone_for_mission (random : nat -> Q) (k : nat)
           (drone_id : Z) (drone : Drone) (mission_requirements : PyDict)
  : DroneScore * nat :=
  let battery_score := battery_percentage drone in
  let factors := [("battery_level", battery_score)] in
  let reasoning :=
    [ if Qgtb battery_score 80 then
        Formatted "Excellent battery level (" battery_score "%)"
      else if Qgtb battery_score 60 then
        Formatted "Good battery level (" battery_score "%)"
      else if Qgtb battery_score 40 then
        Formatted "Adequate battery level (" battery_score "%)"
      else
        Formatted "Low battery level (" battery_score "%) - consider charging" ] in
  let availability_score :=
    if DroneStatus_eqb (drone_status drone) AVAILABLE then 100%Q else 0%Q in
  let factors := factors ++ [("availability", availability_score)] in
  let reasoning :=
    reasoning ++
    [ if Qeq_bool availability_score 100
      then Text "Drone is available for immediate deployment"
      else Text ("Drone currently " +:+ DroneStatus_value (drone_status drone)) ] in
  let '(proximity_score, k, note) :=
    if located (drone_latitude drone) (drone_longitude drone) then
      let '(proximity_score, k) := uniform random k 60 95 in
      (proximity_score, k,
       Text ((if Qgtb proximity_score 80 then "Close" else "Moderate distance")
             +:+ " to mission area"))
    else
      (50%Q, k, Text "Location unknown - moderate proximity assumed") in
  let factors := factors ++ [("proximity", proximity_score)] in
  let reasoning := reasoning ++ [note] in
  let '(experience_score, k) := uniform random k 70 95 in
  let factors := factors ++ [("mission_experience", experience_score)] in
  let reasoning :=
    reasoning ++
    [ if Qgtb experience_score 90 then
        Text "Highly experienced with similar missions"
      else if Qgtb experience_score 75 then
        Text "Good experience with mission type"
      else Text "Limited experience with this mission type" ] in
  let '(maintenance_score, k) := uniform random k 80 98 in
  let factors := factors ++ [("maintenance_status", maintenance_score)] in
  let reasoning :=
    reasoning ++
    [ if Qgtb maintenance_score 95 then Text "Excellent maintenance status"
      else if Qgtb maintenance_score 85 then Text "Good maintenance condition"
      else Text "Maintenance due soon" ] in
  let '(weather_score, k) := uniform random k 75 95 in
  let factors := factors ++ [("weather_suitability", weather_score)] in
  let reasoning :=
    reasoning ++
    [ Text ((if Qgtb weather_score 85 then "Well" else "Adequately")
            +:+ " suited for current weather") ] in
  let total_score := weighted_total factors in
  let band := recommendation_band total_score in
  ({| score_drone_id := drone_id;
      score_drone_name := drone_name drone;
      total_score := py_round total_score 2;
      factors := factors;
      recommendation := fst band;
      confidence := snd band;
      reasoning := reasoning |}, k).

(** Draws under which the four randomized factors all come out as 80:
    60 + 35 * 4/7, 70 + 25 * 2/5, 80 + 18 * 0 and 75 + 20 * 1/4. *)
Definition draws_of_80 (k : nat) : Q :=
  nth k [4 # 7; 2 # 5; 0; 1 # 4]%Q 0%Q.

Definition scout (latitude longitude : option Q) : Drone :=
  {| drone_name := "Scout"; drone_model := "Surveyor X";
     drone_status := AVAILABLE; battery_percentage := 80;
     drone_latitude := latitude; drone_longitude := longitude;
     drone_altitude := None; last_seen := None; missions_completed := 0 |}.

End DroneSelection.

(* --------------------------------------------------------------------- *)
(** ** [app/core/config_schema.py]                                        *)
(* --------------------------------------------------------------------- *)

Module ConfigSchema.

(** The classes are pydantic (version 1) settings.  A model is built field
    by field, in the order of declaration:
    - a field that is not supplied (neither as argument nor in the
      environment) takes its default, and its [@validator] runs only when it
      was declared with [always=True];
    - a supplied value is checked against the bounds of its [Field] and then
      given to the validator, together with [values], the fields accepted so
      far;
    - a supplied name that is not a field is refused;
    - construction raises when any error was recorded.
    Supplied values are taken after their coercion to the type of the
    field; numbers are rationals. *)

Abbreviation Values := (list (string * Q)).

Record FieldSpec : Type := {
  field_name : string;
  field_default : Q;
  field_ge : option Q;
  field_le : option Q;
  field_validator : option (Q -> Values -> Res Q);
  field_always : bool
}.

(** [values.get(name, dflt)] *)
Definition values_get (values : Values) (name : string) (dflt : Q) : Q :=
  default dflt (dict_get values name).

(** [MissionConfig.validate_altitude_range] *)
Definition validate_altitude_range (v : Q) (values : Values) : Res Q :=
  let min_alt := values_get values "min_altitude_m" 0 in
  if Qle_bool v min_alt then
    Raise (ValueError "max_altitude_m must be greater than min_altitude_m")
  else Ret v.

(** [MissionConfig.validate_battery_thresholds] *)
Definition validate_battery_thresholds (v : Q) (values : Values) : Res Q :=
  let low_threshold := values_get values "battery_low_threshold" 100 in
  if Qgeb v low_threshold then
    Raise (ValueError "battery_critical_threshold must be less than battery_low_threshold")
  else Ret v.

Definition plain_field (name : string) (dflt : Q) (ge le : option Q)
  : FieldSpec :=
  {| field_name := name; field_default := dflt; field_ge := ge;
     field_le := le; field_validator := None; field_always := false |}.

Definition validated_field (name : string) (dflt : Q) (ge le : option Q)
           (validator : Q -> Values -> Res Q) : FieldSpec :=
  {| field_name := name; field_default := dflt; field_ge := ge;
     field_le := le; field_validator := Some validator;
     field_always := false |}.

(** The fields of [MissionConfig]. *)
Definition MissionConfig_fields : list FieldSpec :=
  [ plain_field "default_altitude_m" 100 (Some 0) None;
    plain_field "min_altitude_m" 30 (Some 0) None;
    validated_field "max_altitude_m" 400 (Some 1) None validate_altitude_range;
    plain_field "default_overlap_percentage" 60 (Some 0) (Some 100);
    plain_field "max_mission_duration_hours" 8 (Some 1) (Some 24);
    plain_field "max_concurrent_missions" 10 (Some 1) (Some 100);
    plain_field "battery_low_threshold" 20 (Some 0) (Some 100);
    validated_field "battery_critical_threshold" 10 (Some 0) (Some 100)
                    validate_battery_thresholds;
    plain_field "max_flight_time_minutes" 25 (Some 1) (Some 120);
    plain_field "drone_status_update_interval" 5 (Some 1) (Some 60);
    plain_field "mission_progress_update_interval" 3 (Some 1) (Some 30);
    plain_field "fleet_summary_update_interval" 10 (Some 5) (Some 300) ]%Q.

Definition within_bounds (spec : FieldSpec) (v : Q) : bool :=
  match field_ge spec with
  | Some lo => Qle_bool lo v
  | None => true
  end
  && match field_le spec with
     | Some hi => Qle_bool v hi
     | None => true
     end.

Definition run_validator (spec : FieldSpec) (v : Q) (values : Values)
  : Res Q :=
  match field_validator spec with
  | Some validator => validator v values
  | None => Ret v
  end.

(** One field: the accepted values and the errors so far, extended. *)
Definition validate_field (supplied : Values) (spec : FieldSpec)
           (acc : Values * list string) : Values * list string :=
  let '(values, errors) := acc in
  let name := field_name spec in
  let checked (v : Q) :=
    match run_validator spec v values with
    | Ret v' => (values ++ [(name, v')], errors)
    | Raise e => (values, errors ++ [name +:+ ": " +:+ exc_str e])
    | OutOfFuel => (values, errors ++ [name])
    end in
  match dict_get supplied name with
  | None =>
      if field_always spec then checked (field_default spec)
      else (values ++ [(name, field_default spec)], errors)
  | Some v =>
      if within_bounds spec v then checked v
      else (values, errors ++ [name +:+ ": value is out of bounds"])
  end.

(** The fields in their order of declaration. *)
Definition run (supplied : Values) (fields : list FieldSpec)
           (start : Values * list string) : Values * list string :=
  fold_left (fun acc spec => validate_field supplied spec acc) fields start.

Definition validate_model (fields : list FieldSpec) (supplied : Values)
  : Values * list string :=
  let extra :=
    List.filter (fun '(k, _) => negb (name_in k (map field_name fields)))
                supplied in
  let '(values, errors) := run supplied fields ([], []) in
  (values, errors ++ map (fun '(k, _) => k +:+ ": extra fields not permitted")
                         extra).

(** [MissionConfig] called with the supplied settings as keywords. *)
Definition MissionConfig (supplied : Values) : Res Values :=
  match validate_model MissionConfig_fields supplied with
  | (values, []) => Ret values
  | (_, errors) => Raise (ValueError (String.concat "; " errors))
  end.

(** *** The main configuration class *)

Record DroneSurveyInput : Type := {
  in_environment : option string;
  in_debug : option bool;
  in_testing : option bool;
  in_host : option string;
  in_port : option Z;
  in_mission : option Values
}.





(** The effective value of a mission setting: as supplied, or the default. *)
Definition setting (supplied : Values) (name : string) : Q :=
  match List.find (fun spec => String.eqb (field_name spec) name)
                  MissionConfig_fields with
  | Some spec => default (field_default spec) (dict_get supplied name)
  | None => 0%Q
  end.


(** The three conditions of the specification, on the effective values. *)
Definition altitude_range_violated (supplied : Values) : bool :=
  Qle_bool (setting supplied "max_altitude_m")
           (setting supplied "min_altitude_m").

Definition battery_thresholds_violated (supplied : Values) : bool :=
  Qgeb (setting supplied "battery_critical_threshold")
       (setting supplied "battery_low_threshold").


(** What a run of [validate_model] over [fields] accepts when nothing goes
    wrong: every field with its effective value. *)
Definition effective (supplied : Values) (spec : FieldSpec) : Q :=
  default (field_default spec) (dict_get supplied (field_name spec)).

Definition accepted (supplied : Values) (fields : list FieldSpec) : Values :=
  map (fun spec => (field_name spec, effective supplied spec)) fields.





Definition nothing_supplied : DroneSurveyInput :=
  {| in_environment := None; in_debug := None; in_testing := None;
     in_host := None; in_port := None; in_mission := None |}.


End ConfigSchema.

(* --------------------------------------------------------------------- *)
(** ** [simulator.py]                                                     *)
(* --------------------------------------------------------------------- *)

Module Simulator.
Import Models.

Record FlightState : Type := {
  drone_id : Z;
  mission_id : Z;
  current_waypoint_index : nat;
  target_waypoint_index : nat;
  current_lat : Q;
  current_lon : Q;
  current_alt : Q;
  battery_percentage : Q;
  speed_mps : Q;
  last_update : Q;
  is_moving : bool;             (* default True *)
  emergency_landing : bool      (* default False *)
}.

(** An event handed to [emit_websocket_event]: its name and its payload.
    Whether the HTTP request that carries it succeeds makes no difference to
    the simulator. *)
Definition Event : Type := (string * PyDict)%type.

(** Attributes set by [DroneFlightSimulator.__init__]. *)
Definition flight_speed_mps : Q := 15.
Definition battery_consumption_rate : Q := 8 # 10.
Definition hover_battery_rate : Q := 3 # 10.
Definition takeoff_landing_rate : Q := 15 # 10.

(** [query(Waypoint).filter_by(mission_id=m).order_by(Waypoint.order).all()] *)
Fixpoint insert_by_order (w : Waypoint) (sorted : list Waypoint)
  : list Waypoint :=
  match sorted with
  | [] => [w]
  | x :: rest =>
      if Z.leb (waypoint_order w) (waypoint_order x) then w :: sorted
      else x :: insert_by_order w rest
  end.

Definition order_by_order (ws : list Waypoint) : list Waypoint :=
  fold_right insert_by_order [] ws.

Definition mission_waypoints (db : Database) (m : Z) : list Waypoint :=
  order_by_order
    (List.filter (fun w => Z.eqb (waypoint_mission_id w) m) (waypoints db)).

(** Writing a row back. *)
Definition store_mission (db : Database) (m : Z) (mission : Mission)
  : Database := set_missions db (<[m := mission]> (missions db)).

Definition store_drone (db : Database) (d : Z) (drone : Drone) : Database :=
  set_drones db (<[d := drone]> (drones db)).

Definition complete_waypoint (db : Database) (w : Waypoint) : Database :=
  set_waypoints db
    (map (fun x => if Z.eqb (waypoint_id x) (waypoint_id w)
                   then Waypoint_mark_completed x else x)
         (waypoints db)).

(** [get_active_missions]: the missions in progress that have a drone, in
    the order in which the table yields them. *)
Definition get_active_missions (db : Database) : list (Z * Mission) :=
  List.filter
    (fun '(_, mission) =>
       MissionStatus_eqb (mission_status mission) IN_PROGRESS
       && match mission_drone_id mission with
          | Some _ => true
          | None => false
          end)
    (map_to_list (missions db)).

(** [x or y] on an optional float and a float. *)
Definition or_else (x : option Q) (y : Q) : Q :=
  match x with
  | Some v => if Qis_zero v then y else v
  | None => y
  end.

Definition initialize_flight_state (now : Q) (db : Database) (m : Z)
           (mission : Mission) : option FlightState :=
  match mission_drone_id mission with
  | None => None
  | Some d =>
      match drones db !! d, mission_waypoints db m with
      | Some drone, (start_waypoint :: _) as waypoints =>
          Some {| drone_id := d;
                  mission_id := m;
                  current_waypoint_index := 0;
                  target_waypoint_index :=
                    if (1 <? length waypoints)%nat then 1 else 0;
                  current_lat := or_else (drone_latitude drone)
                                         (waypoint_latitude start_waypoint);
                  current_lon := or_else (drone_longitude drone)
                                         (waypoint_longitude start_waypoint);
                  current_alt := or_else (drone_altitude drone)
                                         (waypoint_altitude start_waypoint);
                  battery_percentage := Models.battery_percentage drone;
                  speed_mps := flight_speed_mps;
                  last_update := now;
                  is_moving := true;
                  emergency_landing := false |}
      | _, _ => None
      end
  end.

Definition interpolate_position (current_lat current_lon target_lat
                                 target_lon distance_to_move
                                 total_distance : Q) : Q * Q :=
  if Qis_zero total_distance then (current_lat, current_lon)
  else
    let ratio := Qmin (distance_to_move / total_distance) 1 in
    ((current_lat + (target_lat - current_lat) * ratio)%Q,
     (current_lon + (target_lon - current_lon) * ratio)%Q).

Definition emergency_alert (fs : FlightState) (drone : Drone) : Event :=
  ("emergency_alert",
   [ ("drone_id", VInt (drone_id fs));
     ("mission_id", VInt (mission_id fs));
     ("alert_type", VStr "critical_battery");
     ("message",
      VStr ("Emergency landing initiated for " +:+ drone_name drone));
     ("battery_percentage", VFloat (battery_percentage fs)) ]).

Definition mission_completed (fs : FlightState) (now : Q) : Event :=
  ("mission_completed",
   [ ("mission_id", VInt (mission_id fs));
     ("drone_id", VInt (drone_id fs));
     ("completion_time", VFloat now) ]).

Definition drone_status_update (fs : FlightState) (drone : Drone) (now : Q)
  : Event :=
  ("drone_status_update",
   [ ("drone_id", VInt (drone_id fs));
     ("latitude", VFloat (current_lat fs));
     ("longitude", VFloat (current_lon fs));
     ("altitude", VFloat (current_alt fs));
     ("battery_percentage", VFloat (battery_percentage fs));
     ("status", VStr (DroneStatus_value (drone_status drone)));
     ("last_seen", VFloat now) ]).

Definition mission_progress_update (fs : FlightState) (mission : Mission)
           (total_waypoints : nat) : Event :=
  ("mission_progress_update",
   [ ("mission_id", VInt (mission_id fs));
     ("progress_percentage", VFloat (progress_percentage mission));
     ("current_waypoint", VInt (Z.of_nat (current_waypoint_index fs)));
     ("total_waypoints", VInt (Z.of_nat total_waypoints));
     ("drone_location",
      VDict [ ("latitude", VFloat (current_lat fs));
              ("longitude", VFloat (current_lon fs));
              ("altitude", VFloat (current_alt fs)) ]) ]).

Definition battery_warning (fs : FlightState) : Event :=
  ("battery_warning",
   [ ("drone_id", VInt (drone_id fs));
     ("battery_percentage", VFloat (battery_percentage fs));
     ("warning_level",
      VStr (if Qle_bool (battery_percentage fs) 5 then "critical" else "low")) ]).

Definition with_flight (fs : FlightState)
           (current_waypoint_index' target_waypoint_index' : nat)
           (lat lon alt battery last : Q) (moving emergency : bool)
  : FlightState :=
  {| drone_id := drone_id fs; mission_id := mission_id fs;
     current_waypoint_index := current_waypoint_index';
     target_waypoint_index := target_waypoint_index';
     current_lat := lat; current_lon := lon; current_alt := alt;
     battery_percentage := battery; speed_mps := speed_mps fs;
     last_update := last; is_moving := moving;
     emergency_landing := emergency |}.

Section Flight.
(** The haversine distance of [calculate_distance], in metres. *)
Variable calculate_distance : Q -> Q -> Q -> Q -> Q.

(** The part of [update_flight_state] after the emergency check, for a
    mission in progress with its drone and its waypoints. *)
Definition advance_flight (now : Q) (fs : FlightState) (db : Database)
           (mission : Mission) (drone : Drone) (waypoints : list Waypoint)
  : bool * FlightState * Database * list Event :=
  let time_elapsed := (now - last_update fs)%Q in
  let battery_drain :=
    if is_moving fs
    then (battery_consumption_rate / 60 * time_elapsed)%Q
    else (hover_battery_rate / 60 * time_elapsed)%Q in
  let battery := Qmax 0 (battery_percentage fs - battery_drain) in
  let fs := with_flight fs (current_waypoint_index fs)
                        (target_waypoint_index fs) (current_lat fs)
                        (current_lon fs) (current_alt fs) battery now
                        (is_moving fs) (emergency_landing fs) in
  match nth_error waypoints (target_waypoint_index fs) with
  | None =>
      (* target_waypoint_index >= len(waypoints): mission completed *)
      let db := store_mission db (mission_id fs)
                              (Mission_complete_mission mission now) in
      (false, fs, db, [mission_completed fs now])
  | Some target_waypoint =>
      let distance_to_target :=
        calculate_distance (current_lat fs) (current_lon fs)
                           (waypoint_latitude target_waypoint)
                           (waypoint_longitude target_waypoint) in
      let '(fs, db, mission) :=
        if Qle_bool distance_to_target 5 then
          let db := complete_waypoint db target_waypoint in
          let reached := target_waypoint_index fs in
          let progress :=
            (inject_Z (Z.of_nat reached)
             / inject_Z (Z.of_nat (length waypoints)) * 100)%Q in
          let mission :=
            Mission_update_progress mission progress
                                    (Some (Z.of_nat reached)) in
          let db := store_mission db (mission_id fs) mission in
          let '(battery, moving) :=
            if String.eqb (waypoint_action target_waypoint) "takeoff" then
              ((battery_percentage fs - takeoff_landing_rate)%Q, is_moving fs)
            else if String.eqb (waypoint_action target_waypoint) "land" then
              ((battery_percentage fs - takeoff_landing_rate)%Q, false)
            else if String.eqb (waypoint_action target_waypoint) "hover" then
              (battery_percentage fs, true)
            else (battery_percentage fs, is_moving fs) in
          (with_flight fs reached (S reached) (current_lat fs)
                       (current_lon fs) (current_alt fs) battery
                       (last_update fs) moving (emergency_landing fs),
           db, mission)
        else if is_moving fs then
          let distance_to_move := (speed_mps fs * time_elapsed)%Q in
          let '(new_lat, new_lon) :=
            interpolate_position (current_lat fs) (current_lon fs)
                                 (waypoint_latitude target_waypoint)
                                 (waypoint_longitude target_waypoint)
                                 distance_to_move distance_to_target in
          (with_flight fs (current_waypoint_index fs)
                       (target_waypoint_index fs) new_lat new_lon
                       (waypoint_altitude target_waypoint)
                       (battery_percentage fs) (last_update fs)
                       (is_moving fs) (emergency_landing fs),
           db, mission)
        else (fs, db, mission) in
      let drone :=
        {| drone_name := drone_name drone; drone_model := drone_model drone;
           drone_status := drone_status drone;
           Models.battery_percentage := battery_percentage fs;
           drone_latitude := Some (current_lat fs);
           drone_longitude := Some (current_lon fs);
           drone_altitude := Some (current_alt fs);
           last_seen := Some now;
           missions_completed := missions_completed drone |} in
      let db := store_drone db (drone_id fs) drone in
      let events :=
        [ drone_status_update fs drone now;
          mission_progress_update fs mission (length waypoints) ]
        ++ (if Qle_bool (battery_percentage fs) 10
            then [battery_warning fs] else []) in
      (true, fs, db, events)
  end.

(** [update_flight_state]: whether the flight stays tracked, the flight
    state and the database as the call leaves them, and what it emitted. *)
Definition update_flight_state (now : Q) (fs : FlightState) (db : Database)
  : bool * FlightState * Database * list Event :=
  match missions db !! mission_id fs, drones db !! drone_id fs,
        mission_waypoints db (mission_id fs) with
  | Some mission, Some drone, (_ :: _) as waypoints =>
      if negb (MissionStatus_eqb (mission_status mission) IN_PROGRESS) then
        (false, fs, db, [])
      else if Qle_bool (battery_percentage fs) 5
              && negb (emergency_landing fs) then
        let fs := with_flight fs (current_waypoint_index fs)
                              (target_waypoint_index fs) (current_lat fs)
                              (current_lon fs) (current_alt fs)
                              (battery_percentage fs) (last_update fs)
                              false true in
        let db := Mission_abort_mission
                    db (mission_id fs) mission
                    (Some "Critical battery - emergency landing") now in
        (false, fs, db, [emergency_alert fs drone])
      else advance_flight now fs db mission drone waypoints
  | _, _, _ => (false, fs, db, [])
  end.

(** The dictionary [active_flights], from drone identifiers to flight
    states, in insertion order. *)
Definition Flights : Type := list (Z * FlightState).

Definition tracked (flights : Flights) (d : Z) : bool :=
  existsb (fun '(k, _) => Z.eqb k d) flights.

(** [del active_flights[d]] *)
Definition untrack (flights : Flights) (d : Z) : Flights :=
  List.filter (fun '(k, _) => negb (Z.eqb k d)) flights.

(** "Initialize new flights" *)
Fixpoint initialize_flights (now : Q) (db : Database)
         (active_missions : list (Z * Mission)) (flights : Flights)
  : Flights :=
  match active_missions with
  | [] => flights
  | (m, mission) :: rest =>
      let flights :=
        match mission_drone_id mission with
        | Some d =>
            if tracked flights d then flights
            else match initialize_flight_state now db m mission with
                 | Some flight_state => flights ++ [(d, flight_state)]
                 | None => flights
                 end
        | None => flights
        end in
      initialize_flights now db rest flights
  end.

(** "Update existing flights": the flights with their new states, the
    drones whose flight is over, the database and the events. *)
Fixpoint update_flights (now : Q) (flights : Flights) (db : Database)
  : Flights * list Z * Database * list Event :=
  match flights with
  | [] => ([], [], db, [])
  | (d, flight_state) :: rest =>
      let '(active, flight_state', db', events) :=
        update_flight_state now flight_state db in
      let '(rest', completed_flights, db'', events') :=
        update_flights now rest db' in
      ((d, flight_state') :: rest',
       if active then completed_flights else d :: completed_flights,
       db'', events ++ events')
  end.

Record Simulation : Type := {
  active_flights : Flights;
  database : Database
}.

(** One pass of the body of [simulation_loop], at time [now]: the state it
    leaves and the events it emitted. *)
Definition tick (now : Q) (sim : Simulation) : Simulation * list Event :=
  let active_missions := get_active_missions (database sim) in
  let flights :=
    initialize_flights now (database sim) active_missions
                       (active_flights sim) in
  let '(flights, completed_flights, db, events) :=
    update_flights now flights (database sim) in
  ({| active_flights := fold_left untrack completed_flights flights;
      database := db |}, events).

(** Successive passes, at the given times. *)
Fixpoint ticks (times : list Q) (sim : Simulation)
  : Simulation * list Event :=
  match times with
  | [] => (sim, [])
  | now :: later =>
      let '(sim', events) := tick now sim in
      let '(sim'', events') := ticks later sim' in
      (sim'', events ++ events')
  end.

End Flight.

(** The emergency alerts among events that name mission [m]. *)
Definition is_emergency_alert_for (m : Z) (event : Event) : bool :=
  String.eqb (fst event) "emergency_alert"
  && match dict_get (snd event) "mission_id" with
     | Some (VInt m') => Z.eqb m' m
     | _ => false
     end.

Definition emergency_alerts_for (m : Z) (events : list Event) : nat :=
  length (List.filter (is_emergency_alert_for m) events).

(** Lower-case form of a text, for searches that ignore case. *)
Definition lower_ascii (c : Ascii.ascii) : Ascii.ascii :=
  let n := Ascii.nat_of_ascii c in
  if ((65 <=? n) && (n <=? 90))%nat then Ascii.ascii_of_nat (n + 32) else c.

Fixpoint lower (s : string) : string :=
  match s with
  | EmptyString => EmptyString
  | String c rest => String (lower_ascii c) (lower rest)
  end.

Fixpoint contains (needle haystack : string) : bool :=
  String.prefix needle haystack
  || match haystack with
     | EmptyString => false
     | String _ rest => contains needle rest
     end.

(** A flight that can be flown on: its mission is stored and in progress,
    its drone is stored and the mission has waypoints. *)
Definition flyable (db : Database) (fs : FlightState) : Prop :=
  (exists mission, missions db !! mission_id fs = Some mission
                   /\ mission_status mission = IN_PROGRESS)
  /\ is_Some (drones db !! drone_id fs)
  /\ mission_waypoints db (mission_id fs) <> [].

(** The reason given to [abort_mission] by the emergency landing. *)
Definition critical_battery_reason : string :=
  "Critical battery - emergency landing".

(** Mission [m] is stored as aborted for a critical battery. *)
Definition aborted_for_critical_battery (db : Database) (m : Z) : Prop :=
  exists mission, missions db !! m = Some mission
                  /\ mission_status mission = ABORTED
                  /\ abort_reason mission = Some critical_battery_reason.

(** A mission that is not in progress (or not stored). *)
Definition not_in_progress (db : Database) (m : Z) : Prop :=
  forall mission, missions db !! m = Some mission ->
                  mission_status mission <> IN_PROGRESS.

(** What a step of the simulator on another mission leaves alone: the row
    of mission [m], the presence of drone [d] and of waypoints of [m]. *)
Definition frame (m d : Z) (db db' : Database) : Prop :=
  missions db' !! m = missions db !! m
  /\ (is_Some (drones db !! d) -> is_Some (drones db' !! d))
  /\ (mission_waypoints db m <> [] -> mission_waypoints db' m <> []).

(** A tracked flight on another mission than [m]. *)
Definition on_other_mission (m : Z) (entry : Z * FlightState) : Prop :=
  mission_id (snd entry) <> m.

(** Flat distances, for running the simulator: 111 km per degree. *)
Definition grid_distance (lat1 lon1 lat2 lon2 : Q) : Q :=
  (111000 * (Qabs (lat2 - lat1) + Qabs (lon2 - lon1)))%Q.

Definition survey_waypoint (id : Z) (m : Z) (lat lon : Q) (order : Z)
           (action : string) : Waypoint :=
  {| waypoint_id := id; waypoint_mission_id := m; waypoint_latitude := lat;
     waypoint_longitude := lon; waypoint_altitude := 100;
     waypoint_order := order; waypoint_action := action;
     waypoint_completed := false |}.

(** Mission 2 of drone 7, under way with a battery at 5 %. *)
Definition low_battery_airfield (status : MissionStatus) : Database :=
  {| missions :=
       {[ 2 := {| mission_name := "Quarry"; mission_status := status;
                  mission_drone_id := Some 7; progress_percentage := 50%Q;
                  current_waypoint := Some 1; started_at := Some 2000%Q;
                  completed_at := None; actual_duration_minutes := None;
                  abort_reason := None |} ]};
     drones :=
       {[ 7 := {| drone_name := "Kestrel"; drone_model := "Surveyor X";
                  drone_status := IN_MISSION;
                  Models.battery_percentage := 5%Q;
                  drone_latitude := Some (1 # 100)%Q;
                  drone_longitude := Some (1 # 100)%Q;
                  drone_altitude := Some 100%Q; last_seen := Some 2100%Q;
                  missions_completed := 1 |} ]};
     waypoints :=
       [ survey_waypoint 1 2 (1 # 100) (1 # 100) 0 "takeoff";
         survey_waypoint 2 2 (1 # 100) (2 # 100) 1 "capture";
         survey_waypoint 3 2 (1 # 100) (1 # 100) 2 "land" ];
     mission_logs := [] |}.

Definition low_battery_flight : FlightState :=
  {| drone_id := 7; mission_id := 2; current_waypoint_index := 1;
     target_waypoint_index := 2; current_lat := 1 # 100;
     current_lon := 2 # 100; current_alt := 100; battery_percentage := 5;
     speed_mps := 15; last_update := 2100; is_moving := true;
     emergency_landing := false |}.

Definition low_battery_simulation (status : MissionStatus) : Simulation :=
  {| active_flights := [(7, low_battery_flight)];
     database := low_battery_airfield status |}.

End Simulator.

(* --------------------------------------------------------------------- *)
(** ** Vocabulary of the further properties                               *)
(* --------------------------------------------------------------------- *)

Module WaypointGenVocabulary.
Import WaypointGen.

(** A coordinate that is a pair [[x; y]] whose members satisfy [P]. *)
Definition vertex (P : Q -> Q -> Prop) (coord : list Q) : Prop :=
  exists x y, coord = [x; y] /\ P x y.


(** A waypoint strictly inside a bounding box. *)
Definition strictly_within (bounds : Bounds) (w : WaypointData) : Prop :=
  let '(minx, miny, maxx, maxy) := bounds in
  (minx < longitude w /\ longitude w < maxx
   /\ miny < latitude w /\ latitude w < maxy)%Q.

(** What the fallback lattice promises of a waypoint: strictly inside the
    box, and accepted by the ray-casting test. *)
Definition lattice_point (coords : list (list Q)) (bounds : Bounds)
           (w : WaypointData) : Prop :=
  strictly_within bounds w
  /\ _point_in_polygon_simple (longitude w) (latitude w) coords = Ret true.

End WaypointGenVocabulary.

(* --------------------------------------------------------------------- *)
(** ** [app/services/mission_planner.py]: drone scoring and cost          *)
(* --------------------------------------------------------------------- *)

Module PlannerScoring.
Import WaypointGen Planner.

(** The attributes of a [Drone] row that the planner reads. *)
Record DroneRow : Type := {
  row_id : Z;
  row_available : bool;                  (* status == DroneStatus.AVAILABLE *)
  row_battery_percentage : Q;
  row_missions_completed : Z;
  current_location_lat : option Q;
  current_location_lng : option Q
}.

(** [x and y] on two optional floats, as a truth value. *)
Definition both_truthy (x y : option Q) : bool :=
  match x, y with
  | Some a, Some b => negb (Qis_zero a) && negb (Qis_zero b)
  | _, _ => false
  end.

(** [first_waypoint[key]], used as a number. *)
Definition waypoint_number (waypoint : PyDict) (key : string) : Res Q :=
  let* v := subscript waypoint key in
  match as_number v with
  | Some q => Ret q
  | None => Raise (TypeError "unsupported operand type(s) for -")
  end.

Definition _calculate_drone_suitability_score (drone : DroneRow)
           (waypoints : list PyDict) (estimated_duration_minutes : Z)
  : Res Q :=
  let score := 0%Q in
  let battery_score := Qmin (row_battery_percentage drone / 100) 1 in
  let required_battery := (inject_Z estimated_duration_minutes * 1 + 20)%Q in
  if Qltb (row_battery_percentage drone) required_battery then Ret 0%Q
  else
    let score := (score + battery_score * 50)%Q in
    let experience_score :=
      Qmin (inject_Z (row_missions_completed drone) / 50) 1 in
    let score := (score + experience_score * 30)%Q in
    match waypoints with
    | first_waypoint :: _ =>
        if both_truthy (current_location_lat drone)
                       (current_location_lng drone) then
          let lat := default 0%Q (current_location_lat drone) in
          let lng := default 0%Q (current_location_lng drone) in
          let* wlat := waypoint_number first_waypoint "latitude" in
          let lat_diff := Qabs (lat - wlat) in
          let* wlng := waypoint_number first_waypoint "longitude" in
          let lng_diff := Qabs (lng - wlng) in
          let distance_score := Qmax 0 (1 - (lat_diff + lng_diff) / 2) in
          Ret (score + distance_score * 20)%Q
        else Ret (score + 10)%Q
    | [] => Ret (score + 10)%Q
    end.

(** [for drone in available_drones: ... if score > 0:
    drone_scores.append((drone, score))] *)
Fixpoint score_drones (available_drones : list DroneRow)
         (waypoints : list PyDict) (estimated_duration_minutes : Z)
  : Res (list (DroneRow * Q)) :=
  match available_drones with
  | [] => Ret []
  | drone :: rest =>
      let* score := _calculate_drone_suitability_score
                      drone waypoints estimated_duration_minutes in
      let* scores := score_drones rest waypoints estimated_duration_minutes in
      Ret (if Qgtb score 0 then (drone, score) :: scores else scores)
  end.

(** [drone_scores.sort(key=lambda x: x[1], reverse=True)]: a stable sort,
    entries of equal score keep their order. *)
Fixpoint insert_by_score (entry : DroneRow * Q)
         (sorted : list (DroneRow * Q)) : list (DroneRow * Q) :=
  match sorted with
  | [] => [entry]
  | x :: rest =>
      if Qle_bool (snd x) (snd entry) then entry :: sorted
      else x :: insert_by_score entry rest
  end.

Definition sort_by_score (entries : list (DroneRow * Q))
  : list (DroneRow * Q) := fold_right insert_by_score [] entries.

(** [drones] are the rows of the table, in the order of the query. *)
Definition find_best_drone_for_mission (drones : list DroneRow)
           (waypoints : list PyDict) (estimated_duration_minutes : Z)
  : Res (option DroneRow) :=
  let available_drones := List.filter row_available drones in
  match available_drones with
  | [] => Ret None
  | _ :: _ =>
      let* drone_scores :=
        score_drones available_drones waypoints estimated_duration_minutes in
      match sort_by_score drone_scores with
      | [] => Ret None
      | best :: _ => Ret (Some (fst best))
      end
  end.

(** [estimate_mission_cost(waypoints, drone_model=None)]: the duration is
    asked of the waypoint generator under the name
    [calculate_estimated_duration]. *)
Definition estimate_mission_cost `{Platform} (waypoints : list WaypointData)
  : Res PyDict :=
  match waypoints with
  | [] => Ret [ ("total_cost", VInt 0); ("breakdown", VDict []) ]
  | _ :: _ =>
      let* calculate_estimated_duration :=
        duration_method "calculate_estimated_duration" in
      let duration_minutes := calculate_estimated_duration waypoints in
      let d := inject_Z duration_minutes in
      let costs :=
        [ ("flight_time_cost", (d * (250 # 100))%Q);
          ("battery_wear_cost", (d * (50 # 100))%Q);
          ("maintenance_cost", (d * (75 # 100))%Q);
          ("operator_cost", (d * 1)%Q) ] in
      let total_cost := fold_left Qplus (map snd costs) 0%Q in
      Ret [ ("total_cost", VFloat (py_round total_cost 2));
            ("duration_minutes", VInt duration_minutes);
            ("breakdown", VDict (map (fun '(k, c) => (k, VFloat c)) costs)) ]
  end.

(** A mission that the planner validates with an overlap of 20 %. *)
Definition sparse_mission : PyDict :=
  [ ("name", VStr "North field");
    ("survey_area_geojson", VStr field_json);
    ("altitude_m", VInt 100);
    ("overlap_percentage", VInt 20);
    ("survey_pattern", VStr "grid") ].

End PlannerScoring.

Module Tally.

(** The sum of the counts of a tally. *)
Definition total (d : list (string * Z)) : Z :=
  fold_right Z.add 0 (map snd d).

(** The number of members of a list that carry the key [k]. *)
Definition occurrences {A} (key : A -> string) (k : string) (xs : list A)
  : Z :=
  Z.of_nat (length (List.filter (fun x => String.eqb (key x) k) xs)).

End Tally.

(* --------------------------------------------------------------------- *)
(** ** [app/core/error_handling.py]: the error handler's bookkeeping      *)
(* --------------------------------------------------------------------- *)

Module ErrorMetrics.

(** What the bookkeeping reads of a [BaseApplicationError]: the values of
    its category and of its severity, and its timestamp. *)
Record AppError : Type := {
  category : string;
  severity : string;
  timestamp : Q
}.

(** The attributes [error_count] and [last_errors] of [ErrorHandler]. *)
Record ErrorHandler : Type := {
  error_count : Z;
  last_errors : list AppError
}.

(** [ErrorHandler()] *)
Definition ErrorHandler_init : ErrorHandler :=
  {| error_count := 0; last_errors := [] |}.

(** [xs[-n:]] for a positive [n] *)
Definition last_items {A} (n : nat) (xs : list A) : list A :=
  skipn (length xs - n) xs.

Definition update_error_metrics (self : ErrorHandler) (error : AppError)
  : ErrorHandler :=
  let last_errors := last_errors self ++ [error] in
  {| error_count := error_count self + 1;
     last_errors := if (100 <? length last_errors)%nat
                    then last_items 100 last_errors
                    else last_errors |}.

(** [d[k] = d.get(k, 0) + 1] *)
Definition count_one (d : list (string * Z)) (k : string)
  : list (string * Z) :=
  dict_set d k (default 0 (dict_get d k) + 1).

(** The category of an error decides the status of the response;
    [status_mapping.get(error.category, 500)] on the values of the enum. *)
Definition get_http_status_code (error : AppError) : Z :=
  default 500
    (dict_get [ ("validation", 400); ("authentication", 401);
                ("authorization", 403); ("business_logic", 400);
                ("external_service", 502); ("database", 500);
                ("ai_model", 503); ("system", 500); ("network", 502) ]
              (category error)).

Record ErrorStatistics : Type := {
  total_errors : Z;
  recent_errors : nat;
  categories : list (string * Z);
  severities : list (string * Z);
  last_error_time : option Q
}.

(** [get_error_statistics]: [None] stands for the dictionary
    [{"total_errors": 0}] of a handler without recent errors. *)
Definition get_error_statistics (self : ErrorHandler)
  : option ErrorStatistics :=
  match last_errors self with
  | [] => None
  | _ :: _ =>
      let categories :=
        fold_left (fun d error => count_one d (category error))
                  (last_errors self) [] in
      let severities :=
        fold_left (fun d error => count_one d (severity error))
                  (last_errors self) [] in
      Some {| total_errors := error_count self;
              recent_errors := length (last_errors self);
              categories := categories;
              severities := severities;
              last_error_time := option_map timestamp (last (last_errors self)) |}
  end.

(** The handler after the errors of a list, oldest first. *)
Definition handle_all (errors : list AppError) : ErrorHandler :=
  fold_left update_error_metrics errors ErrorHandler_init.

End ErrorMetrics.

(* --------------------------------------------------------------------- *)
(** ** [app/services/ai_mission_optimizer.py]: terrain, weather, patterns *)
(* --------------------------------------------------------------------- *)

Module MissionOptimizer.
Import Py Models DroneSelection.

(** [max(a, b)] and [min(a, b)] give [a] unless [b] is larger, or
    smaller. *)
Definition py_max2 (a b : Q) : Q := if Qgtb b a then b else a.
Definition py_min2 (a b : Q) : Q := if Qltb b a then b else a.

(** [max(xs, default=0)] *)
Definition py_max_default (xs : list Q) : Q :=
  match xs with
  | [] => 0%Q
  | x :: rest => fold_left py_max2 rest x
  end.

(** An obstacle as [identify_obstacles] makes them; [height] is [None] for
    a dictionary without that key. *)
Record Obstacle : Type := {
  obstacle_id : string;
  obstacle_type : string;
  obstacle_coordinates : Q * Q;
  height : option Q;
  severity : string
}.

(** [TerrainAnalyzer.calculate_optimal_altitude] *)
Definition calculate_optimal_altitude (terrain_complexity : Q)
           (obstacles : list Obstacle) : Q :=
  let base_altitude := 100%Q in
  let terrain_adjustment := (terrain_complexity * (5 # 10))%Q in
  let max_obstacle_height :=
    py_max_default (map (fun obs => default 0%Q (height obs)) obstacles) in
  let obstacle_clearance := (max_obstacle_height + 20)%Q in
  let optimal_altitude :=
    py_max2 (base_altitude + terrain_adjustment) obstacle_clearance in
  py_min2 optimal_altitude 400.

(** [WeatherAnalyzer.get_weather_impact_score]: the seven values of
    [weather_data] are drawn in the order of the dictionary display. *)
Definition get_weather_impact_score (random : nat -> Q) (k : nat)
  : (Q * list (string * Q)) * nat :=
  let '(wind_speed, k) := uniform random k 0 25 in
  let '(wind_direction, k) := uniform random k 0 360 in
  let '(visibility, k) := uniform random k 1 10 in
  let '(precipitation, k) := uniform random k 0 10 in
  let '(temperature, k) := uniform random k (-10) 40 in
  let '(pressure, k) := uniform random k 980 1030 in
  let '(humidity, k) := uniform random k 30 95 in
  let weather_data :=
    [ ("wind_speed", wind_speed); ("wind_direction", wind_direction);
      ("visibility", visibility); ("precipitation", precipitation);
      ("temperature", temperature); ("pressure", pressure);
      ("humidity", humidity) ] in
  let impact_score := 0%Q in
  let impact_score :=
    if Qgtb wind_speed 15 then (impact_score + (wind_speed - 15) * 2)%Q
    else impact_score in
  let impact_score :=
    if Qltb visibility 5 then (impact_score + (5 - visibility) * 10)%Q
    else impact_score in
  let impact_score :=
    if Qgtb precipitation 0 then (impact_score + precipitation * 5)%Q
    else impact_score in
  let impact_score :=
    if Qltb temperature 0 || Qgtb temperature 35
    then (impact_score + 15)%Q
    else impact_score in
  ((py_min2 impact_score 100, weather_data), k).

(** [weather_data[key]] *)
Definition item (weather_data : list (string * Q)) (key : string) : Res Q :=
  match dict_get weather_data key with
  | Some v => Ret v
  | None => Raise (KeyError key)
  end.

(** [requirements.get('priority') == 'speed'] *)
Definition priority_is_speed (requirements : PyDict) : bool :=
  match dict_get requirements "priority" with
  | Some (VStr s) => String.eqb s "speed"
  | _ => false
  end.

(** [FlightPatternOptimizer._select_adaptive_pattern] *)
Definition _select_adaptive_pattern (terrain_complexity : Q)
           (weather_data : list (string * Q)) (requirements : PyDict)
  : Res string :=
  if Qgtb terrain_complexity 70 then
    let* wind_speed := item weather_data "wind_speed" in
    if Qgtb wind_speed 15 then Ret "conservative_grid"
    else Ret "adaptive_contour"
  else
    let* wind_speed := item weather_data "wind_speed" in
    if Qgtb wind_speed 20 then Ret "wind_optimized"
    else if priority_is_speed requirements then Ret "spiral_optimized"
    else Ret "ai_adaptive".

(** The dictionary display of [_calculate_efficiency]. *)
Definition base_efficiencies : list (string * Q) :=
  [ ("ai_adaptive", 92); ("adaptive_contour", 88); ("spiral_optimized", 85);
    ("wind_optimized", 83); ("conservative_grid", 78) ]%Q.

(** [FlightPatternOptimizer._calculate_efficiency] *)
Definition _calculate_efficiency (pattern_type : string)
           (terrain_complexity weather_impact : Q) : Q :=
  let base_efficiency :=
    default 80%Q (dict_get base_efficiencies pattern_type) in
  let terrain_penalty := (terrain_complexity * (2 # 10))%Q in
  let weather_penalty := (weather_impact * (15 # 100))%Q in
  let efficiency := (base_efficiency - terrain_penalty - weather_penalty)%Q in
  py_max2 60 (py_min2 100 efficiency).

(** [FlightPatternOptimizer._calculate_coverage]; the waypoints are not
    looked at. *)
Definition _calculate_coverage {A} (waypoints : list A) (overlap : Q) : Q :=
  let base_coverage := 95%Q in
  let overlap_bonus := ((overlap - 50) * (1 # 10))%Q in
  py_min2 100 (base_coverage + overlap_bonus).

(** [FlightPatternOptimizer._estimate_battery_consumption] *)
Definition _estimate_battery_consumption
           (duration weather_impact terrain_complexity : Q) : Q :=
  let base_consumption_per_minute := (12 # 10)%Q in
  let weather_factor := (1 + weather_impact / 200)%Q in
  let terrain_factor := (1 + terrain_complexity / 300)%Q in
  let consumption :=
    (duration * base_consumption_per_minute * weather_factor
     * terrain_factor)%Q in
  py_min2 100 (py_round consumption 1).

(** [FlightPatternOptimizer._calculate_safety_rating] *)
Definition _calculate_safety_rating {A} (altitude : Q) (obstacles : list A)
           (weather_impact : Q) : Q :=
  let base_safety := 90%Q in
  let altitude_bonus :=
    if Qle_bool 80 altitude && Qle_bool altitude 200 then 5%Q
    else if Qle_bool 50 altitude && Qle_bool altitude 300 then 0%Q
    else (-10)%Q in
  let obstacle_penalty := inject_Z (Z.of_nat (length obstacles) * 3) in
  let weather_penalty := (weather_impact * (3 # 10))%Q in
  let safety_rating :=
    (base_safety + altitude_bonus - obstacle_penalty - weather_penalty)%Q in
  py_max2 50 (py_min2 100 safety_rating).

(** The list comprehension of [select_optimal_drone]: the drones are scored
    from left to right, each with the draws that follow those of the
    previous one.  A drone comes with its [id]. *)
Fixpoint score_each (random : nat -> Q) (k : nat)
         (drones : list (Z * Drone)) (mission_requirements : PyDict)
  : list DroneScore * nat :=
  match drones with
  | [] => ([], k)
  | (drone_id, drone) :: rest =>
      let '(score, k) :=
        score_drone_for_mission random k drone_id drone
                                mission_requirements in
      let '(scores, k) := score_each random k rest mission_requirements in
      (score :: scores, k)
  end.

(** [max(scores, key=lambda x: x.total_score)] on a non-empty list: the
    first of the scores with the largest total. *)
Definition max_by_total_score (first : DroneScore) (rest : list DroneScore)
  : DroneScore :=
  fold_left (fun best x =>
               if Qgtb (total_score x) (total_score best) then x else best)
            rest first.

(** [DroneSelectionAI.select_optimal_drone]; every score made by
    [score_drone_for_mission] has the factor [availability]. *)
Definition select_optimal_drone (random : nat -> Q) (k : nat)
           (drones : list (Z * Drone)) (mission_requirements : PyDict)
  : option DroneScore * nat :=
  let '(scores, k) := score_each random k drones mission_requirements in
  let suitable_scores :=
    List.filter (fun score =>
                   Qgtb (total_score score) 50
                   && Qgtb (factor (factors score) "availability") 0)
                scores in
  match suitable_scores with
  | [] => (None, k)
  | first :: rest => (Some (max_by_total_score first rest), k)
  end.

(** Draws in the range of [random.random()]. *)
Definition unit_draws (random : nat -> Q) : Prop :=
  forall k, (0 <= random k <= 1)%Q.

End MissionOptimizer.

(* --------------------------------------------------------------------- *)
(** ** [simulator.py]: vocabulary                                         *)
(* --------------------------------------------------------------------- *)

Module SimulatorVocabulary.
Import Models Simulator.


(** No stored mission is in progress. *)
Definition idle (db : Database) : Prop :=
  forall m, not_in_progress db m.

(** The hangar of the lifecycle endpoints has nothing in progress; a flight
    left over from an earlier pass. *)
Definition stale_flight : FlightState :=
  {| drone_id := 7; mission_id := 1; current_waypoint_index := 3;
     target_waypoint_index := 4; current_lat := 12; current_lon := 77;
     current_alt := 100; Simulator.battery_percentage := 60;
     speed_mps := 15; last_update := 1000; is_moving := true;
     emergency_landing := false |}.

End SimulatorVocabulary.

(* ===================================================================== *)
(** * Part II: properties                                                 *)
(* ===================================================================== *)

(** ** Rational helpers *)

Lemma Qltb_lt (x y : Q) : Qltb x y = true <-> (x < y)%Q.
Proof.
  unfold Qltb. rewrite negb_true_iff.
  split; intros Hxy.
  - apply Qnot_le_lt. intros Hle. apply Qle_bool_iff in Hle. congruence.
  - destruct (Qle_bool y x) eqn:E; [|reflexivity].
    apply Qle_bool_iff in E. exfalso. exact (Qlt_not_le _ _ Hxy E).
Qed.

Lemma Qmax_spec_le (x y : Q) : (x <= y)%Q -> Qmax x y = y.
Proof. intros Hxy. unfold Qmax. apply Qle_bool_iff in Hxy. now rewrite Hxy. Qed.

Lemma Qmax_spec_gt (x y : Q) : (y < x)%Q -> Qmax x y = x.
Proof.
  intros Hxy. unfold Qmax.
  destruct (Qle_bool x y) eqn:E; [|reflexivity].
  apply Qle_bool_iff in E. exfalso. exact (Qlt_not_le _ _ Hxy E).
Qed.

(** ** The result monad *)

Lemma bind_ret_inv {A B} (m : Res A) (k : A -> Res B) (b : B) :
  Py.bind m k = Ret b -> exists a, m = Ret a /\ k a = Ret b.
Proof. destruct m; simpl; intros E; try discriminate. eauto. Qed.

(** Invert a hypothesis [bind m k = Ret b]. *)
Ltac bind_inv H :=
  let a := fresh "a" in
  let Hm := fresh "Hm" in
  apply bind_ret_inv in H; destruct H as (a & Hm & H).

Module WaypointGenFacts.
Import WaypointGen.

Section Facts.
Context `{Platform}.



(** *** What the pattern generators produce *)

Lemma capture_at_surveyed a o lat lon : surveyed a (capture_at a o lat lon).
Proof. split; reflexivity. Qed.

Lemma append_coords_surveyed a coords : forall wps o,
  Forall (surveyed a) wps ->
  Forall (surveyed a) (fst (append_coords a coords wps o)).
Proof.
  induction coords as [|c cs IH]; intros wps o Hw; simpl; [exact Hw|].
  apply IH. apply Forall_app. split; [exact Hw|].
  repeat constructor.
Qed.

Lemma add_intersection_surveyed a i wps o wps' o' :
  Forall (surveyed a) wps ->
  add_intersection a i wps o = (wps', o') ->
  Forall (surveyed a) wps'.
Proof.
  intros Hw E. destruct i as [coords|]; simpl in E.
  - pose proof (append_coords_surveyed a coords wps o Hw) as Hs.
    rewrite E in Hs. exact Hs.
  - injection E as <- _. exact Hw.
Qed.

Lemma north_south_lines_surveyed a fuel poly miny maxx maxy sp :
  forall cur dir wps o wps' o',
    Forall (surveyed a) wps ->
    north_south_lines fuel poly a miny maxx maxy sp cur dir wps o
    = Ret (wps', o') ->
    Forall (surveyed a) wps'.
Proof.
  induction fuel as [|fuel IH]; intros cur dir wps o wps' o' Hw E;
    simpl in E; destruct (Qle_bool cur maxx); try discriminate;
    try (injection E as <- _; exact Hw).
  bind_inv E.
  destruct (add_intersection a a0 wps o) as [w1 o1] eqn:Ea.
  eapply IH; [|exact E].
  eapply add_intersection_surveyed; eauto.
Qed.

Lemma east_west_lines_surveyed a fuel poly minx maxx maxy sp :
  forall cur wps o wps' o',
    Forall (surveyed a) wps ->
    east_west_lines fuel poly a minx maxx maxy sp cur wps o
    = Ret (wps', o') ->
    Forall (surveyed a) wps'.
Proof.
  induction fuel as [|fuel IH]; intros cur wps o wps' o' Hw E;
    simpl in E; destruct (Qle_bool cur maxy); try discriminate;
    try (injection E as <- _; exact Hw).
  bind_inv E.
  destruct (add_intersection a a0 wps o) as [w1 o1] eqn:Ea.
  eapply IH; [|exact E].
  eapply add_intersection_surveyed; eauto.
Qed.

Lemma crosshatch_shapely_surveyed a fuel poly sp cross wps :
  _generate_crosshatch_shapely fuel poly a sp cross = Ret wps ->
  Forall (surveyed a) wps.
Proof.
  unfold _generate_crosshatch_shapely.
  destruct (shapely_bounds poly) as [[[minx miny] maxx] maxy].
  intros E. bind_inv E. bind_inv E. destruct a1 as [w1 o1].
  assert (Forall (surveyed a) w1) as H1
      by (eapply north_south_lines_surveyed; [constructor|exact Hm0]).
  destruct cross.
  - bind_inv E. destruct a1 as [w2 o2]. injection E as <-.
    eapply east_west_lines_surveyed; eauto.
  - injection E as <-. exact H1.
Qed.

Lemma lattice_row_surveyed a fuel coords maxx sp lat :
  forall cur wps o wps' o',
    Forall (surveyed a) wps ->
    lattice_row fuel coords a maxx sp lat cur wps o = Ret (wps', o') ->
    Forall (surveyed a) wps'.
Proof.
  induction fuel as [|fuel IH]; intros cur wps o wps' o' Hw E;
    simpl in E; destruct (Qltb cur maxx); try discriminate;
    try (injection E as <- _; exact Hw).
  bind_inv E. destruct a0.
  - eapply IH; [|exact E]. apply Forall_app. split; [exact Hw|].
    repeat constructor.
  - eapply IH; eauto.
Qed.

Lemma lattice_rows_surveyed a fuel fuel_row coords minx maxx maxy slat slon :
  forall cur wps o wps' o',
    Forall (surveyed a) wps ->
    lattice_rows fuel fuel_row coords a minx maxx maxy slat slon cur wps o
    = Ret (wps', o') ->
    Forall (surveyed a) wps'.
Proof.
  induction fuel as [|fuel IH]; intros cur wps o wps' o' Hw E;
    simpl in E; destruct (Qltb cur maxy); try discriminate;
    try (injection E as <- _; exact Hw).
  bind_inv E. destruct a0 as [w1 o1].
  eapply IH; [|exact E].
  eapply lattice_row_surveyed; eauto.
Qed.

Lemma crosshatch_simple_surveyed a fuel coords bounds sp cross wps :
  _generate_crosshatch_simple fuel coords bounds a sp cross = Ret wps ->
  Forall (surveyed a) wps.
Proof.
  unfold _generate_crosshatch_simple.
  destruct bounds as [[[minx miny] maxx] maxy].
  intros E. bind_inv E. bind_inv E. destruct a1 as [w1 o1].
  injection E as <-.
  eapply lattice_rows_surveyed; [constructor|exact Hm0].
Qed.

Lemma crosshatch_pattern_surveyed a fuel poly ov kw wps :
  _generate_crosshatch_pattern fuel poly a ov kw = Ret wps ->
  Forall (surveyed a) wps.
Proof.
  unfold _generate_crosshatch_pattern. intros E. bind_inv E.
  destruct SHAPELY_AVAILABLE; destruct poly; try discriminate.
  - eapply crosshatch_shapely_surveyed; eauto.
  - eapply crosshatch_simple_surveyed; eauto.
Qed.

Lemma perimeter_points_surveyed a coords : forall wps o wps',
  Forall (surveyed a) wps ->
  perimeter_points a coords wps o = Ret wps' ->
  Forall (surveyed a) wps'.
Proof.
  induction coords as [|c cs IH]; intros wps o wps' Hw E; simpl in E.
  - injection E as <-. exact Hw.
  - bind_inv E. bind_inv E. eapply IH; [|exact E].
    apply Forall_app. split; [exact Hw|]. repeat constructor.
Qed.

Lemma survey_points_surveyed fuel geo a ov pt kw poly wps :
  survey_points fuel geo a ov pt kw = Ret (poly, wps) ->
  Forall (surveyed a) wps.
Proof.
  unfold survey_points. intros E. bind_inv E. bind_inv E. bind_inv E.
  injection E as _ <-.
  destruct (String.eqb pt "crosshatch").
  { eapply crosshatch_pattern_surveyed; eauto. }
  destruct (String.eqb pt "grid").
  { unfold _generate_grid_pattern in Hm1. bind_inv Hm1.
    eapply crosshatch_pattern_surveyed; eauto. }
  destruct (String.eqb pt "perimeter"); [|discriminate].
  unfold _generate_perimeter_pattern in Hm1.
  eapply perimeter_points_surveyed; [constructor|exact Hm1].
Qed.

(** *** Renumbering and timing keep the list in place *)

Lemma renumber_length ws : forall i, length (renumber i ws) = length ws.
Proof. induction ws as [|w ws IH]; intros i; simpl; [|rewrite IH]; reflexivity. Qed.

Lemma renumber_lookup ws : forall i n w,
  nth_error (renumber i ws) n = Some w ->
  exists w0, nth_error ws n = Some w0
             /\ w = set_order w0 (i + Z.of_nat n + 1).
Proof.
  induction ws as [|w0 ws IH]; intros i n w E; destruct n; simpl in E;
    try discriminate.
  - injection E as <-. exists w0. split; [reflexivity|].
    f_equal. lia.
  - apply IH in E. destruct E as (w1 & E1 & ->). exists w1.
    split; [exact E1|]. f_equal. lia.
Qed.

Lemma timing_loop_length ws : forall prev t,
  length (timing_loop prev t ws) = length ws.
Proof.
  induction ws as [|w ws IH]; intros prev t; simpl; [reflexivity|].
  destruct prev; simpl; rewrite IH; reflexivity.
Qed.

Lemma timing_loop_lookup ws : forall prev t n w,
  nth_error (timing_loop prev t ws) n = Some w ->
  exists w0 s, nth_error ws n = Some w0 /\ w = set_estimated_time w0 s.
Proof.
  induction ws as [|w0 ws IH]; intros prev t n w E.
  - destruct n; discriminate.
  - simpl in E. destruct prev; destruct n; simpl in E.
    + injection E as <-. eexists _, _. split; reflexivity.
    + apply IH in E. destruct E as (wx & sx & E1 & ->).
      eexists _, _. split; [exact E1|reflexivity].
    + injection E as <-. eexists _, _. split; reflexivity.
    + apply IH in E. destruct E as (wx & sx & E1 & ->).
      eexists _, _. split; [exact E1|reflexivity].
Qed.

Lemma timing_loop_snoc ws : forall prev t z,
  exists s, timing_loop prev t (ws ++ [z])
            = timing_loop prev t ws ++ [set_estimated_time z s].
Proof.
  induction ws as [|w ws IH]; intros prev t z.
  - simpl. destruct prev; eexists; reflexivity.
  - simpl. destruct prev.
    + edestruct IH as (s & ->). eexists. reflexivity.
    + edestruct IH as (s & ->). eexists. reflexivity.
Qed.

(** C4: a non-empty list returned by [generate_waypoints] is a takeoff
    waypoint (order 0, at the mission altitude), then the N survey
    waypoints carrying the orders 1 to N, then a landing waypoint
    (altitude 0, order N + 1). *)
Theorem takeoff_survey_landing_order
        (fuel : nat) (survey_area_geojson : string)
        (altitude_m overlap_percentage : Q) (pattern_type : string)
        (kwargs : PyDict) (waypoints : list WaypointData) :
  generate_waypoints fuel survey_area_geojson altitude_m
                     overlap_percentage pattern_type kwargs
  = Ret waypoints ->
  waypoints <> [] ->
  exists takeoff survey landing,
    waypoints = takeoff :: survey ++ [landing]
    /\ action takeoff = "takeoff" /\ order takeoff = 0
    /\ altitude takeoff = altitude_m
    /\ action landing = "land" /\ altitude landing = 0%Q
    /\ order landing = Z.of_nat (length survey) + 1
    /\ (forall i w, nth_error survey i = Some w ->
                    order w = Z.of_nat i + 1 /\ action w = "capture").
Proof.
  unfold generate_waypoints. intros E Hne. bind_inv E.
  destruct a as [poly ws]. injection E as <-.
  apply survey_points_surveyed in Hm.
  destruct ws as [|w0 ws]; [contradiction Hne; reflexivity|].
  assert (altitude w0 = altitude_m) as Halt
      by (inversion Hm as [|? ? [Ha _] _]; exact Ha).
  unfold _add_takeoff_landing, _calculate_timing.
  set (takeoff := {| latitude := latitude w0; longitude := longitude w0;
                     altitude := altitude w0; order := 0;
                     action := "takeoff";
                     estimated_time_seconds := None |}).
  set (landing := {| latitude := latitude w0; longitude := longitude w0;
                     altitude := 0; order := Z.of_nat (length (w0 :: ws)) + 1;
                     action := "land"; estimated_time_seconds := None |}).
  change ([takeoff] ++ renumber 0 (w0 :: ws) ++ [landing])
    with (takeoff :: (renumber 0 (w0 :: ws) ++ [landing])).
  cbn [timing_loop].
  set (takeoff' := set_estimated_time takeoff (Qtrunc 0)).
  set (t1 := if String.eqb (action takeoff) "takeoff" then (0 + 10)%Q else 0%Q).
  destruct (timing_loop_snoc (renumber 0 (w0 :: ws)) (Some takeoff') t1 landing)
    as (s & ->).
  exists takeoff', (timing_loop (Some takeoff') t1 (renumber 0 (w0 :: ws))),
         (set_estimated_time landing s).
  repeat split; try reflexivity; try exact Halt.
  - cbn [order set_estimated_time landing].
    rewrite timing_loop_length, renumber_length. reflexivity.
  - apply timing_loop_lookup in H0. destruct H0 as (w1 & s1 & E1 & ->).
    apply renumber_lookup in E1. destruct E1 as (w2 & E2 & ->).
    simpl. lia.
  - apply timing_loop_lookup in H0. destruct H0 as (w1 & s1 & E1 & ->).
    apply renumber_lookup in E1. destruct E1 as (w2 & E2 & ->).
    simpl. apply nth_error_In in E2.
    rewrite Forall_forall in Hm.
    apply list_elem_of_In in E2. apply Hm in E2. apply E2.
Qed.

(** C10: when the selected pattern yields no survey point,
    [generate_waypoints] returns the empty list: nothing is raised and no
    takeoff or landing waypoint is added. *)
Theorem no_survey_points_no_waypoints
        (fuel : nat) (survey_area_geojson : string)
        (altitude_m overlap_percentage : Q) (pattern_type : string)
        (kwargs : PyDict) (polygon : SurveyPolygon) :
  survey_points fuel survey_area_geojson altitude_m overlap_percentage
                pattern_type kwargs = Ret (polygon, []) ->
  generate_waypoints fuel survey_area_geojson altitude_m
                     overlap_percentage pattern_type kwargs = Ret [].
Proof.
  intros E. unfold generate_waypoints. rewrite E. reflexivity.
Qed.

End Facts.

Lemma takeoff_survey_landing_order_witness :
  exists waypoints,
    generate_waypoints (H := fallback_platform) 1 field_json 100 70
                       "perimeter" [] = Ret waypoints
    /\ waypoints <> []
    /\ exists takeoff survey landing,
      waypoints = takeoff :: survey ++ [landing]
      /\ action takeoff = "takeoff" /\ order takeoff = 0
      /\ altitude takeoff = 100%Q
      /\ action landing = "land" /\ altitude landing = 0%Q
      /\ order landing = Z.of_nat (length survey) + 1
      /\ (forall i w, nth_error survey i = Some w ->
                      order w = Z.of_nat i + 1 /\ action w = "capture").
Proof.
  eexists. split; [vm_compute; reflexivity|]. split; [discriminate|].
  apply (takeoff_survey_landing_order (H := fallback_platform) 1 field_json
           100 70 "perimeter" []); [vm_compute; reflexivity|discriminate].
Defined.

Lemma no_survey_points_no_waypoints_witness :
  survey_points (H := fallback_platform) 1 plot_json 100 70 "crosshatch" []
  = Ret (SimplePolygon (map (fun c : Q * Q => [fst c; snd c]) plot_ring)
                       (0, 0, 1 # 10000, 1 # 10000)%Q, [])
  /\ generate_waypoints (H := fallback_platform) 1 plot_json 100 70
                        "crosshatch" [] = Ret [].
Proof.
  split; [vm_compute; reflexivity|].
  apply (no_survey_points_no_waypoints (H := fallback_platform) 1 plot_json
           100 70 "crosshatch" []
           (SimplePolygon (map (fun c : Q * Q => [fst c; snd c]) plot_ring)
                          (0, 0, 1 # 10000, 1 # 10000)%Q)).
  vm_compute; reflexivity.
Defined.

End WaypointGenFacts.

Module PlannerFacts.
Import WaypointGen Planner.

Section Facts.
Context `{Platform}.
Context {Drone : Type}.
Variable drone_id : Drone -> Z.
Variable drone_to_dict : Drone -> PyDict.
Variable find_best_drone_for_mission :
  list WaypointData -> Z -> Res (option Drone).

Lemma valid_has_required_fields (mission_data : PyDict) vr :
  validate_mission_parameters mission_data = Ret vr ->
  valid vr = true ->
  Forall (fun field => dict_has mission_data field = true) required_fields.
Proof.
  unfold validate_mission_parameters, missing_field_errors, required_fields.
  intros E Hv. simpl in E.
  repeat match goal with
         | |- Forall _ (?f :: _) =>
             constructor;
             [destruct (dict_has mission_data f) eqn:?; [reflexivity|]|]
         | |- Forall _ [] => constructor
         end;
    repeat match type of E with
           | context [negb (dict_has mission_data ?g)] =>
               destruct (dict_has mission_data g); simpl in E
           end;
    injection E as <-; discriminate.
Qed.

Lemma dict_has_subscript (d : PyDict) k :
  dict_has d k = true -> exists v, subscript d k = Ret v.
Proof.
  unfold dict_has, subscript. destruct (dict_get d k); [eauto|discriminate].
Qed.

(** The call [generate_waypoints(survey_area_geojson=.., altitude_m=..,
    overlap_percentage=.., survey_pattern=..)] does not bind
    [pattern_type]. *)
Lemma keyword_call_misses_pattern_type fuel g a o p :
  call_generate_waypoints fuel []
    [ ("survey_area_geojson", g); ("altitude_m", a);
      ("overlap_percentage", o); ("survey_pattern", p) ]
  = Raise (TypeError "generate_waypoints() missing required positional argument(s): 'pattern_type'").
Proof. reflexivity. Qed.

(** C1 (as the code behaves): for mission data accepted by
    [validate_mission_parameters], [plan_mission] returns the failure
    dictionary of its [except] clause, with [success] false and no
    waypoints; the claim promises [success] true with the generated
    waypoints. *)
Theorem plan_mission_fails_on_valid_data
        (fuel : nat) (mission_data : PyDict) (auto_assign_drone : bool)
        (validation : ValidationResult) :
  validate_mission_parameters mission_data = Ret validation ->
  valid validation = true ->
  exists result,
    plan_mission drone_id drone_to_dict find_best_drone_for_mission
                 fuel mission_data auto_assign_drone = Ret result
    /\ result = PlanningFailure
         (GenerationFailed
            "Waypoint generation failed: generate_waypoints() missing required positional argument(s): 'pattern_type'")
    /\ success result = false
    /\ result_waypoints result = [].
Proof.
  intros E Hv. eexists. split; [|repeat split; reflexivity].
  pose proof (valid_has_required_fields _ _ E Hv) as Hf.
  unfold required_fields in Hf.
  repeat match goal with
         | Hf : Forall _ (_ :: _) |- _ =>
             let Hx := fresh "Hx" in
             apply Forall_cons in Hf; destruct Hf as [Hx Hf];
             apply dict_has_subscript in Hx; destruct Hx as [? Hx]
         end.
  unfold plan_mission. rewrite E. cbn [Py.bind]. rewrite Hv. cbn [negb].
  rewrite Hx0, Hx1, Hx2, Hx3. cbn [Py.bind].
  rewrite keyword_call_misses_pattern_type. reflexivity.
Qed.

End Facts.

Lemma plan_mission_fails_on_valid_data_witness :
  validate_mission_parameters (H := shoelace_platform) field_mission
  = Ret {| valid := true; errors := [] |}
  /\ exists result,
      plan_mission (H := shoelace_platform) (fun _ : unit => 0)
                   (fun _ => []) (fun _ _ => Ret None) 1 field_mission true
      = Ret result
      /\ result = PlanningFailure
           (GenerationFailed
              "Waypoint generation failed: generate_waypoints() missing required positional argument(s): 'pattern_type'")
      /\ success result = false
      /\ result_waypoints result = [].
Proof.
  split; [vm_compute; reflexivity|].
  apply (plan_mission_fails_on_valid_data (H := shoelace_platform)
           (fun _ : unit => 0) (fun _ => []) (fun _ _ => Ret None)
           1 field_mission true {| valid := true; errors := [] |});
    [vm_compute; reflexivity|reflexivity].
Defined.

(** The same request reaches the generator when the pattern is passed by
    position, as the demo set-up script does. *)
Example positional_call_generates :
  exists waypoints,
    call_generate_waypoints (H := shoelace_platform) 1
      [VStr field_json; VInt 100; VInt 70; VStr "perimeter"] []
    = Ret waypoints /\ length waypoints = 6%nat.
Proof. eexists. split; vm_compute; reflexivity. Qed.

End PlannerFacts.

Module ErrorHandlingFacts.
Import ErrorHandling.

(** Without a [retry_after] keyword the error is built, with the class's own
    300 seconds. *)
Lemma ExternalServiceError_default_retry (message service_name : PyVal) :
  exists attrs,
    ExternalServiceError_init [message] [("service_name", service_name)]
    = Ret attrs
    /\ dict_get attrs "retry_after" = Some (VInt 300).
Proof. eexists. split; reflexivity. Qed.

(** With a [retry_after] keyword the constructor passes [retry_after] twice
    to [BaseApplicationError.__init__]. *)
Lemma ExternalServiceError_retry_after_twice {A}
      (message service_name retry_after : PyVal) :
  @raise_ExternalServiceError A [message]
    [("service_name", service_name); ("retry_after", retry_after)]
  = Raise (TypeError "__init__() got multiple values for keyword argument 'retry_after'").
Proof. reflexivity. Qed.

Section Facts.
Context {W R : Type}.
Variable clock : W -> Q.
Variable func_name : string.

Abbreviation Callable := (@Callable W R).

Lemma failing_call (func : Callable) (cb : CircuitBreaker) (w : W) :
  failing func ->
  String.eqb (state cb) "OPEN" = false ->
  (forall e, expected_exception cb e = true) ->
  exists e,
    wrapper clock func_name func cb w
    = (Raise e, _on_failure cb (clock (snd (func w))), snd (func w)).
Proof.
  intros Hf Hs He. unfold wrapper. rewrite Hs.
  destruct (Hf w) as [e Hw]. destruct (func w) as [r w'].
  simpl in Hw. subst r. rewrite He. exists e. reflexivity.
Qed.

Lemma failures_open (funcs : list Callable) : forall cb w,
  Forall failing funcs ->
  funcs <> [] ->
  state cb = "CLOSED" ->
  (forall e, expected_exception cb e = true) ->
  failure_count cb + Z.of_nat (length funcs) = failure_threshold cb ->
  state (fst (calls clock func_name funcs cb w)) = "OPEN"
  /\ failure_count (fst (calls clock func_name funcs cb w))
     = failure_threshold cb.
Proof.
  induction funcs as [|f rest IH]; intros cb w Hf Hne Hs He Hc;
    [contradiction Hne; reflexivity|].
  apply Forall_cons in Hf. destruct Hf as [Hf Hrest].
  cbn [calls].
  destruct (failing_call f cb w Hf) as [e ->];
    [rewrite Hs; reflexivity|exact He|].
  destruct rest as [|g rest].
  - cbn [calls fst _on_failure state failure_count].
    cbn [length] in Hc.
    replace (failure_count cb + 1 >=? failure_threshold cb) with true
      by (symmetry; apply Z.geb_le; lia).
    split; [reflexivity|lia].
  - specialize (IH (_on_failure cb (clock (snd (f w)))) (snd (f w)) Hrest).
    cbn [_on_failure state failure_count failure_threshold
         expected_exception] in IH.
    cbn [length] in Hc, IH.
    replace (failure_count cb + 1 >=? failure_threshold cb) with false in IH
      by (symmetry; rewrite Z.geb_leb; apply Z.leb_gt; lia).
    apply IH; [discriminate|exact Hs|exact He|lia].
Qed.

(** C2 (as the code behaves): with the default settings, five consecutive
    failing calls open the breaker; a call made while it is open and less
    than 60 seconds after the last failure returns at once, the wrapped
    function is not invoked and breaker and world are unchanged, but what is
    raised is the [TypeError] of the [ExternalServiceError] constructor, not
    an [ExternalServiceError] with [retry_after] 60; a call made 60 seconds
    or more after the last failure runs the wrapped function. *)
Theorem breaker_opens_blocks_and_retries :
  (forall (funcs : list Callable) (w : W),
      length funcs = 5%nat ->
      Forall failing funcs ->
      state (fst (calls clock func_name funcs default_breaker w)) = "OPEN")
  /\ (forall (func : Callable) (cb : CircuitBreaker) (w : W) (t : Q),
         state cb = "OPEN" ->
         recovery_timeout cb = 60 ->
         last_failure_time cb = Some t ->
         (clock w - t < 60)%Q ->
         wrapper clock func_name func cb w
         = (Raise (TypeError "__init__() got multiple values for keyword argument 'retry_after'"),
            cb, w))
  /\ (forall (func : Callable) (cb : CircuitBreaker) (w : W) (t : Q),
         state cb = "OPEN" ->
         recovery_timeout cb = 60 ->
         last_failure_time cb = Some t ->
         ~ (t == 0)%Q ->
         (60 <= clock w - t)%Q ->
         exists cb',
           wrapper clock func_name func cb w
           = (fst (func w), cb', snd (func w))).
Proof.
  split; [|split].
  - intros funcs w Hl Hf.
    apply failures_open; try reflexivity; try exact Hf.
    + intros ->. discriminate.
    + cbn. rewrite Hl. reflexivity.
  - intros func cb w t Hs Hr Ht Hlt. unfold wrapper.
    rewrite Hs. cbn [String.eqb Ascii.eqb Bool.eqb].
    unfold _should_attempt_reset. rewrite Ht, Hr.
    replace (Qgeb (clock w - t) (inject_Z 60)) with false.
    + rewrite andb_false_r. rewrite ExternalServiceError_retry_after_twice.
      reflexivity.
    + symmetry. unfold Qgeb.
      destruct (Qle_bool (inject_Z 60) (clock w - t)) eqn:E; [|reflexivity].
      apply Qle_bool_iff in E. exfalso. exact (Qlt_not_le _ _ Hlt E).
  - intros func cb w t Hs Hr Ht Hnz Hge. unfold wrapper.
    rewrite Hs. cbn [String.eqb Ascii.eqb Bool.eqb].
    unfold _should_attempt_reset. rewrite Ht, Hr.
    replace (Qgeb (clock w - t) (inject_Z 60)) with true
      by (symmetry; apply Qle_bool_iff; exact Hge).
    replace (Qis_zero t) with false.
    + cbn [negb andb]. destruct (func w) as [[r|e|] w']; cbn [fst snd].
      * eexists. reflexivity.
      * destruct (expected_exception (with_state cb "HALF_OPEN") e);
          eexists; reflexivity.
      * eexists. reflexivity.
    + symmetry. unfold Qis_zero.
      destruct (Qeq_bool t 0) eqn:E; [|reflexivity].
      apply Qeq_bool_iff in E. contradiction.
Qed.

End Facts.

(** The service that is down, called five times from time 1000 on, then once
    more at time 1005 and once at time 1065. *)
Lemma breaker_opens_blocks_and_retries_witness :
  let opened := calls time "fetch" (repeat unreachable_service 5)
                      default_breaker {| invocations := 0; time := 1000 |} in
  let later := {| invocations := 5; time := 1065 |} in
  state (fst opened) = "OPEN"
  /\ wrapper time "fetch" unreachable_service (fst opened) (snd opened)
     = (Raise (TypeError "__init__() got multiple values for keyword argument 'retry_after'"),
        fst opened, snd opened)
  /\ exists cb',
      wrapper time "fetch" unreachable_service (fst opened) later
      = (fst (unreachable_service later), cb', snd (unreachable_service later)).
Proof.
  cbv zeta.
  pose proof (@breaker_opens_blocks_and_retries Probe unit time "fetch")
    as (Hopen & Hblock & Hretry).
  split; [|split].
  - apply Hopen; [reflexivity|repeat constructor; intros w; eexists; reflexivity].
  - apply (Hblock unreachable_service _ _ (1005)%Q);
      [vm_compute; reflexivity|reflexivity| |vm_compute; reflexivity].
    vm_compute. reflexivity.
  - apply (Hretry unreachable_service _ _ (1005)%Q);
      [vm_compute; reflexivity|reflexivity| | |].
    + vm_compute. reflexivity.
    + vm_compute. discriminate.
    + vm_compute. discriminate.
Defined.

End ErrorHandlingFacts.

Module MissionsApiFacts.
Import Models MissionsApi.

Lemma MissionStatus_eqb_eq (a b : MissionStatus) :
  MissionStatus_eqb a b = true <-> a = b.
Proof. destruct a, b; simpl; split; intros E; congruence. Qed.

Lemma MissionStatus_eqb_neq (a b : MissionStatus) :
  a <> b -> MissionStatus_eqb a b = false.
Proof.
  intros Hne. destruct (MissionStatus_eqb a b) eqn:E; [|reflexivity].
  apply MissionStatus_eqb_eq in E. contradiction.
Qed.

(** C3: on a stored mission, start outside [planned], pause outside
    [in-progress], resume outside [paused] and abort outside [in-progress]
    and [paused] answer 400 and leave the database, hence the mission's
    status, timestamps, progress and drone, as they were. *)
Theorem lifecycle_guards_reject
        (db : Database) (now : Q) (request_json : Res PyVal)
        (mission_id : Z) (mission : Mission) :
  missions db !! mission_id = Some mission ->
  (mission_status mission <> PLANNED ->
   rejected db (start_mission db now mission_id))
  /\ (mission_status mission <> IN_PROGRESS ->
      rejected db (pause_mission db now mission_id))
  /\ (mission_status mission <> PAUSED ->
      rejected db (resume_mission db now mission_id))
  /\ (mission_status mission <> IN_PROGRESS ->
      mission_status mission <> PAUSED ->
      rejected db (abort_mission db now request_json mission_id)).
Proof.
  intros Hm. repeat split.
  - unfold start_mission, get_or_404. rewrite Hm. cbn [Py.bind].
    rewrite (MissionStatus_eqb_neq _ _ H). reflexivity.
  - unfold start_mission, get_or_404. rewrite Hm. cbn [Py.bind].
    rewrite (MissionStatus_eqb_neq _ _ H). reflexivity.
  - unfold pause_mission, get_or_404. rewrite Hm. cbn [Py.bind].
    rewrite (MissionStatus_eqb_neq _ _ H). reflexivity.
  - unfold pause_mission, get_or_404. rewrite Hm. cbn [Py.bind].
    rewrite (MissionStatus_eqb_neq _ _ H). reflexivity.
  - unfold resume_mission, get_or_404. rewrite Hm. cbn [Py.bind].
    rewrite (MissionStatus_eqb_neq _ _ H). reflexivity.
  - unfold resume_mission, get_or_404. rewrite Hm. cbn [Py.bind].
    rewrite (MissionStatus_eqb_neq _ _ H). reflexivity.
  - unfold abort_mission, get_or_404. rewrite Hm. cbn [Py.bind].
    rewrite (MissionStatus_eqb_neq _ _ H), (MissionStatus_eqb_neq _ _ H0).
    reflexivity.
  - unfold abort_mission, get_or_404. rewrite Hm. cbn [Py.bind].
    rewrite (MissionStatus_eqb_neq _ _ H), (MissionStatus_eqb_neq _ _ H0).
    reflexivity.
Qed.

(** The completed mission of the hangar refuses all four requests. *)
Lemma lifecycle_guards_reject_witness :
  rejected hangar (start_mission hangar 2000 1)
  /\ rejected hangar (pause_mission hangar 2000 1)
  /\ rejected hangar (resume_mission hangar 2000 1)
  /\ rejected hangar (abort_mission hangar 2000 (Ret VNone) 1).
Proof.
  destruct (lifecycle_guards_reject hangar 2000 (Ret VNone) 1
              {| mission_name := "Orchard"; mission_status := COMPLETED;
                 mission_drone_id := Some 7; progress_percentage := 100;
                 current_waypoint := None; started_at := Some 100%Q;
                 completed_at := Some 1300%Q;
                 actual_duration_minutes := Some 20;
                 abort_reason := None |})
    as (Hstart & Hpause & Hresume & Habort); [reflexivity|].
  repeat split;
    first [apply Hstart | apply Hpause | apply Hresume | apply Habort];
    discriminate.
Defined.

(** The guards are what refuses: the planned mission of the hangar starts. *)
Example planned_mission_starts :
  status_code (fst (start_mission hangar 2000 2)) = 200
  /\ (mission_status <$> missions (snd (start_mission hangar 2000 2)) !! 2)
     = Some IN_PROGRESS.
Proof. split; vm_compute; reflexivity. Qed.

End MissionsApiFacts.

Module DronesApiFacts.
Import Models DronesApi.

(** The attribute the view asks of its global [datetime]. *)
Lemma datetime_class_has_no_timedelta :
  getattr global_datetime "timedelta"
  = Raise (AttributeError "type object 'datetime.datetime' has no attribute 'timedelta'")
  /\ getattr module_datetime "timedelta" = Ret class_timedelta.
Proof. split; reflexivity. Qed.

(** With at least one drone in the table the view does not get past the
    computation of [one_hour_ago]. *)
Lemma fleet_summary_fails_with_drones
      (summary : Database -> PyDict) (db : Database) (now : Q) :
  drones db <> ∅ ->
  get_fleet_summary summary db now = internal_server_error.
Proof.
  intros Hne. unfold get_fleet_summary.
  destruct (map_to_list (drones db)) as [|kd rest] eqn:E.
  - apply map_to_list_empty_iff in E. contradiction.
  - reflexivity.
Qed.

Lemma thirty_hours_ago (now : Q) :
  ((now - (now - 30 * 3600)) / 3600 == 30)%Q.
Proof. field. Qed.

Lemma grounded_drone_score (now : Q) :
  drone_health_score now (grounded_drone now) = 25%Q.
Proof.
  unfold drone_health_score.
  cbn [grounded_drone last_seen drone_status is_battery_critical
       battery_percentage].
  replace (Qgtb ((now - (now - 30 * 3600)) / 3600) 24) with true.
  - reflexivity.
  - symmetry. apply Qltb_lt. rewrite thirty_hours_ago. reflexivity.
Qed.

(** C5 (as the code behaves): for the one-drone fleet of the claim (battery
    5 %, maintenance, seen 30 hours ago) [calculate_fleet_health_score]
    gives 100 - 30 - 20 - 25 = 25.0, but the fleet-summary view answers 500
    without a [fleet_health_score]: [datetime.timedelta] is looked up on the
    class [datetime.datetime]. *)
Theorem fleet_summary_of_grounded_drone
        (summary : Database -> PyDict) (now : Q) :
  (calculate_fleet_health_score now [grounded_drone now] == 25)%Q
  /\ status_code (get_fleet_summary summary (grounded_fleet now) now) = 500
  /\ fleet_health_score_of (get_fleet_summary summary (grounded_fleet now) now)
     = None.
Proof.
  split.
  - unfold calculate_fleet_health_score. cbn [fold_left length].
    rewrite grounded_drone_score. vm_compute. reflexivity.
  - rewrite fleet_summary_fails_with_drones; [split; reflexivity|].
    cbn [grounded_fleet drones]. intros E.
    apply (f_equal (fun m => m !! 1)) in E.
    rewrite lookup_singleton_eq, lookup_empty in E. discriminate.
Qed.

End DronesApiFacts.

(** ** Rounding respects equality of rationals *)

Lemma Qltb_comp (x x' y y' : Q) :
  (x == x')%Q -> (y == y')%Q -> Qltb x y = Qltb x' y'.
Proof. intros Hx Hy. unfold Qltb. now rewrite Hx, Hy. Qed.

Lemma Qround_half_even_comp (x y : Q) :
  (x == y)%Q -> Qround_half_even x = Qround_half_even y.
Proof.
  intros E. unfold Qround_half_even. rewrite (Qfloor_comp _ _ E).
  assert ((x - inject_Z (Qfloor y)) == (y - inject_Z (Qfloor y)))%Q as Er
      by now rewrite E.
  rewrite (Qltb_comp _ _ _ _ Er (Qeq_refl (1 # 2))).
  rewrite (Qltb_comp _ _ _ _ (Qeq_refl (1 # 2)) Er).
  reflexivity.
Qed.

Lemma py_round_comp (x y : Q) (n : nat) :
  (x == y)%Q -> py_round x n = py_round y n.
Proof.
  intros E. unfold py_round.
  set (scale := inject_Z (10 ^ Z.of_nat n)).
  rewrite (Qround_half_even_comp (x * scale) (y * scale)); [reflexivity|].
  now rewrite E.
Qed.

Module DroneSelectionFacts.
Import Models DroneSelection.

Lemma weighted_total_86 (b a p e m w : Q) :
  (b == 80)%Q -> (a == 100)%Q -> (p == 80)%Q -> (e == 80)%Q ->
  (m == 80)%Q -> (w == 80)%Q ->
  (weighted_total
     [ ("battery_level", b); ("availability", a); ("proximity", p);
       ("mission_experience", e); ("maintenance_status", m);
       ("weather_suitability", w) ] == 86)%Q.
Proof.
  intros Hb Ha Hp He Hm Hw. unfold weighted_total.
  cbn [map fst fold_left]. unfold factor. cbn.
  rewrite Hb, Ha, Hp, He, Hm, Hw. reflexivity.
Qed.

(** C8: a drone with battery 80 and status [available] whose proximity,
    experience, maintenance and weather factors are all 80 gets the total
    score 86, the recommendation "Highly Recommended" (total above 85) and
    the confidence 0.95. *)
Theorem fixed_factors_score_86
        (random : nat -> Q) (k : nat) (drone_id : Z) (drone : Drone)
        (mission_requirements : PyDict) :
  let score := fst (score_drone_for_mission random k drone_id drone
                                            mission_requirements) in
  (battery_percentage drone == 80)%Q ->
  drone_status drone = AVAILABLE ->
  (factor (factors score) "proximity" == 80)%Q ->
  (factor (factors score) "mission_experience" == 80)%Q ->
  (factor (factors score) "maintenance_status" == 80)%Q ->
  (factor (factors score) "weather_suitability" == 80)%Q ->
  (total_score score == 86)%Q
  /\ (85 < weighted_total (factors score))%Q
  /\ recommendation score = "Highly Recommended"
  /\ (confidence score == 95 # 100)%Q.
Proof.
  cbv zeta. unfold score_drone_for_mission, uniform.
  intros Hb Hs. rewrite Hs. cbn [DroneStatus_eqb].
  destruct (located (drone_latitude drone) (drone_longitude drone)).
  - cbn [fst snd app factors total_score recommendation confidence].
    unfold factor at 1 2 3 4. cbn [dict_get String.eqb Ascii.eqb Bool.eqb default from_option id].
    intros Hp He Hm Hw.
    pose proof (weighted_total_86 _ _ _ _ _ _ Hb (Qeq_refl 100) Hp He Hm Hw)
      as Ht.
    unfold recommendation_band.
    rewrite (Qltb_comp _ _ _ _ (Qeq_refl 85) Ht : Qgtb _ 85 = Qgtb 86 85).
    rewrite (py_round_comp _ _ 2 Ht).
    cbn [fst snd].
    repeat split; try reflexivity.
    rewrite Ht. reflexivity.
  - cbn [fst snd app factors].
    unfold factor at 1. cbn [dict_get String.eqb Ascii.eqb Bool.eqb default from_option id].
    intros Hp. exfalso. vm_compute in Hp. discriminate.
Qed.

Lemma fixed_factors_score_86_witness :
  let score := fst (score_drone_for_mission draws_of_80 0 1
                      (scout (Some 12%Q) (Some 77%Q)) []) in
  (total_score score == 86)%Q
  /\ (85 < weighted_total (factors score))%Q
  /\ recommendation score = "Highly Recommended"
  /\ (confidence score == 95 # 100)%Q.
Proof.
  apply (fixed_factors_score_86 draws_of_80 0 1
           (scout (Some 12%Q) (Some 77%Q)) []);
    vm_compute; reflexivity.
Defined.

(** A drone without a known position has the fixed proximity factor 50:
    with the other factors at 80 it gets 81.5 and is only "Recommended". *)
Example unlocated_drone_scores_81_5 :
  let score := fst (score_drone_for_mission
                      (fun k => nth k [2 # 5; 0; 1 # 4]%Q 0%Q) 0 1
                      (scout None None) []) in
  (factor (factors score) "proximity" == 50)%Q
  /\ (total_score score == 815 # 10)%Q
  /\ recommendation score = "Recommended".
Proof. cbv zeta. repeat split; vm_compute; reflexivity. Qed.

End DroneSelectionFacts.

Module ConfigSchemaFacts.
Import ConfigSchema.








Lemma MissionConfig_fields_not_always :
  Forall (fun spec => field_always spec = false) MissionConfig_fields.
Proof. repeat constructor. Qed.















(** The validators run on supplied values only: with [max_altitude_m] left
    at its default of 400 a [min_altitude_m] of 500 is accepted, and so is a
    [battery_low_threshold] of 5 under the default critical threshold 10. *)
Example default_is_not_validated :
  altitude_range_violated [("min_altitude_m", 500%Q)] = true
  /\ MissionConfig [("min_altitude_m", 500%Q)]
     = Ret (accepted [("min_altitude_m", 500%Q)] MissionConfig_fields)
  /\ battery_thresholds_violated [("battery_low_threshold", 5%Q)] = true
  /\ MissionConfig [("battery_low_threshold", 5%Q)]
     = Ret (accepted [("battery_low_threshold", 5%Q)] MissionConfig_fields).
Proof. repeat split; vm_compute; reflexivity. Qed.

End ConfigSchemaFacts.

Module SimulatorFacts.
Import Models Simulator.

(** *** Frames *)

Lemma frame_refl m d db : frame m d db db.
Proof. repeat split; auto. Qed.

Lemma frame_trans m d db1 db2 db3 :
  frame m d db1 db2 -> frame m d db2 db3 -> frame m d db1 db3.
Proof.
  intros (Hm & Hd & Hw) (Hm' & Hd' & Hw'). repeat split.
  - now rewrite Hm', Hm.
  - auto.
  - auto.
Qed.

Lemma frame_store_mission m d db k mission :
  k <> m -> frame m d db (store_mission db k mission).
Proof.
  intros Hne. repeat split; auto.
  cbn. now rewrite lookup_insert_ne.
Qed.

Lemma frame_store_drone m d db k drone :
  frame m d db (store_drone db k drone).
Proof.
  repeat split; auto. cbn. intros Hs.
  destruct (decide (k = d)) as [->|Hne].
  - rewrite lookup_insert_eq. eauto.
  - now rewrite lookup_insert_ne.
Qed.

Lemma insert_by_order_not_nil w l : insert_by_order w l <> [].
Proof. destruct l; cbn; [discriminate|]. destruct (Z.leb _ _); discriminate. Qed.

Lemma order_by_order_nil l : order_by_order l = [] -> l = [].
Proof.
  destruct l as [|w l]; [reflexivity|]. cbn. intros E.
  exfalso. exact (insert_by_order_not_nil _ _ E).
Qed.

Lemma filter_map_invariant {A} (p : A -> bool) (g : A -> A) (l : list A) :
  (forall x, p (g x) = p x) ->
  List.filter p (map g l) = map g (List.filter p l).
Proof.
  intros Hp. induction l as [|x l IH]; [reflexivity|].
  cbn. rewrite Hp. destruct (p x); cbn; now rewrite IH.
Qed.

Lemma frame_complete_waypoint m d db w :
  frame m d db (complete_waypoint db w).
Proof.
  repeat split; auto. unfold mission_waypoints. cbn [complete_waypoint
    set_waypoints waypoints].
  intros Hne E. apply Hne. apply order_by_order_nil in E.
  rewrite filter_map_invariant in E.
  - apply map_eq_nil in E. rewrite E. reflexivity.
  - intros x. destruct (Z.eqb (waypoint_id x) (waypoint_id w)); reflexivity.
Qed.

Lemma frame_abort m d db k mission reason now :
  k <> m -> frame m d db (Mission_abort_mission db k mission reason now).
Proof.
  intros Hne. unfold Mission_abort_mission. repeat split; auto.
  - cbn. now rewrite lookup_insert_ne.
  - cbn. intros Hs. destruct (mission_drone_id mission) as [x|]; [|exact Hs].
    rewrite lookup_alter. destruct (decide (x = d)) as [->|]; [|exact Hs].
    destruct Hs as [dr ->]. cbn. eauto.
Qed.

(** *** Events *)

Lemma emergency_alerts_app m evs evs' :
  emergency_alerts_for m (evs ++ evs')
  = (emergency_alerts_for m evs + emergency_alerts_for m evs')%nat.
Proof.
  unfold emergency_alerts_for. rewrite List.filter_app. apply List.length_app.
Qed.

Lemma alert_of_other_mission m fs drone :
  mission_id fs <> m ->
  emergency_alerts_for m [emergency_alert fs drone] = 0%nat.
Proof.
  intros Hne. unfold emergency_alerts_for, is_emergency_alert_for. cbn.
  replace (Z.eqb (mission_id fs) m) with false; [reflexivity|].
  symmetry. now apply Z.eqb_neq.
Qed.

Lemma alert_of_own_mission fs drone :
  emergency_alerts_for (mission_id fs) [emergency_alert fs drone] = 1%nat.
Proof.
  unfold emergency_alerts_for, is_emergency_alert_for. cbn.
  now rewrite Z.eqb_refl.
Qed.

Section Flight.
Variable calculate_distance : Q -> Q -> Q -> Q -> Q.

Abbreviation update := (update_flight_state calculate_distance).

(** Past the emergency check a flight emits no emergency alert and touches
    only its own mission. *)
Lemma advance_flight_frame m d now fs db mission drone waypoints :
  mission_id fs <> m ->
  let out := advance_flight calculate_distance now fs db mission drone
                            waypoints in
  frame m d db (snd (fst out)) /\ emergency_alerts_for m (snd out) = 0%nat.
Proof.
  intros Hne. cbv zeta. unfold advance_flight.
  cbn [target_waypoint_index with_flight mission_id drone_id].
  destruct (nth_error waypoints (target_waypoint_index fs)) as [tw|].
  - destruct (Qle_bool _ 5).
    + destruct (String.eqb (waypoint_action tw) "takeoff");
        [|destruct (String.eqb (waypoint_action tw) "land");
          [|destruct (String.eqb (waypoint_action tw) "hover")]];
        cbn [fst snd with_flight mission_id drone_id battery_percentage];
        (split;
         [eapply frame_trans;
          [eapply frame_trans;
           [apply frame_complete_waypoint
           |apply frame_store_mission; exact Hne]
          |apply frame_store_drone]
         |match goal with
          | |- context [Qle_bool ?x 10] => destruct (Qle_bool x 10)
          end; reflexivity]).
    + destruct (is_moving fs); cbn [with_flight is_moving].
      * destruct (interpolate_position _ _ _ _ _ _) as [new_lat new_lon].
        cbn [fst snd with_flight mission_id drone_id battery_percentage].
        split; [apply frame_store_drone|].
        match goal with
        | |- context [Qle_bool ?x 10] => destruct (Qle_bool x 10)
        end; reflexivity.
      * cbn [fst snd with_flight mission_id drone_id battery_percentage].
        split; [apply frame_store_drone|].
        match goal with
        | |- context [Qle_bool ?x 10] => destruct (Qle_bool x 10)
        end; reflexivity.
  - cbn [fst snd]. split; [apply frame_store_mission; exact Hne|reflexivity].
Qed.

Lemma update_other_mission m d now fs db :
  mission_id fs <> m ->
  frame m d db (snd (fst (update now fs db)))
  /\ emergency_alerts_for m (snd (update now fs db)) = 0%nat.
Proof.
  intros Hne. unfold update_flight_state.
  destruct (missions db !! mission_id fs) as [mission|];
    [|split; [apply frame_refl|reflexivity]].
  destruct (drones db !! drone_id fs) as [drone|];
    [|split; [apply frame_refl|reflexivity]].
  destruct (mission_waypoints db (mission_id fs)) as [|w ws];
    [split; [apply frame_refl|reflexivity]|].
  destruct (negb (MissionStatus_eqb (mission_status mission) IN_PROGRESS));
    [split; [apply frame_refl|reflexivity]|].
  destruct (Qle_bool (battery_percentage fs) 5 && negb (emergency_landing fs)).
  - cbn [fst snd with_flight mission_id]. split.
    + apply frame_abort. exact Hne.
    + apply (alert_of_other_mission m
               (with_flight fs (current_waypoint_index fs)
                  (target_waypoint_index fs) (current_lat fs)
                  (current_lon fs) (current_alt fs) (battery_percentage fs)
                  (last_update fs) false true) drone).
      exact Hne.
  - apply advance_flight_frame. exact Hne.
Qed.

(** A flight whose mission is not in progress is dropped in silence. *)
Lemma update_not_in_progress now fs db :
  not_in_progress db (mission_id fs) ->
  update now fs db = (false, fs, db, []).
Proof.
  intros Hn. unfold update_flight_state.
  destruct (missions db !! mission_id fs) as [mission|] eqn:Em;
    [|reflexivity].
  destruct (drones db !! drone_id fs) as [drone|]; [|reflexivity].
  destruct (mission_waypoints db (mission_id fs)) as [|w ws]; [reflexivity|].
  specialize (Hn mission Em).
  destruct (mission_status mission); try reflexivity.
  contradiction Hn; reflexivity.
Qed.

(** The emergency branch. *)
Lemma update_emergency now fs db mission drone :
  missions db !! mission_id fs = Some mission ->
  mission_status mission = IN_PROGRESS ->
  drones db !! drone_id fs = Some drone ->
  mission_waypoints db (mission_id fs) <> [] ->
  (battery_percentage fs <= 5)%Q ->
  emergency_landing fs = false ->
  exists fs',
    update now fs db
    = (false, fs',
       Mission_abort_mission db (mission_id fs) mission
         (Some "Critical battery - emergency landing") now,
       [emergency_alert fs' drone])
    /\ mission_id fs' = mission_id fs.
Proof.
  intros Em Hs Ed Hw Hb He. unfold update_flight_state.
  rewrite Em, Ed.
  destruct (mission_waypoints db (mission_id fs)) as [|w ws];
    [contradiction Hw; reflexivity|].
  rewrite Hs. cbn [MissionStatus_eqb negb].
  apply Qle_bool_iff in Hb. rewrite Hb, He. cbn [negb andb].
  eexists. split; reflexivity.
Qed.

Abbreviation run_flights := (update_flights calculate_distance).

Lemma update_flights_cons now d fs rest db :
  run_flights now ((d, fs) :: rest) db
  = let out := update now fs db in
    let out' := run_flights now rest (snd (fst out)) in
    ((d, snd (fst (fst out))) :: fst (fst (fst out')),
     if fst (fst (fst out)) then snd (fst (fst out'))
     else d :: snd (fst (fst out')),
     snd (fst out'), snd out ++ snd out').
Proof.
  cbn [update_flights].
  destruct (update now fs db) as [[[active fs'] db'] events].
  cbv zeta. cbn [fst snd].
  destruct (run_flights now rest db') as [[[rest' done] db''] events'].
  reflexivity.
Qed.

(** Flights on other missions leave mission [m] alone. *)
Lemma update_flights_others m d now flights : forall db,
  Forall (on_other_mission m) flights ->
  frame m d db (snd (fst (run_flights now flights db)))
  /\ emergency_alerts_for m (snd (run_flights now flights db)) = 0%nat.
Proof.
  induction flights as [|[k fs] rest IH]; intros db Ho.
  - split; [apply frame_refl|reflexivity].
  - apply Forall_cons in Ho. destruct Ho as [Hfs Hrest].
    rewrite update_flights_cons. cbv zeta. cbn [fst snd].
    destruct (update_other_mission m d now fs db Hfs) as [Hf He].
    destruct (IH (snd (fst (update now fs db))) Hrest) as [Hf' He'].
    split; [eapply frame_trans; eauto|].
    rewrite emergency_alerts_app, He, He'. reflexivity.
Qed.

(** While mission [m] is not in progress no pass over the flights emits an
    alert for it or changes its row. *)
Lemma update_flights_quiet m now flights : forall db,
  not_in_progress db m ->
  missions (snd (fst (run_flights now flights db))) !! m = missions db !! m
  /\ emergency_alerts_for m (snd (run_flights now flights db)) = 0%nat.
Proof.
  induction flights as [|[k fs] rest IH]; intros db Hn.
  - split; reflexivity.
  - rewrite update_flights_cons. cbv zeta. cbn [fst snd].
    assert (missions (snd (fst (update now fs db))) !! m = missions db !! m
            /\ emergency_alerts_for m (snd (update now fs db)) = 0%nat)
      as [Hm He].
    { destruct (decide (mission_id fs = m)) as [<-|Hne].
      - rewrite (update_not_in_progress now fs db Hn). split; reflexivity.
      - destruct (update_other_mission m 0 now fs db Hne) as [(Hm & _) He].
        split; assumption. }
    assert (not_in_progress (snd (fst (update now fs db))) m) as Hn'.
    { intros mission Em. rewrite Hm in Em. exact (Hn mission Em). }
    destruct (IH _ Hn') as [Hm' He'].
    split; [now rewrite Hm', Hm|].
    rewrite emergency_alerts_app, He, He'. reflexivity.
Qed.

(** The flight with the critical battery, the flights before it being on
    other missions. *)
Lemma update_flights_emergency now d fs after before : forall db,
  Forall (on_other_mission (mission_id fs)) before ->
  flyable db fs ->
  (battery_percentage fs <= 5)%Q ->
  emergency_landing fs = false ->
  let out := run_flights now (before ++ (d, fs) :: after) db in
  In d (snd (fst (fst out)))
  /\ emergency_alerts_for (mission_id fs) (snd out) = 1%nat
  /\ aborted_for_critical_battery (snd (fst out)) (mission_id fs).
Proof.
  induction before as [|[k f] before IH]; intros db Ho Hf Hb He; cbv zeta.
  - cbn [app]. rewrite update_flights_cons. cbv zeta. cbn [fst snd].
    destruct Hf as ((mission & Em & Hs) & (drone & Ed) & Hw).
    destruct (update_emergency now fs db mission drone Em Hs Ed Hw Hb He)
      as (fs' & -> & Hid).
    cbn [fst snd].
    set (db' := Mission_abort_mission db (mission_id fs) mission
                  (Some "Critical battery - emergency landing") now).
    assert (aborted_for_critical_battery db' (mission_id fs)) as Ha.
    { eexists. split; [|split].
      - unfold db', Mission_abort_mission. cbn. apply lookup_insert_eq.
      - reflexivity.
      - reflexivity. }
    assert (not_in_progress db' (mission_id fs)) as Hn.
    { intros mission' Em'. destruct Ha as (x & Ex & Hx & _).
      rewrite Ex in Em'. injection Em' as <-. rewrite Hx. discriminate. }
    destruct (update_flights_quiet (mission_id fs) now after db' Hn)
      as [Hm Hq].
    split; [left; reflexivity|]. split.
    + rewrite emergency_alerts_app, Hq, <- Hid.
      rewrite alert_of_own_mission. reflexivity.
    + destruct Ha as (x & Ex & Hx). exists x. split; [|exact Hx].
      rewrite Hm. exact Ex.
  - apply Forall_cons in Ho. destruct Ho as [Hk Ho].
    cbn [app]. rewrite update_flights_cons. cbv zeta. cbn [fst snd].
    destruct (update_other_mission (mission_id fs) (drone_id fs) now f db Hk)
      as [(Hm & Hd & Hw) Hq].
    assert (flyable (snd (fst (update now f db))) fs) as Hf'.
    { destruct Hf as ((mission & Em & Hs) & Hdr & Hwp). split; [|split].
      - exists mission. rewrite Hm. split; assumption.
      - auto.
      - auto. }
    destruct (IH _ Ho Hf' Hb He) as (Hin & Hone & Ha).
    split; [|split].
    + destruct (fst (fst (fst (update now f db)))); [exact Hin|].
      right. exact Hin.
    + rewrite emergency_alerts_app, Hq, Hone. reflexivity.
    + exact Ha.
Qed.

(** *** The map of active flights *)

Lemma initialize_flights_appends now db active_missions : forall flights,
  exists new,
    initialize_flights now db active_missions flights = flights ++ new.
Proof.
  induction active_missions as [|[m mission] rest IH]; intros flights.
  - exists []. cbn. now rewrite app_nil_r.
  - cbn [initialize_flights].
    destruct (mission_drone_id mission) as [d|]; [|apply IH].
    destruct (tracked flights d); [apply IH|].
    destruct (initialize_flight_state now db m mission) as [fs|];
      [|apply IH].
    destruct (IH (flights ++ [(d, fs)])) as [new ->].
    exists ((d, fs) :: new). now rewrite <- app_assoc.
Qed.

Lemma untrack_same flights d : tracked (untrack flights d) d = false.
Proof.
  induction flights as [|[k f] rest IH]; [reflexivity|].
  cbn. destruct (Z.eqb k d) eqn:E; cbn; [exact IH|].
  rewrite E. exact IH.
Qed.

Lemma untrack_mono flights k d :
  tracked flights d = false -> tracked (untrack flights k) d = false.
Proof.
  induction flights as [|[k' f] rest IH]; [reflexivity|].
  cbn. intros H. apply orb_false_iff in H. destruct H as [H1 H2].
  destruct (Z.eqb k' k); cbn; [auto|]. rewrite H1. auto.
Qed.

Lemma fold_untrack_mono d completed : forall flights,
  tracked flights d = false ->
  tracked (fold_left untrack completed flights) d = false.
Proof.
  induction completed as [|k rest IH]; intros flights H; [exact H|].
  cbn. apply IH. now apply untrack_mono.
Qed.

Lemma fold_untrack_removes d completed : forall flights,
  In d completed ->
  tracked (fold_left untrack completed flights) d = false.
Proof.
  induction completed as [|k rest IH]; intros flights H; [destruct H|].
  cbn. destruct H as [->|H].
  - apply fold_untrack_mono. apply untrack_same.
  - apply IH. exact H.
Qed.

(** *** Passes of the loop *)

Abbreviation pass := (tick calculate_distance).

Lemma tick_unfold now sim :
  pass now sim
  = let flights :=
      initialize_flights now (database sim)
        (get_active_missions (database sim)) (active_flights sim) in
    let out := run_flights now flights (database sim) in
    ({| active_flights :=
          fold_left untrack (snd (fst (fst out))) (fst (fst (fst out)));
        database := snd (fst out) |}, snd out).
Proof.
  unfold tick. cbv zeta.
  destruct (run_flights now _ (database sim)) as [[[fl done] db] events].
  reflexivity.
Qed.

Lemma tick_quiet m now sim :
  not_in_progress (database sim) m ->
  missions (database (fst (pass now sim))) !! m
  = missions (database sim) !! m
  /\ emergency_alerts_for m (snd (pass now sim)) = 0%nat.
Proof.
  intros Hn. rewrite tick_unfold. cbv zeta. cbn [fst snd database].
  apply update_flights_quiet. exact Hn.
Qed.

Lemma ticks_cons now later sim :
  ticks calculate_distance (now :: later) sim
  = let out := pass now sim in
    let out' := ticks calculate_distance later (fst out) in
    (fst out', snd out ++ snd out').
Proof.
  cbn [ticks]. destruct (pass now sim) as [sim' events]. cbv zeta.
  cbn [fst snd].
  destruct (ticks calculate_distance later sim') as [sim'' events'].
  reflexivity.
Qed.

Lemma ticks_quiet m times : forall sim,
  not_in_progress (database sim) m ->
  missions (database (fst (ticks calculate_distance times sim))) !! m
  = missions (database sim) !! m
  /\ emergency_alerts_for m (snd (ticks calculate_distance times sim))
     = 0%nat.
Proof.
  induction times as [|now later IH]; intros sim Hn.
  - split; reflexivity.
  - rewrite ticks_cons. cbv zeta. cbn [fst snd].
    destruct (tick_quiet m now sim Hn) as [Hm Hq].
    assert (not_in_progress (database (fst (pass now sim))) m) as Hn'.
    { intros mission Em. rewrite Hm in Em. exact (Hn mission Em). }
    destruct (IH _ Hn') as [Hm' Hq'].
    split; [now rewrite Hm', Hm|].
    rewrite emergency_alerts_app, Hq, Hq'. reflexivity.
Qed.

(** C7 (as the code has it).  Take a tracked flight whose battery is at 5 %
    or below and whose emergency flag is not set, whose mission is stored
    and in progress with its drone and its waypoints, the flights tracked
    before it being on other missions.  The next pass of the simulation
    loop emits exactly one emergency alert for the mission, stores the
    mission as aborted with the reason "Critical battery - emergency
    landing", which contains "critical battery" once case is ignored, and
    removes the flight from the map of active flights; whatever passes
    follow, none emits an emergency alert for the mission or changes its
    row. *)
Theorem critical_battery_aborts_once now sim before d fs after :
  active_flights sim = before ++ (d, fs) :: after ->
  Forall (on_other_mission (mission_id fs)) before ->
  flyable (database sim) fs ->
  (battery_percentage fs <= 5)%Q ->
  emergency_landing fs = false ->
  let sim' := fst (pass now sim) in
  emergency_alerts_for (mission_id fs) (snd (pass now sim)) = 1%nat
  /\ aborted_for_critical_battery (database sim') (mission_id fs)
  /\ contains "critical battery" (lower critical_battery_reason) = true
  /\ tracked (active_flights sim') d = false
  /\ forall times,
       emergency_alerts_for (mission_id fs)
         (snd (ticks calculate_distance times sim')) = 0%nat
       /\ missions (database (fst (ticks calculate_distance times sim')))
            !! mission_id fs
          = missions (database sim') !! mission_id fs.
Proof.
  intros Hfl Ho Hf Hb He. cbv zeta. rewrite tick_unfold. cbv zeta.
  cbn [fst snd database active_flights].
  destruct (initialize_flights_appends now (database sim)
              (get_active_missions (database sim)) (active_flights sim))
    as [new ->].
  rewrite Hfl, <- app_assoc. cbn [app].
  destruct (update_flights_emergency now d fs (after ++ new) before
              (database sim) Ho Hf Hb He) as (Hin & Hone & Ha).
  cbv zeta in Hin, Hone, Ha.
  split; [exact Hone|]. split; [exact Ha|]. split; [reflexivity|].
  split; [apply fold_untrack_removes; exact Hin|].
  intros times.
  match goal with
  | |- context [ticks calculate_distance times ?s] => set (sim' := s)
  end.
  assert (not_in_progress (database sim') (mission_id fs)) as Hn.
  { intros mission Em. destruct Ha as (x & Ex & Hx & _).
    cbn [sim' database] in Em. rewrite Ex in Em. injection Em as <-.
    rewrite Hx. discriminate. }
  destruct (ticks_quiet (mission_id fs) times sim' Hn) as [Hm Hq].
  split; [exact Hq|exact Hm].
Qed.

End Flight.

(** Drone 7 on mission 2, in progress, with its battery at 5 %: one alert,
    the mission aborted, the flight gone, and two further passes silent. *)
Lemma critical_battery_aborts_once_witness :
  let sim := low_battery_simulation IN_PROGRESS in
  let sim' := fst (tick grid_distance 2102 sim) in
  flyable (database sim) low_battery_flight
  /\ emergency_alerts_for 2 (snd (tick grid_distance 2102 sim)) = 1%nat
  /\ aborted_for_critical_battery (database sim') 2
  /\ tracked (active_flights sim') 7 = false
  /\ emergency_alerts_for 2
       (snd (ticks grid_distance [2104; 2106]%Q sim')) = 0%nat.
Proof.
  cbv zeta.
  assert (flyable (database (low_battery_simulation IN_PROGRESS))
                  low_battery_flight) as Hf.
  { split; [|split].
    - eexists. split; [vm_compute; reflexivity|reflexivity].
    - eexists. vm_compute. reflexivity.
    - vm_compute. discriminate. }
  split; [exact Hf|].
  destruct (critical_battery_aborts_once grid_distance 2102
              (low_battery_simulation IN_PROGRESS) [] 7 low_battery_flight
              [] eq_refl (Forall_nil_2 _) Hf)
    as (Hone & Ha & _ & Hgone & Hlater).
  - vm_compute. discriminate.
  - reflexivity.
  - split; [exact Hone|]. split; [exact Ha|]. split; [exact Hgone|].
    exact (proj1 (Hlater [2104; 2106]%Q)).
Defined.

(** C7 (as the specification has it) fails when the mission was paused: the
    flight of drone 7 is tracked with its battery at 5 %, yet the next pass
    emits no emergency alert and leaves mission 2 paused, not aborted; the
    flight is dropped all the same. *)
Lemma paused_mission_is_not_aborted :
  let sim := low_battery_simulation PAUSED in
  let out := tick grid_distance 2102 sim in
  tracked (active_flights sim) 7 = true
  /\ (exists fs, In (7, fs) (active_flights sim)
                 /\ mission_id fs = 2
                 /\ (battery_percentage fs <= 5)%Q)
  /\ emergency_alerts_for 2 (snd out) = 0%nat
  /\ (exists mission, missions (database (fst out)) !! 2 = Some mission
                      /\ mission_status mission = PAUSED
                      /\ abort_reason mission = None)
  /\ tracked (active_flights (fst out)) 7 = false.
Proof.
  cbv zeta. split; [reflexivity|]. split.
  - exists low_battery_flight. split; [left; reflexivity|].
    split; [reflexivity|]. discriminate.
  - split; [vm_compute; reflexivity|]. split; [|vm_compute; reflexivity].
    eexists. split; [vm_compute; reflexivity|]. split; reflexivity.
Qed.

(** The reason of the emergency landing starts with a capital letter: read
    with its case, it does not contain "critical battery". *)
Lemma critical_battery_reason_case :
  contains "critical battery" critical_battery_reason = false
  /\ contains "Critical battery" critical_battery_reason = true.
Proof. split; reflexivity. Qed.

End SimulatorFacts.

(* ===================================================================== *)
(** * Part III: further properties of the code                            *)
(* ===================================================================== *)

(** ** Comparisons on rationals *)

Lemma Qle_bool_false (x y : Q) : Qle_bool x y = false <-> (y < x)%Q.
Proof.
  split; intros Hxy.
  - apply Qnot_le_lt. intros Hle. apply Qle_bool_iff in Hle. congruence.
  - destruct (Qle_bool x y) eqn:E; [|reflexivity].
    apply Qle_bool_iff in E. exfalso. exact (Qlt_not_le _ _ Hxy E).
Qed.

(** Decide every comparison of the goal and of the hypotheses, innermost
    first, and turn each into an order fact. *)
Ltac q_free t :=
  lazymatch t with
  | context [Qle_bool _ _] => fail
  | _ => idtac
  end.

Ltac q_atomic H :=
  lazymatch type of H with
  | Qle_bool ?x ?y = _ => q_free x; q_free y
  | _ => fail
  end.

Ltac q_compare :=
  unfold Qgtb, Qltb, Qgeb, Qmax, Qmin in *;
  repeat match goal with
         | H : context [Qle_bool _ _] |- _ =>
             tryif q_atomic H then fail else revert H
         end;
  repeat match goal with
         | |- context [Qle_bool ?x ?y] =>
             q_free x; q_free y;
             let E := fresh "E" in
             destruct (Qle_bool x y) eqn:E; cbn [negb]; cbv beta iota
         end;
  cbn [negb orb andb]; intros;
  repeat match goal with
         | H : Qle_bool _ _ = true |- _ => apply Qle_bool_iff in H
         | H : Qle_bool _ _ = false |- _ => apply Qle_bool_false in H
         end.

(** Division by a literal is multiplication by a literal. *)
Ltac q_div :=
  unfold Qdiv in *;
  repeat match goal with
         | |- context [Qinv (Qmake ?n ?d)] =>
             let c := eval vm_compute in (Qinv (Qmake n d)) in
             change (Qinv (Qmake n d)) with c
         | H : context [Qinv (Qmake ?n ?d)] |- _ =>
             let c := eval vm_compute in (Qinv (Qmake n d)) in
             change (Qinv (Qmake n d)) with c in H
         end.

Lemma Qmax_ge_l (x y : Q) : (x <= Qmax x y)%Q.
Proof. q_compare; lra. Qed.

Lemma Qmax_ge_r (x y : Q) : (y <= Qmax x y)%Q.
Proof. q_compare; lra. Qed.

Lemma Qmin_le_l (x y : Q) : (Qmin x y <= x)%Q.
Proof. q_compare; lra. Qed.

Lemma Qmin_le_r (x y : Q) : (Qmin x y <= y)%Q.
Proof. q_compare; lra. Qed.

Lemma fold_Qmin_le (xs : list Q) : forall x,
  (fold_left Qmin xs x <= x)%Q
  /\ forall y, In y xs -> (fold_left Qmin xs x <= y)%Q.
Proof.
  induction xs as [|a xs IH]; intros x; cbn [fold_left].
  - split; [lra|intros y []].
  - destruct (IH (Qmin x a)) as [H1 H2].
    pose proof (Qmin_le_l x a). pose proof (Qmin_le_r x a).
    split; [lra|]. intros y [<-|Hy]; [lra|auto].
Qed.

Lemma fold_Qmax_ge (xs : list Q) : forall x,
  (x <= fold_left Qmax xs x)%Q
  /\ forall y, In y xs -> (y <= fold_left Qmax xs x)%Q.
Proof.
  induction xs as [|a xs IH]; intros x; cbn [fold_left].
  - split; [lra|intros y []].
  - destruct (IH (Qmax x a)) as [H1 H2].
    pose proof (Qmax_ge_l x a). pose proof (Qmax_ge_r x a).
    split; [lra|]. intros y [<-|Hy]; [lra|auto].
Qed.

(** ** [app/services/waypoint_generator.py] *)

Module WaypointGenProperties.
Import WaypointGen WaypointGenVocabulary.


(** *** The bounding box *)

Lemma collect_items_spec (i : nat) (coordinates : list (list Q)) :
  Forall (fun c => (i < length c)%nat) coordinates ->
  exists qs, collect_items i coordinates = Ret qs
             /\ length qs = length coordinates
             /\ forall c, In c coordinates ->
                          exists q, nth_error c i = Some q /\ In q qs.
Proof.
  induction coordinates as [|c rest IH]; intros Hall.
  - exists []. repeat split. intros c [].
  - apply Forall_cons in Hall. destruct Hall as [Hc Hrest].
    destruct (IH Hrest) as (qs & Eqs & Hlen & Hin).
    destruct (nth_error c i) as [q|] eqn:Eq;
      [|apply nth_error_None in Eq; lia].
    exists (q :: qs). cbn [collect_items]. unfold coord_item.
    rewrite Eq. cbn [Py.bind]. rewrite Eqs. cbn [Py.bind].
    split; [reflexivity|]. split; [cbn; now rewrite Hlen|].
    intros c' [<-|Hc'].
    + exists q. split; [exact Eq|now left].
    + destruct (Hin c' Hc') as (q' & E' & Hq'). exists q'.
      split; [exact E'|now right].
Qed.

(** For a non-empty list of coordinates with at least two members each,
    [_calculate_bounds] returns a box, and every coordinate lies in it. *)
Theorem calculate_bounds_encloses (coordinates : list (list Q)) :
  coordinates <> [] ->
  Forall (fun c => (2 <= length c)%nat) coordinates ->
  exists minx miny maxx maxy,
    _calculate_bounds coordinates = Ret (minx, miny, maxx, maxy)
    /\ forall c, In c coordinates ->
         exists x y, nth_error c 0 = Some x /\ nth_error c 1 = Some y
                     /\ (minx <= x <= maxx)%Q /\ (miny <= y <= maxy)%Q.
Proof.
  intros Hne Hall.
  destruct (collect_items_spec 0 coordinates) as (lons & Elons & Llons & Hlons).
  { eapply Forall_impl; [exact Hall|]. cbn. intros c Hc. lia. }
  destruct (collect_items_spec 1 coordinates) as (lats & Elats & Llats & Hlats).
  { eapply Forall_impl; [exact Hall|]. cbn. intros c Hc. lia. }
  unfold _calculate_bounds. rewrite Elons, Elats. cbn [Py.bind].
  destruct lons as [|lon lons];
    [destruct coordinates; [now contradiction Hne|discriminate]|].
  destruct lats as [|lat lats];
    [destruct coordinates; [now contradiction Hne|discriminate]|].
  cbn [py_min py_max Py.bind].
  eexists _, _, _, _. split; [reflexivity|].
  intros c Hc.
  destruct (Hlons c Hc) as (x & Ex & Hx).
  destruct (Hlats c Hc) as (y & Ey & Hy).
  exists x, y. split; [exact Ex|]. split; [exact Ey|].
  destruct (fold_Qmin_le lons lon) as [Hm1 Hm2].
  destruct (fold_Qmax_ge lons lon) as [HM1 HM2].
  destruct (fold_Qmin_le lats lat) as [Hn1 Hn2].
  destruct (fold_Qmax_ge lats lat) as [HN1 HN2].
  destruct Hx as [<-|Hx]; destruct Hy as [<-|Hy]; repeat split; auto.
Qed.

(** The ring of the field: the box is the unit square of a hundredth of a
    degree. *)
Lemma calculate_bounds_encloses_witness :
  exists minx miny maxx maxy,
    _calculate_bounds [[0; 0]; [1 # 100; 0]; [1 # 100; 1 # 100]; [0; 1 # 100];
                       [0; 0]]%Q
    = Ret (minx, miny, maxx, maxy).
Proof.
  destruct (calculate_bounds_encloses
              [[0; 0]; [1 # 100; 0]; [1 # 100; 1 # 100]; [0; 1 # 100];
               [0; 0]]%Q) as (minx & miny & maxx & maxy & E & _).
  - discriminate.
  - repeat constructor.
  - exists minx, miny, maxx, maxy. exact E.
Defined.

(** An empty list of coordinates has no box: [min()] refuses it. *)
Lemma calculate_bounds_empty :
  _calculate_bounds [] = Raise (ValueError "min() arg is an empty sequence").
Proof. reflexivity. Qed.

(** *** The ray-casting test *)

Lemma pairs_lookup (coords : list (list Q)) (P : Q -> Q -> Prop) (i : nat) :
  coords <> [] ->
  Forall (vertex P) coords ->
  exists x y, nth_error coords (i mod length coords) = Some [x; y] /\ P x y.
Proof.
  intros Hne Hall.
  assert (i mod length coords < length coords)%nat as Hlt.
  { apply Nat.mod_upper_bound. destruct coords; [now contradiction Hne|].
    discriminate. }
  destruct (nth_error coords (i mod length coords)) as [c|] eqn:E;
    [|apply nth_error_None in E; lia].
  apply nth_error_In in E.
  rewrite Forall_forall in Hall.
  destruct (Hall c) as (x & y & -> & Hxy).
  { apply list_elem_of_In. exact E. }
  exists x, y. split; [reflexivity|exact Hxy].
Qed.

(** One edge of the ring, the test point being [(x, y)]: the crossing test
    returns, and it keeps [inside] when the point is not above the lower
    end of the edge, is above its upper end, or is right of both ends. *)
Lemma edge_test (x y p1x p1y p2x p2y : Q) (inside : bool) :
  exists inside',
    (if Qgtb y (Qmin p1y p2y) then
       if Qle_bool y (Qmax p1y p2y) then
         if Qle_bool x (Qmax p1x p2x) then
           let* xinters :=
             if negb (Qeq_bool p1y p2y) then
               let* q := py_div ((y - p1y) * (p2x - p1x)) (p2y - p1y) in
               Ret (q + p1x)%Q
             else Raise (OtherException "xinters referenced before assignment") in
           if Qeq_bool p1x p2x || Qle_bool x xinters
           then Ret (negb inside) else Ret inside
         else Ret inside
       else Ret inside
     else Ret inside) = Ret inside'
    /\ ((y <= p1y /\ y <= p2y)%Q \/ (p1y < y /\ p2y < y)%Q
        \/ (p1x < x /\ p2x < x)%Q -> inside' = inside).
Proof.
  destruct (Qgtb y (Qmin p1y p2y)) eqn:E1;
    [|exists inside; split; [reflexivity|reflexivity]].
  destruct (Qle_bool y (Qmax p1y p2y)) eqn:E2;
    [|exists inside; split; [reflexivity|reflexivity]].
  destruct (Qle_bool x (Qmax p1x p2x)) eqn:E3;
    [|exists inside; split; [reflexivity|reflexivity]].
  assert (~ (y <= p1y /\ y <= p2y)%Q) as Hlow by (q_compare; lra).
  assert (~ (p1y < y /\ p2y < y)%Q) as Hhigh by (q_compare; lra).
  assert (~ (p1x < x /\ p2x < x)%Q) as Hright by (q_compare; lra).
  destruct (Qeq_bool p1y p2y) eqn:E4; cbn [negb].
  { exfalso. apply Qeq_bool_iff in E4. q_compare; lra. }
  unfold py_div, Qis_zero.
  destruct (Qeq_bool (p2y - p1y) 0) eqn:E5.
  { exfalso. apply Qeq_bool_iff in E5. apply Qeq_bool_neq in E4.
    apply E4. lra. }
  cbn [Py.bind].
  match goal with
  | |- context [if ?c then Ret (negb inside) else Ret inside] =>
      destruct c
  end; eexists; (split; [reflexivity|]); intros [?|[?|?]]; tauto.
Qed.

Lemma ray_casting_spec (x y : Q) (coords : list (list Q)) (P : Q -> Q -> Prop)
      (indices : list nat) :
  coords <> [] ->
  Forall (vertex P) coords ->
  forall p1 inside,
    exists b, ray_casting x y coords indices p1 inside = Ret b
              /\ (P (fst p1) (snd p1) ->
                  (forall vx vy, P vx vy -> (y <= vy)%Q)
                  \/ (forall vx vy, P vx vy -> (vy < y)%Q)
                  \/ (forall vx vy, P vx vy -> (vx < x)%Q) ->
                  b = inside).
Proof.
  intros Hne Hall. induction indices as [|i rest IH]; intros [p1x p1y] inside.
  - exists inside. split; [reflexivity|auto].
  - cbn [ray_casting].
    destruct (pairs_lookup coords P i Hne Hall) as (p2x & p2y & -> & Hp2).
    cbn [Py.bind unpack_pair].
    destruct (edge_test x y p1x p1y p2x p2y inside) as (inside' & -> & Hk).
    cbn [Py.bind].
    destruct (IH (p2x, p2y) inside') as (b & -> & Hb).
    exists b. split; [reflexivity|]. cbn [fst snd] in *.
    intros Hp1 Hside. rewrite (Hb Hp2 Hside). apply Hk.
    destruct Hside as [Hs|[Hs|Hs]]; [left|right; left|right; right];
      split; eauto.
Qed.

(** On a ring of pairs [_point_in_polygon_simple] always answers: no edge
    divides by zero and none reads [xinters] before it is assigned, since a
    horizontal edge never passes the two tests on [y]. *)
Theorem point_in_polygon_answers (x y : Q) (coords : list (list Q)) :
  coords <> [] ->
  Forall (vertex (fun _ _ => True)) coords ->
  exists b, _point_in_polygon_simple x y coords = Ret b.
Proof.
  intros Hne Hall. unfold _point_in_polygon_simple.
  destruct coords as [|c rest]; [now contradiction Hne|].
  cbn [Py.bind].
  pose proof Hall as Hc. apply Forall_cons in Hc.
  destruct Hc as [(cx & cy & -> & _) _]. cbn [unpack_pair Py.bind].
  destruct (ray_casting_spec x y ([cx; cy] :: rest) (fun _ _ => True)
              (seq 1 (length ([cx; cy] :: rest))) Hne Hall (cx, cy) false)
    as (b & E & _).
  exists b. exact E.
Qed.

Lemma point_in_polygon_answers_witness :
  exists b,
    _point_in_polygon_simple (1 # 2) (1 # 2)
      [[0; 0]; [1; 0]; [1; 1]; [0; 1]; [0; 0]]%Q = Ret b.
Proof.
  apply point_in_polygon_answers; [discriminate|].
  repeat constructor; eexists _, _; split; reflexivity || exact I.
Defined.

(** A point that is not above the lowest vertex, that is above the highest
    one, or that is right of every vertex, is outside. *)
Theorem point_beyond_ring_is_outside (x y : Q) (coords : list (list Q)) :
  coords <> [] ->
  Forall (vertex (fun _ vy => (y <= vy)%Q)) coords
  \/ Forall (vertex (fun _ vy => (vy < y)%Q)) coords
  \/ Forall (vertex (fun vx _ => (vx < x)%Q)) coords ->
  _point_in_polygon_simple x y coords = Ret false.
Proof.
  intros Hne Hside. unfold _point_in_polygon_simple.
  destruct coords as [|c rest]; [now contradiction Hne|].
  cbn [Py.bind].
  destruct Hside as [Hall|[Hall|Hall]];
    pose proof Hall as Hc; apply Forall_cons in Hc;
    destruct Hc as [(cx & cy & -> & Hcxy) _]; cbn [unpack_pair Py.bind];
    match type of Hall with
    | Forall (vertex ?P) _ =>
        destruct (ray_casting_spec x y ([cx; cy] :: rest) P
                    (seq 1 (length ([cx; cy] :: rest))) Hne Hall
                    (cx, cy) false) as (b & E & Hb)
    end;
    rewrite E; f_equal; apply Hb; cbn [fst snd]; auto.
Qed.

(** The unit square and a point south of it. *)
Lemma point_beyond_ring_is_outside_witness :
  _point_in_polygon_simple (1 # 2) (-1)
    [[0; 0]; [1; 0]; [1; 1]; [0; 1]; [0; 0]]%Q = Ret false.
Proof.
  apply point_beyond_ring_is_outside; [discriminate|].
  left. repeat constructor; eexists _, _; (split; [reflexivity|]);
    discriminate.
Defined.

(** *** The grid pattern *)

Lemma dict_get_app {V} (d d' : list (string * V)) (k : string) :
  dict_get (d ++ d') k
  = match dict_get d k with
    | Some v => Some v
    | None => dict_get d' k
    end.
Proof.
  induction d as [|[k' v'] d IH]; [reflexivity|].
  cbn [app dict_get]. destruct (String.eqb k k'); [reflexivity|exact IH].
Qed.

Lemma dict_has_app {V} (d d' : list (string * V)) (k : string) :
  dict_has (d ++ d') k = dict_has d k || dict_has d' k.
Proof.
  unfold dict_has. rewrite dict_get_app.
  destruct (dict_get d k); [reflexivity|].
  destruct (dict_get d' k); reflexivity.
Qed.

Lemma dict_has_cons {V} (k' : string) (v' : V) (d : list (string * V))
      (k : string) :
  dict_has ((k', v') :: d) k = String.eqb k k' || dict_has d k.
Proof.
  unfold dict_has. cbn [dict_get]. destruct (String.eqb k k'); reflexivity.
Qed.

Lemma dict_has_In {V} (d : list (string * V)) (k : string) :
  dict_has d k = true <-> In k (map fst d).
Proof.
  induction d as [|[k' v'] d IH]; [split; [discriminate|intros []]|].
  rewrite dict_has_cons. cbn [map fst In]. rewrite orb_true_iff, IH.
  split; intros [E|E]; auto.
  - left. symmetry. now apply String.eqb_eq.
  - left. apply String.eqb_eq. now symmetry.
Qed.

(** A keyword given both explicitly and in the expanded dictionary stops
    the call. *)
Lemma merge_keywords_clash (fname : string) (extra : PyDict) :
  forall explicit k,
    dict_has explicit k = true -> dict_has extra k = true ->
    exists msg, merge_keywords fname explicit extra = Raise (TypeError msg).
Proof.
  induction extra as [|[k' v'] extra IH]; intros explicit k He Hx;
    [discriminate|].
  cbn [merge_keywords].
  destruct (dict_has explicit k') eqn:E'; [eexists; reflexivity|].
  rewrite dict_has_cons in Hx.
  destruct (String.eqb_spec k k') as [->|Hne]; [congruence|].
  cbn [orb] in Hx.
  apply (IH (explicit ++ [(k', v')]) k); [|exact Hx].
  rewrite dict_has_app, He. reflexivity.
Qed.

(** Distinct keywords, none of them given explicitly, are added in order. *)
Lemma merge_keywords_disjoint (fname : string) (extra : PyDict) :
  forall explicit,
    NoDup (map fst extra) ->
    (forall k, In k (map fst extra) -> dict_has explicit k = false) ->
    merge_keywords fname explicit extra = Ret (explicit ++ extra).
Proof.
  induction extra as [|[k' v'] extra IH]; intros explicit Hnd Hdis.
  - cbn. now rewrite app_nil_r.
  - cbn [merge_keywords]. rewrite (Hdis k') by now left.
    cbn [map fst] in Hnd. apply NoDup_cons in Hnd. destruct Hnd as [Hk' Hnd].
    rewrite (IH (explicit ++ [(k', v')]) Hnd).
    + now rewrite <- app_assoc.
    + intros k Hk. rewrite dict_has_app, (Hdis k) by now right.
      rewrite dict_has_cons. cbn [orb dict_has dict_get].
      destruct (String.eqb_spec k k') as [->|Hne]; [|reflexivity].
      exfalso. apply Hk'. apply list_elem_of_In. exact Hk.
Qed.

(** [_generate_grid_pattern] passes [cross_lines=True] next to the keywords
    it was given: a caller who gives [cross_lines] gets a [TypeError]. *)
Theorem grid_rejects_cross_lines `{Platform} (fuel : nat)
        (polygon : SurveyPolygon) (altitude_m overlap_percentage : Q)
        (kwargs : PyDict) :
  dict_has kwargs "cross_lines" = true ->
  exists msg,
    _generate_grid_pattern fuel polygon altitude_m overlap_percentage kwargs
    = Raise (TypeError msg).
Proof.
  intros Hk. unfold _generate_grid_pattern.
  destruct (merge_keywords_clash "_generate_crosshatch_pattern" kwargs
              [("cross_lines", VBool true)] "cross_lines" eq_refl Hk)
    as [msg ->].
  exists msg. reflexivity.
Qed.

Lemma grid_rejects_cross_lines_witness :
  exists msg,
    _generate_grid_pattern (H := fallback_platform) 10
      (SimplePolygon [] (0, 0, 0, 0)%Q) 100 70 [("cross_lines", VBool false)]
    = Raise (TypeError msg).
Proof.
  apply (grid_rejects_cross_lines (H := fallback_platform)). reflexivity.
Defined.

(** Without that keyword the grid pattern is the crosshatch pattern. *)
Theorem grid_is_crosshatch `{Platform} (fuel : nat)
        (polygon : SurveyPolygon) (altitude_m overlap_percentage : Q)
        (kwargs : PyDict) :
  NoDup (map fst kwargs) ->
  dict_has kwargs "cross_lines" = false ->
  _generate_grid_pattern fuel polygon altitude_m overlap_percentage kwargs
  = _generate_crosshatch_pattern fuel polygon altitude_m overlap_percentage
                                 kwargs.
Proof.
  intros Hnd Hk. unfold _generate_grid_pattern.
  rewrite merge_keywords_disjoint; [|exact Hnd|].
  - cbn [Py.bind app]. unfold _generate_crosshatch_pattern.
    cbn [dict_get String.eqb Ascii.eqb Bool.eqb].
    unfold dict_has in Hk.
    destruct (dict_get kwargs "cross_lines"); [discriminate|].
    reflexivity.
  - intros k Hin. rewrite dict_has_cons. cbn [dict_has dict_get orb].
    destruct (String.eqb_spec k "cross_lines") as [->|]; [|reflexivity].
    apply dict_has_In in Hin. congruence.
Qed.

Lemma grid_is_crosshatch_witness :
  _generate_grid_pattern (H := fallback_platform) 10
    (SimplePolygon [] (0, 0, 0, 0)%Q) 100 70 [("line_spacing_m", VInt 25)]
  = _generate_crosshatch_pattern (H := fallback_platform) 10
      (SimplePolygon [] (0, 0, 0, 0)%Q) 100 70 [("line_spacing_m", VInt 25)].
Proof.
  apply (grid_is_crosshatch (H := fallback_platform)); [|reflexivity].
  cbn. apply NoDup_cons. split; [intros Hin; inversion Hin|apply NoDup_nil_2].
Defined.

(** *** The perimeter pattern *)

Lemma perimeter_points_spec (altitude_m : Q) (coords : list (list Q)) :
  forall waypoints order,
    Forall (fun c => (2 <= length c)%nat) coords ->
    exists new,
      perimeter_points altitude_m coords waypoints order
      = Ret (waypoints ++ new)
      /\ length new = length coords
      /\ forall n c,
           nth_error coords n = Some c ->
           nth_error new n
           = Some (capture_at altitude_m (order + Z.of_nat n)
                              (nth 1 c 0%Q) (nth 0 c 0%Q)).
Proof.
  induction coords as [|c rest IH]; intros waypoints order Hall.
  - exists []. cbn. rewrite app_nil_r. repeat split.
    intros n c E. destruct n; discriminate.
  - apply Forall_cons in Hall. destruct Hall as [Hc Hrest].
    destruct c as [|x [|y c]]; cbn in Hc; try lia.
    cbn [perimeter_points coord_item nth_error Py.bind].
    destruct (IH (waypoints ++ [capture_at altitude_m order y x])
                 (order + 1)%Z Hrest) as (new & -> & Hlen & Hnth).
    exists (capture_at altitude_m order y x :: new).
    split; [now rewrite <- app_assoc|]. split; [cbn; now rewrite Hlen|].
    intros n c' E. destruct n as [|n]; cbn in E.
    + injection E as <-. cbn. do 2 f_equal. lia.
    + cbn [nth_error]. rewrite (Hnth n c' E). do 2 f_equal. lia.
Qed.

(** The perimeter pattern of a ring of coordinates visits every coordinate
    but the last one, in the order of the ring, numbered from 1, with the
    latitude read from the second member and the longitude from the
    first. *)
Theorem perimeter_visits_ring `{Platform} (coordinates : list (list Q))
        (bounds : Bounds) (altitude_m : Q) (kwargs : PyDict) :
  Forall (fun c => (2 <= length c)%nat) coordinates ->
  exists waypoints,
    _generate_perimeter_pattern (SimplePolygon coordinates bounds)
                                altitude_m kwargs = Ret waypoints
    /\ length waypoints = pred (length coordinates)
    /\ forall n c,
         (n < pred (length coordinates))%nat ->
         nth_error coordinates n = Some c ->
         nth_error waypoints n
         = Some (capture_at altitude_m (Z.of_nat n + 1)
                            (nth 1 c 0%Q) (nth 0 c 0%Q)).
Proof.
  intros Hall. unfold _generate_perimeter_pattern.
  rewrite removelast_firstn_len.
  destruct (perimeter_points_spec altitude_m
              (firstn (pred (length coordinates)) coordinates) [] 1)
    as (new & E & Hlen & Hnth).
  { apply Forall_take. exact Hall. }
  exists new. split; [exact E|]. split.
  - rewrite Hlen, length_firstn. lia.
  - intros n c Hn Ec. rewrite (Hnth n c).
    + do 2 f_equal. lia.
    + rewrite nth_error_firstn.
      destruct (Nat.ltb_spec n (pred (length coordinates))); [exact Ec|lia].
Qed.

Lemma perimeter_visits_ring_witness :
  exists waypoints,
    _generate_perimeter_pattern (H := fallback_platform)
      (SimplePolygon [[0; 0]; [1; 0]; [1; 1]; [0; 0]]%Q (0, 0, 1, 1)%Q)
      100 [] = Ret waypoints
    /\ length waypoints = 3%nat.
Proof.
  destruct (perimeter_visits_ring (H := fallback_platform)
              [[0; 0]; [1; 0]; [1; 1]; [0; 0]]%Q (0, 0, 1, 1)%Q 100 [])
    as (waypoints & E & Hlen & _).
  - repeat constructor.
  - exists waypoints. split; [exact E|exact Hlen].
Defined.

(** *** Line spacing *)

(** The spacing is never below 10 m, and for a non-negative altitude a
    larger overlap never gives a larger spacing. *)
Theorem line_spacing_floor_and_overlap (altitude_m o o' : Q) :
  (0 <= altitude_m)%Q -> (o <= o')%Q ->
  (10 <= _calculate_line_spacing altitude_m o)%Q
  /\ (_calculate_line_spacing altitude_m o'
      <= _calculate_line_spacing altitude_m o)%Q.
Proof.
  intros Ha Ho. unfold _calculate_line_spacing. cbv zeta.
  set (g := (altitude_m * (1732 # 1000))%Q).
  assert (0 <= g)%Q as Hg by (unfold g; lra).
  assert (g * ((100 - o') / 100) <= g * ((100 - o) / 100))%Q as Hmul.
  { rewrite (Qmult_comm g ((100 - o') / 100)), (Qmult_comm g ((100 - o) / 100)).
    apply Qmult_le_compat_r; [q_div; lra|exact Hg]. }
  set (s' := (g * ((100 - o') / 100))%Q) in *.
  set (s := (g * ((100 - o) / 100))%Q) in *.
  split; q_compare; lra.
Qed.

Lemma line_spacing_floor_and_overlap_witness :
  (10 <= _calculate_line_spacing 100 60)%Q
  /\ (_calculate_line_spacing 100 80 <= _calculate_line_spacing 100 60)%Q.
Proof.
  apply line_spacing_floor_and_overlap; discriminate.
Defined.

(** *** Timing *)

Lemma Qtrunc_floor (x : Q) : (0 <= x)%Q -> Qtrunc x = Qfloor x.
Proof.
  intros Hx. destruct x as [n d]. unfold Qtrunc, Qfloor. cbn [Qnum Qden].
  apply Z.quot_div_nonneg; [|reflexivity].
  unfold Qle in Hx. cbn in Hx. lia.
Qed.

Lemma Qtrunc_le (x y : Q) : (0 <= x)%Q -> (x <= y)%Q -> (Qtrunc x <= Qtrunc y)%Z.
Proof.
  intros Hx Hxy. rewrite !Qtrunc_floor by lra. now apply Qfloor_resp_le.
Qed.

Section Timing.
Context `{Platform}.
Hypothesis distance_nonneg :
  forall lat1 lon1 lat2 lon2,
    (0 <= _calculate_distance lat1 lon1 lat2 lon2)%Q.

Lemma timing_loop_times (waypoints : list WaypointData) :
  forall prev t,
    (0 <= t)%Q ->
    exists times,
      map estimated_time_seconds (timing_loop prev t waypoints)
      = map Some times
      /\ Forall (fun s => (Qtrunc t <= s)%Z) times
      /\ StronglySorted Z.le times.
Proof.
  induction waypoints as [|w rest IH]; intros prev t Ht.
  - exists []. repeat split; constructor.
  - cbn [timing_loop]. destruct prev as [p|].
    + set (d := _calculate_distance (latitude p) (longitude p)
                                    (latitude w) (longitude w)).
      pose proof (distance_nonneg (latitude p) (longitude p)
                                  (latitude w) (longitude w)) as Hd.
      fold d in Hd. cbv zeta.
      set (t1 := (t + d / default_speed_mps)%Q).
      assert (t <= t1)%Q as Ht1.
      { unfold t1, default_speed_mps.
        q_div; lra. }
      set (t2 := if String.eqb (action w) "capture"
                 then (t1 + capture_time_seconds)%Q
                 else if String.eqb (action w) "hover" then (t1 + 5)%Q
                      else if String.eqb (action w) "land" then (t1 + 15)%Q
                           else t1).
      assert (t1 <= t2)%Q as Ht2.
      { unfold t2, capture_time_seconds.
        destruct (String.eqb (action w) "capture"); [lra|].
        destruct (String.eqb (action w) "hover"); [lra|].
        destruct (String.eqb (action w) "land"); lra. }
      destruct (IH (Some (set_estimated_time w (Qtrunc t2))) t2)
        as (times & Etimes & Hlow & Hsorted); [lra|].
      exists (Qtrunc t2 :: times). cbn [map estimated_time_seconds
                                          set_estimated_time].
      rewrite Etimes. split; [reflexivity|]. split.
      * constructor; [apply Qtrunc_le; lra|].
        eapply Forall_impl; [exact Hlow|]. cbn. intros s Hs.
        assert (Qtrunc t <= Qtrunc t2)%Z by (apply Qtrunc_le; lra). lia.
      * constructor; [exact Hsorted|exact Hlow].
    + cbv zeta.
      set (t' := if String.eqb (action w) "takeoff" then (t + 10)%Q else t).
      assert (t <= t')%Q as Ht'.
      { unfold t'. destruct (String.eqb (action w) "takeoff"); lra. }
      destruct (IH (Some (set_estimated_time w (Qtrunc t))) t')
        as (times & Etimes & Hlow & Hsorted); [lra|].
      exists (Qtrunc t :: times). cbn [map estimated_time_seconds
                                         set_estimated_time].
      rewrite Etimes. split; [reflexivity|]. split.
      * constructor; [lia|].
        eapply Forall_impl; [exact Hlow|]. cbn. intros s Hs.
        assert (Qtrunc t <= Qtrunc t')%Z by (apply Qtrunc_le; lra). lia.
      * constructor; [exact Hsorted|].
        eapply Forall_impl; [exact Hlow|]. cbn. intros s Hs.
        assert (Qtrunc t <= Qtrunc t')%Z by (apply Qtrunc_le; lra). lia.
Qed.

(** When no distance is negative, [_calculate_timing] gives every waypoint
    an estimated time, starting from 0 seconds, and the times never
    decrease along the route. *)
Theorem timing_never_decreases (waypoints : list WaypointData) :
  exists times,
    map estimated_time_seconds (_calculate_timing waypoints) = map Some times
    /\ Forall (fun s => (0 <= s)%Z) times
    /\ StronglySorted Z.le times
    /\ (waypoints <> [] -> hd_error times = Some 0%Z).
Proof.
  unfold _calculate_timing.
  destruct (timing_loop_times waypoints None 0) as (times & E & Hlow & Hs);
    [lra|].
  exists times. split; [exact E|]. split; [exact Hlow|].
  split; [exact Hs|].
  intros Hne. destruct waypoints as [|w rest]; [now contradiction Hne|].
  cbn [timing_loop] in E. cbv zeta in E.
  destruct times as [|s times]; [discriminate|].
  cbn in E. injection E as E _. cbn. f_equal. now symmetry.
Qed.

End Timing.

(** On the flat grid of the fallback platform no distance is negative. *)
Lemma timing_never_decreases_witness :
  exists times,
    map estimated_time_seconds
        (_calculate_timing (H := fallback_platform)
           [capture_at 100 1 0 0; capture_at 100 2 (1 # 1000) 0])
    = map Some times
    /\ StronglySorted Z.le times.
Proof.
  destruct (timing_never_decreases (H := fallback_platform))
    with (waypoints := [capture_at 100 1 0 0; capture_at 100 2 (1 # 1000) 0])
    as (times & E & _ & Hs & _).
  - intros lat1 lon1 lat2 lon2. cbn [_calculate_distance fallback_platform].
    generalize (Qabs_nonneg (lat2 - lat1)) (Qabs_nonneg (lon2 - lon1)).
    generalize (Qabs (lat2 - lat1)) (Qabs (lon2 - lon1)).
    intros a b Ha Hb. lra.
  - exists times. split; [exact E|exact Hs].
Defined.

(** *** The fallback lattice *)

Section Lattice.
Context `{Platform}.
Variables (coords : list (list Q)) (altitude_m minx miny maxx maxy : Q).

Abbreviation kept := (lattice_point coords (minx, miny, maxx, maxy)).

Lemma lattice_row_kept (slon lat : Q) (fuel : nat) :
  (0 < slon)%Q -> (miny < lat)%Q -> (lat < maxy)%Q ->
  forall cur wps o wps' o',
    (minx < cur)%Q ->
    Forall kept wps ->
    lattice_row fuel coords altitude_m maxx slon lat cur wps o
    = Ret (wps', o') ->
    Forall kept wps'.
Proof.
  intros Hs Hlo Hhi.
  induction fuel as [|fuel IH]; intros cur wps o wps' o' Hcur Hw E;
    cbn [lattice_row] in E; destruct (Qltb cur maxx) eqn:Ec;
    try discriminate; try (injection E as <- _; exact Hw).
  bind_inv E. apply Qltb_lt in Ec. destruct a.
  - eapply IH; [| |exact E]; [lra|].
    apply Forall_app. split; [exact Hw|].
    constructor; [|constructor].
    split; [cbn; repeat split; assumption|exact Hm].
  - eapply IH; [| |exact E]; [lra|exact Hw].
Qed.

Lemma lattice_rows_kept (slat slon : Q) (fuel_row fuel : nat) :
  (0 < slat)%Q -> (0 < slon)%Q ->
  forall cur wps o wps' o',
    (miny < cur)%Q ->
    Forall kept wps ->
    lattice_rows fuel fuel_row coords altitude_m minx maxx maxy slat slon
                 cur wps o = Ret (wps', o') ->
    Forall kept wps'.
Proof.
  intros Hslat Hslon.
  induction fuel as [|fuel IH]; intros cur wps o wps' o' Hcur Hw E;
    cbn [lattice_rows] in E; destruct (Qltb cur maxy) eqn:Ec;
    try discriminate; try (injection E as <- _; exact Hw).
  bind_inv E. destruct a as [w1 o1]. apply Qltb_lt in Ec.
  eapply IH; [| |exact E]; [lra|].
  eapply (lattice_row_kept slon cur fuel_row); [exact Hslon|exact Hcur|
                                                exact Ec| |exact Hw|exact Hm].
  lra.
Qed.

Lemma lon_spacing_positive (sp : Q) :
  (0 < sp)%Q -> (0 < cos_radians ((miny + maxy) / 2))%Q ->
  exists slon,
    py_div sp (111000 * cos_radians ((miny + maxy) / 2)) = Ret slon
    /\ (0 < slon)%Q.
Proof.
  intros Hsp Hcos. unfold py_div, Qis_zero.
  set (c := cos_radians ((miny + maxy) / 2)) in *.
  assert (0 < 111000 * c)%Q as Hd by lra.
  destruct (Qeq_bool (111000 * c) 0) eqn:E.
  { apply Qeq_bool_iff in E. lra. }
  eexists. split; [reflexivity|].
  apply Qlt_shift_div_l; [exact Hd|lra].
Qed.

(** With a positive spacing and a positive cosine of the mean latitude,
    every waypoint of the fallback lattice lies strictly inside the
    bounding box and passed the ray-casting test. *)
Theorem fallback_lattice_within_bounds (fuel : nat) (sp : Q) (cross : bool)
        (wps : list WaypointData) :
  (0 < sp)%Q ->
  (0 < cos_radians ((miny + maxy) / 2))%Q ->
  _generate_crosshatch_simple fuel coords (minx, miny, maxx, maxy)
                              altitude_m sp cross = Ret wps ->
  Forall (lattice_point coords (minx, miny, maxx, maxy)) wps.
Proof.
  intros Hsp Hcos E. unfold _generate_crosshatch_simple in E.
  destruct (lon_spacing_positive sp Hsp Hcos) as (slon & Eslon & Hslon).
  rewrite Eslon in E. cbn [Py.bind] in E.
  bind_inv E. destruct a as [w1 o1]. injection E as <-.
  assert (0 < sp / 111000)%Q as Hslat by (q_div; lra).
  eapply (lattice_rows_kept (sp / 111000) slon fuel fuel Hslat Hslon);
    [|constructor|exact Hm].
  lra.
Qed.

(** The loops spin when the spacing is not positive. *)
Lemma lattice_row_spins (slon lat : Q) (fuel : nat) :
  coords <> [] -> Forall (vertex (fun _ _ => True)) coords ->
  (slon <= 0)%Q ->
  forall cur wps o,
    (cur < maxx)%Q ->
    lattice_row fuel coords altitude_m maxx slon lat cur wps o = OutOfFuel.
Proof.
  intros Hne Hall Hs.
  induction fuel as [|fuel IH]; intros cur wps o Hcur; cbn [lattice_row];
    pose proof Hcur as Ec; apply Qltb_lt in Ec; rewrite Ec; [reflexivity|].
  destruct (point_in_polygon_answers cur lat coords Hne Hall) as [b ->].
  cbn [Py.bind]. destruct b; apply IH; lra.
Qed.




End Lattice.

(** Without Shapely, a [line_spacing_m] keyword that is zero or negative
    makes the crosshatch pattern loop for ever on any box with an interior:
    no amount of fuel lets it return. *)
Theorem nonpositive_spacing_never_returns `{Platform} (fuel : nat)
        (coords : list (list Q)) (minx miny maxx maxy : Q)
        (altitude_m overlap_percentage : Q) (kwargs : PyDict)
        (v : PyVal) (sp : Q) :
  SHAPELY_AVAILABLE = false ->
  dict_get kwargs "line_spacing_m" = Some v ->
  as_number v = Some sp ->
  (sp <= 0)%Q ->
  (0 < cos_radians ((miny + maxy) / 2))%Q ->
  (minx < maxx)%Q -> (miny < maxy)%Q ->
  coords <> [] -> Forall (vertex (fun _ _ => True)) coords ->
  _generate_crosshatch_pattern fuel
    (SimplePolygon coords (minx, miny, maxx, maxy))
    altitude_m overlap_percentage kwargs = OutOfFuel.
Proof.
  intros Hsh Hkw Hv Hsp Hcos Hx Hy Hne Hall.
  unfold _generate_crosshatch_pattern. rewrite Hkw, Hv, Hsh.
  cbn [Py.bind]. unfold _generate_crosshatch_simple.
  unfold py_div, Qis_zero.
  set (c := cos_radians ((miny + maxy) / 2)) in *.
  assert (0 < 111000 * c)%Q as Hd by lra.
  destruct (Qeq_bool (111000 * c) 0) eqn:E.
  { apply Qeq_bool_iff in E. lra. }
  cbn [Py.bind].
  assert (sp / (111000 * c) <= 0)%Q as Hslon.
  { apply Qle_shift_div_r; [exact Hd|lra]. }
  assert (sp / 111000 <= 0)%Q as Hslat by (q_div; lra).
  assert (Qltb (miny + sp / 111000) maxy = true) as Elat
      by (apply Qltb_lt; lra).
  destruct fuel as [|fuel]; cbn [lattice_rows]; rewrite Elat;
    [reflexivity|].
  rewrite (lattice_row_spins coords altitude_m maxx (sp / (111000 * c))
             (miny + sp / 111000) (S fuel) Hne Hall Hslon); [reflexivity|].
  lra.
Qed.

Lemma nonpositive_spacing_never_returns_witness :
  _generate_crosshatch_pattern (H := fallback_platform) 1000
    (SimplePolygon [[0; 0]; [1; 0]; [1; 1]; [0; 1]; [0; 0]]%Q (0, 0, 1, 1)%Q)
    100 70 [("line_spacing_m", VInt 0)] = OutOfFuel.
Proof.
  apply (nonpositive_spacing_never_returns (H := fallback_platform))
    with (v := VInt 0) (sp := inject_Z 0);
    try reflexivity; try discriminate.
  repeat constructor; eexists _, _; split; reflexivity || exact I.
Defined.



(** A plot of eleven metres a side, walked every five metres. *)
Lemma fallback_lattice_within_bounds_witness :
  exists wps,
    _generate_crosshatch_simple (H := fallback_platform) 10
      [[0; 0]; [1 # 10000; 0]; [1 # 10000; 1 # 10000]; [0; 1 # 10000];
       [0; 0]]%Q (0, 0, 1 # 10000, 1 # 10000)%Q 100 5 true = Ret wps
    /\ length wps = 4%nat
    /\ Forall (lattice_point
                 [[0; 0]; [1 # 10000; 0]; [1 # 10000; 1 # 10000];
                  [0; 1 # 10000]; [0; 0]]%Q
                 (0, 0, 1 # 10000, 1 # 10000)%Q) wps.
Proof.
  destruct (_generate_crosshatch_simple (H := fallback_platform) 10
              [[0; 0]; [1 # 10000; 0]; [1 # 10000; 1 # 10000];
               [0; 1 # 10000]; [0; 0]]%Q
              (0, 0, 1 # 10000, 1 # 10000)%Q 100 5 true) as [wps|e|] eqn:E;
    [|vm_compute in E; discriminate E|vm_compute in E; discriminate E].
  exists wps. split; [reflexivity|]. split.
  - vm_compute in E. injection E as <-. reflexivity.
  - apply (fallback_lattice_within_bounds (H := fallback_platform)) with
      (3 := E); reflexivity.
Defined.

End WaypointGenProperties.

(** ** [app/services/mission_planner.py] *)

Module PlannerProperties.
Import WaypointGen Planner PlannerScoring.

Section Validation.
Context `{Platform}.

Lemma altitude_errors_none (v : PyVal) :
  altitude_errors v = [] ->
  exists a, as_number v = Some a /\ (10 <= a <= 120)%Q.
Proof.
  unfold altitude_errors. destruct (is_number v); [|discriminate].
  destruct (as_number v) as [a|]; [|discriminate].
  intros E. exists a. split; [reflexivity|].
  q_compare; try discriminate; lra.
Qed.

Lemma overlap_errors_none (v : PyVal) :
  overlap_errors v = [] ->
  exists o, as_number v = Some o /\ (10 <= o <= 90)%Q.
Proof.
  unfold overlap_errors. destruct (is_number v); [|discriminate].
  destruct (as_number v) as [o|]; [|discriminate].
  intros E. exists o. split; [reflexivity|].
  q_compare; try discriminate; lra.
Qed.

Lemma subscript_get (d : PyDict) (k : string) (v : PyVal) :
  dict_get d k = Some v -> subscript d k = Ret v.
Proof. intros E. unfold subscript. now rewrite E. Qed.

Lemma subscript_missing (d : PyDict) (k : string) :
  dict_get d k = None -> subscript d k = Raise (KeyError k).
Proof. intros E. unfold subscript. now rewrite E. Qed.

(** With every required field present, the result is made of the three
    checks, unless the survey area check runs out of fuel. *)
Lemma validation_checks (mission_data : PyDict) :
  missing_field_errors mission_data = [] ->
  exists va vo,
    dict_get mission_data "altitude_m" = Some va
    /\ dict_get mission_data "overlap_percentage" = Some vo
    /\ (validate_mission_parameters mission_data = OutOfFuel
        \/ exists area_errors,
             validate_mission_parameters mission_data
             = Ret {| valid :=
                        (length ((altitude_errors va ++ overlap_errors vo)
                                 ++ area_errors) =? 0)%nat;
                      errors := (altitude_errors va ++ overlap_errors vo)
                                ++ area_errors |}).
Proof.
  intros Em.
  assert (forall f, In f required_fields ->
                    exists v, dict_get mission_data f = Some v) as Hget.
  { intros f Hf.
    destruct (dict_get mission_data f) as [v|] eqn:Ef; [eauto|].
    exfalso. unfold missing_field_errors in Em.
    apply map_eq_nil in Em.
    assert (In f (List.filter
                    (fun field => negb (dict_has mission_data field))
                    required_fields)) as Hin.
    { apply filter_In. split; [exact Hf|].
      unfold dict_has. now rewrite Ef. }
    rewrite Em in Hin. destruct Hin. }
  destruct (Hget "altitude_m") as [va Eva]; [cbn; tauto|].
  destruct (Hget "overlap_percentage") as [vo Evo]; [cbn; tauto|].
  exists va, vo. split; [exact Eva|]. split; [exact Evo|].
  unfold validate_mission_parameters. rewrite Em.
  rewrite (subscript_get _ _ _ Eva), (subscript_get _ _ _ Evo).
  cbn [Py.bind app].
  destruct (let* geojson := subscript mission_data "survey_area_geojson" in
            survey_area_check geojson) as [area_errors|e|].
  - right. eexists. reflexivity.
  - right. eexists. reflexivity.
  - left. reflexivity.
Qed.

(** What a valid result says of the mission data. *)
Lemma valid_mission_numbers (mission_data : PyDict) (vr : ValidationResult) :
  validate_mission_parameters mission_data = Ret vr ->
  valid vr = true ->
  exists va a vo o,
    dict_get mission_data "altitude_m" = Some va
    /\ as_number va = Some a /\ (10 <= a <= 120)%Q
    /\ dict_get mission_data "overlap_percentage" = Some vo
    /\ as_number vo = Some o /\ (10 <= o <= 90)%Q.
Proof.
  intros E Hv.
  destruct (missing_field_errors mission_data) as [|m ms] eqn:Em.
  - destruct (validation_checks mission_data Em)
      as (va & vo & Eva & Evo & [Hout|[area_errors Hret]]);
      [congruence|].
    rewrite Hret in E. injection E as <-. cbn [valid] in Hv.
    apply Nat.eqb_eq in Hv. apply length_zero_iff_nil in Hv.
    apply app_eq_nil in Hv. destruct Hv as [Hv _].
    apply app_eq_nil in Hv. destruct Hv as [Ha Ho].
    destruct (altitude_errors_none va Ha) as (a & Ea & Hab).
    destruct (overlap_errors_none vo Ho) as (o & Eo & Hob).
    exists va, a, vo, o. repeat split; try assumption; lra.
  - unfold validate_mission_parameters in E. rewrite Em in E.
    injection E as <-. cbn in Hv. discriminate Hv.
Qed.

(** [validate_mission_parameters] never raises: whatever the survey area
    check raises becomes an entry of [errors]; and [valid] says exactly
    that there is no error. *)
Theorem validation_never_raises (mission_data : PyDict) :
  (forall e, validate_mission_parameters mission_data <> Raise e)
  /\ (forall vr, validate_mission_parameters mission_data = Ret vr ->
                 (valid vr = true <-> errors vr = [])).
Proof.
  destruct (missing_field_errors mission_data) as [|m ms] eqn:Em.
  - destruct (validation_checks mission_data Em)
      as (va & vo & _ & _ & [->|[area_errors ->]]).
    + split; [discriminate|discriminate].
    + split; [discriminate|]. intros vr E. injection E as <-.
      cbn [valid errors]. rewrite Nat.eqb_eq. apply length_zero_iff_nil.
  - unfold validate_mission_parameters. rewrite Em.
    split; [discriminate|]. intros vr E. injection E as <-.
    cbn [valid errors]. split; discriminate.
Qed.

(** The planner accepts overlaps from 10 %, the generator refuses them
    below 30 %: mission data that passed [validate_mission_parameters]
    with an overlap below 30 makes [generate_waypoints] raise, however it
    is called. *)
Theorem validated_overlap_is_refused (mission_data : PyDict)
        (vr : ValidationResult) (vo : PyVal) (o : Q) (g : string) :
  validate_mission_parameters mission_data = Ret vr ->
  valid vr = true ->
  dict_get mission_data "overlap_percentage" = Some vo ->
  as_number vo = Some o ->
  (o < 30)%Q ->
  g <> "" ->
  exists va,
    dict_get mission_data "altitude_m" = Some va
    /\ forall fuel pattern,
         call_generate_waypoints fuel [VStr g; va; vo; VStr pattern] []
         = Raise (ValueError "Overlap percentage must be between 30 and 90").
Proof.
  intros E Hv Hvo Ho Hlt Hg.
  destruct (valid_mission_numbers mission_data vr E Hv)
    as (va & a & vo' & o' & Eva & Ea & Hab & Evo & Eo & Hob).
  rewrite Hvo in Evo. injection Evo as <-.
  exists va. split; [exact Eva|]. intros fuel pattern.
  unfold call_generate_waypoints.
  cbn [bind_call generate_waypoints_signature sig_name sig_params sig_varkw
       bind_positional Py.bind find List.filter missing_params
       bind_remaining map app dict_get String.eqb Ascii.eqb Bool.eqb
       expect_number].
  rewrite Ea, Ho. cbn [Py.bind].
  unfold generate_waypoints, survey_points, _validate_inputs.
  destruct (String.eqb_spec g "") as [->|_]; [now contradiction Hg|].
  assert (Qltb a 10 || Qgtb a 400 = false) as ->
      by (q_compare; try reflexivity; lra).
  assert (Qltb o 30 = true) as -> by (apply Qltb_lt; exact Hlt).
  reflexivity.
Qed.

End Validation.

Lemma validated_overlap_is_refused_witness :
  validate_mission_parameters (H := shoelace_platform) sparse_mission
  = Ret {| valid := true; errors := [] |}
  /\ call_generate_waypoints (H := shoelace_platform) 10
       [VStr field_json; VInt 100; VInt 20; VStr "grid"] []
     = Raise (ValueError "Overlap percentage must be between 30 and 90").
Proof.
  split; [vm_compute; reflexivity|].
  destruct (validated_overlap_is_refused (H := shoelace_platform)
              sparse_mission {| valid := true; errors := [] |}
              (VInt 20) (inject_Z 20) field_json)
    as (va & Eva & Hcall);
    [vm_compute; reflexivity|reflexivity|reflexivity|reflexivity
    |reflexivity|discriminate|].
  vm_compute in Eva. injection Eva as <-. apply Hcall.
Defined.

(** *** Cost *)

(** [estimate_mission_cost] asks the generator for
    [calculate_estimated_duration], which it does not have: every
    non-empty list of waypoints ends in an [AttributeError]; the empty list
    costs nothing. *)
Theorem mission_cost_of_waypoints `{Platform} :
  estimate_mission_cost []
  = Ret [ ("total_cost", VInt 0); ("breakdown", VDict []) ]
  /\ forall waypoint rest,
       estimate_mission_cost (waypoint :: rest)
       = Raise (AttributeError
                  "'WaypointGenerator' object has no attribute 'calculate_estimated_duration'").
Proof. split; [reflexivity|]. intros waypoint rest. reflexivity. Qed.

(** *** Drone scoring *)

Lemma Ret_inj {A} (a b : A) : Ret a = Ret b -> a = b.
Proof. intros E. now injection E. Qed.

Lemma distance_score_range (x y : Q) :
  (0 <= Qmax 0 (1 - (Qabs x + Qabs y) / 2) <= 1)%Q.
Proof.
  generalize (Qabs_nonneg x) (Qabs_nonneg y).
  generalize (Qabs x) (Qabs y).
  intros p q Hp Hq. q_div. q_compare; lra.
Qed.

(** For a mission of non-negative duration and a drone with a non-negative
    count of missions, the suitability score is 0 exactly when the battery
    is below the duration in minutes plus 20, and lies between 10 and 100
    otherwise. *)
Theorem suitability_score_range (drone : DroneRow) (waypoints : list PyDict)
        (estimated_duration_minutes : Z) (score : Q) :
  (0 <= estimated_duration_minutes)%Z ->
  (0 <= row_missions_completed drone)%Z ->
  _calculate_drone_suitability_score drone waypoints
                                     estimated_duration_minutes = Ret score ->
  (row_battery_percentage drone < inject_Z estimated_duration_minutes + 20
   -> score = 0)%Q
  /\ (inject_Z estimated_duration_minutes + 20 <= row_battery_percentage drone
      -> 10 <= score <= 100)%Q.
Proof.
  intros Hd Hm E. unfold _calculate_drone_suitability_score in E.
  cbv zeta in E.
  assert (0 <= inject_Z estimated_duration_minutes)%Q as Hd'
      by (change 0%Q with (inject_Z 0); now rewrite <- Zle_Qle).
  assert (0 <= inject_Z (row_missions_completed drone))%Q as Hm'
      by (change 0%Q with (inject_Z 0); now rewrite <- Zle_Qle).
  revert E Hd' Hm'.
  generalize (row_battery_percentage drone)
             (inject_Z estimated_duration_minutes)
             (inject_Z (row_missions_completed drone)).
  intros b d m E Hd' Hm'.
  destruct (Qltb b (d * 1 + 20)) eqn:Eb.
  - apply Ret_inj in E. subst score. apply Qltb_lt in Eb.
    split; [reflexivity|]. intros Hge. lra.
  - assert (d + 20 <= b)%Q as Hb by (q_compare; try discriminate; lra).
    clear Eb. split; [intros Hlt; lra|]. intros _.
    assert (2 # 10 <= Qmin (b / 100) 1 <= 1)%Q as Hbs
        by (clear E; q_div; q_compare; lra).
    assert (0 <= Qmin (m / 50) 1 <= 1)%Q as Hes
        by (clear E; q_div; q_compare; lra).
    revert E Hbs Hes. generalize (Qmin (b / 100) 1) (Qmin (m / 50) 1).
    intros bs es E Hbs Hes.
    destruct waypoints as [|first_waypoint rest];
      [apply Ret_inj in E; subst score; lra|].
    destruct (both_truthy _ _); [|apply Ret_inj in E; subst score; lra].
    apply bind_ret_inv in E. destruct E as (wlat & _ & E).
    apply bind_ret_inv in E. destruct E as (wlng & _ & E).
    apply Ret_inj in E. subst score.
    match goal with
    | |- context [Qmax 0 (1 - (Qabs ?x + Qabs ?y) / 2)] =>
        generalize (distance_score_range x y);
        generalize (Qmax 0 (1 - (Qabs x + Qabs y) / 2))
    end.
    intros ds Hds. lra.
Qed.

(** A drone at 80 %, fifty missions flown, of unknown position, for a
    mission of twenty minutes: 40 + 30 + 10. *)
Lemma suitability_score_range_witness :
  exists score,
    _calculate_drone_suitability_score
      {| row_id := 1; row_available := true; row_battery_percentage := 80;
         row_missions_completed := 50; current_location_lat := None;
         current_location_lng := None |} [] 20 = Ret score
    /\ (10 <= score <= 100)%Q.
Proof.
  eexists. split; [reflexivity|].
  eapply (suitability_score_range
            {| row_id := 1; row_available := true;
               row_battery_percentage := 80; row_missions_completed := 50;
               current_location_lat := None; current_location_lng := None |}
            [] 20); [lia|cbn; lia|reflexivity|discriminate].
Defined.

(** *** Choosing a drone *)

Lemma insert_by_score_In (e x : DroneRow * Q) (l : list (DroneRow * Q)) :
  In x (insert_by_score e l) <-> x = e \/ In x l.
Proof.
  induction l as [|y l IH]; cbn [insert_by_score].
  - cbn. intuition auto.
  - destruct (Qle_bool (snd y) (snd e)); cbn [In]; [intuition auto|].
    rewrite IH. intuition auto.
Qed.

Lemma sort_by_score_In (x : DroneRow * Q) (l : list (DroneRow * Q)) :
  In x (sort_by_score l) <-> In x l.
Proof.
  induction l as [|y l IH]; [reflexivity|].
  unfold sort_by_score in *. cbn [fold_right].
  rewrite insert_by_score_In, IH. cbn. intuition auto.
Qed.

Lemma insert_by_score_head (e : DroneRow * Q) (l : list (DroneRow * Q)) :
  (forall h t, l = h :: t -> forall x, In x l -> (snd x <= snd h)%Q) ->
  forall h t, insert_by_score e l = h :: t ->
              forall x, In x (insert_by_score e l) -> (snd x <= snd h)%Q.
Proof.
  intros Hl h t E x Hx. apply insert_by_score_In in Hx.
  destruct l as [|y l]; cbn [insert_by_score] in E.
  - injection E as <- _. destruct Hx as [->|[]]. lra.
  - specialize (Hl y l eq_refl).
    destruct (Qle_bool (snd y) (snd e)) eqn:Ey.
    + injection E as <- _. apply Qle_bool_iff in Ey.
      destruct Hx as [->|Hx]; [lra|]. specialize (Hl x Hx). lra.
    + injection E as <- _. apply Qle_bool_false in Ey.
      destruct Hx as [->|Hx]; [lra|]. exact (Hl x Hx).
Qed.

Lemma sort_by_score_head (l : list (DroneRow * Q)) :
  forall h t, sort_by_score l = h :: t ->
              forall x, In x l -> (snd x <= snd h)%Q.
Proof.
  assert (forall h t, sort_by_score l = h :: t ->
                      forall x, In x (sort_by_score l) -> (snd x <= snd h)%Q)
    as Hs.
  { induction l as [|y l IH]; [discriminate|].
    unfold sort_by_score in *. cbn [fold_right].
    apply insert_by_score_head. exact IH. }
  intros h t E x Hx. apply (Hs h t E). now apply sort_by_score_In.
Qed.

Lemma score_drones_spec (waypoints : list PyDict) (duration : Z)
      (available : list DroneRow) :
  forall scores,
    score_drones available waypoints duration = Ret scores ->
    (forall x s, In (x, s) scores ->
                 In x available
                 /\ _calculate_drone_suitability_score x waypoints duration
                    = Ret s
                 /\ (0 < s)%Q)
    /\ (forall x s, In x available ->
                    _calculate_drone_suitability_score x waypoints duration
                    = Ret s ->
                    (0 < s)%Q -> In (x, s) scores).
Proof.
  induction available as [|drone rest IH]; intros scores E;
    cbn [score_drones] in E.
  - apply Ret_inj in E. subst scores. split; [intros x s []|intros x s []].
  - apply bind_ret_inv in E. destruct E as (score & Escore & E).
    apply bind_ret_inv in E. destruct E as (scores' & Erest & E).
    apply Ret_inj in E. destruct (IH scores' Erest) as [Hin Hall].
    destruct (Qgtb score 0) eqn:Eg; subst scores.
    + split.
      * intros x s [Hx|Hx].
        -- injection Hx as <- <-. split; [now left|]. split; [exact Escore|].
           q_compare; try discriminate; lra.
        -- destruct (Hin x s Hx) as (H1 & H2 & H3). split; [now right|].
           split; assumption.
      * intros x s [<-|Hx] Es Hs.
        -- rewrite Escore in Es. apply Ret_inj in Es. subst s. now left.
        -- right. exact (Hall x s Hx Es Hs).
    + split.
      * intros x s Hx. destruct (Hin x s Hx) as (H1 & H2 & H3).
        split; [now right|]. split; assumption.
      * intros x s [<-|Hx] Es Hs.
        -- rewrite Escore in Es. apply Ret_inj in Es. subst s.
           exfalso. q_compare; try discriminate; lra.
        -- exact (Hall x s Hx Es Hs).
Qed.

(** The drone that [find_best_drone_for_mission] returns is one of the
    available drones, its score is positive, and no available drone scores
    higher. *)
Theorem best_drone_is_suitable (drones : list DroneRow)
        (waypoints : list PyDict) (duration : Z) (best : DroneRow) :
  find_best_drone_for_mission drones waypoints duration = Ret (Some best) ->
  In best drones
  /\ row_available best = true
  /\ exists score,
       _calculate_drone_suitability_score best waypoints duration = Ret score
       /\ (0 < score)%Q
       /\ forall other score',
            In other drones -> row_available other = true ->
            _calculate_drone_suitability_score other waypoints duration
            = Ret score' ->
            (score' <= score)%Q.
Proof.
  unfold find_best_drone_for_mission. intros E.
  destruct (List.filter row_available drones) as [|d0 rest] eqn:Ef;
    [discriminate|].
  rewrite <- Ef in E. apply bind_ret_inv in E.
  destruct E as (scores & Escores & E).
  destruct (sort_by_score scores) as [|[b s] sorted] eqn:Es; [discriminate|].
  apply Ret_inj in E. injection E as E. cbn [fst] in E. subst b.
  destruct (score_drones_spec waypoints duration _ scores Escores)
    as [Hin Hall].
  assert (In (best, s) scores) as Hbest.
  { apply sort_by_score_In. rewrite Es. now left. }
  destruct (Hin best s Hbest) as (Hav & Escore & Hpos).
  apply filter_In in Hav. destruct Hav as [Hd Ha].
  split; [exact Hd|]. split; [exact Ha|].
  exists s. split; [exact Escore|]. split; [exact Hpos|].
  intros other score' Ho Hoa Eo.
  destruct (Qlt_le_dec 0 score') as [Hp|Hn]; [|lra].
  assert (In (other, score') scores) as Hother.
  { apply Hall; [|exact Eo|exact Hp]. apply filter_In. now split. }
  exact (sort_by_score_head scores (best, s) sorted Es (other, score') Hother).
Qed.

(** Two available drones and one in maintenance: the fuller battery wins. *)
Lemma best_drone_is_suitable_witness :
  exists best,
    find_best_drone_for_mission
      [ {| row_id := 1; row_available := true; row_battery_percentage := 60;
           row_missions_completed := 5; current_location_lat := None;
           current_location_lng := None |};
        {| row_id := 2; row_available := false; row_battery_percentage := 100;
           row_missions_completed := 50; current_location_lat := None;
           current_location_lng := None |};
        {| row_id := 3; row_available := true; row_battery_percentage := 90;
           row_missions_completed := 5; current_location_lat := None;
           current_location_lng := None |} ] [] 20 = Ret (Some best)
    /\ row_id best = 3%Z /\ row_available best = true.
Proof.
  destruct (best_drone_is_suitable
              [ {| row_id := 1; row_available := true;
                   row_battery_percentage := 60; row_missions_completed := 5;
                   current_location_lat := None;
                   current_location_lng := None |};
                {| row_id := 2; row_available := false;
                   row_battery_percentage := 100;
                   row_missions_completed := 50;
                   current_location_lat := None;
                   current_location_lng := None |};
                {| row_id := 3; row_available := true;
                   row_battery_percentage := 90; row_missions_completed := 5;
                   current_location_lat := None;
                   current_location_lng := None |} ] [] 20
              {| row_id := 3; row_available := true;
                 row_battery_percentage := 90; row_missions_completed := 5;
                 current_location_lat := None;
                 current_location_lng := None |})
    as (_ & Hav & _); [vm_compute; reflexivity|].
  eexists. split; [vm_compute; reflexivity|]. split; [reflexivity|exact Hav].
Defined.

End PlannerProperties.

(** ** [app/core/error_handling.py]: the circuit breaker *)

Module CircuitBreakerProperties.
Import ErrorHandling.

Section Breaker.
Context {W R : Type}.
Variable clock : W -> Q.
Variable func_name : string.

Abbreviation Callable := (@Callable W R).

(** A call that goes through and returns closes the breaker: whatever the
    count was, it is 0 again, and the result and the world are those of the
    wrapped function. *)
Theorem success_closes_breaker (func : Callable) (cb : CircuitBreaker)
        (w w' : W) (r : R) :
  func w = (Ret r, w') ->
  state cb <> "OPEN" \/ _should_attempt_reset cb (clock w) = true ->
  exists cb',
    wrapper clock func_name func cb w = (Ret r, cb', w')
    /\ state cb' = "CLOSED"
    /\ failure_count cb' = 0
    /\ failure_threshold cb' = failure_threshold cb
    /\ recovery_timeout cb' = recovery_timeout cb.
Proof.
  intros Hf Hgo. unfold wrapper.
  destruct (String.eqb_spec (state cb) "OPEN") as [Hs|Hs].
  - destruct Hgo as [Hgo|Hgo]; [contradiction|]. rewrite Hgo, Hf.
    eexists. split; [reflexivity|]. repeat split.
  - rewrite Hf. eexists. split; [reflexivity|]. repeat split.
Qed.

(** A failure of the probing call re-opens the breaker: the call runs
    because the recovery time has passed, what it raises is raised again,
    the count goes up and the time of the last failure is the time after
    the call. *)
Theorem half_open_failure_reopens (func : Callable) (cb : CircuitBreaker)
        (w w' : W) (e : PyExc) :
  state cb = "OPEN" ->
  _should_attempt_reset cb (clock w) = true ->
  func w = (Raise e, w') ->
  expected_exception cb e = true ->
  failure_threshold cb <= failure_count cb + 1 ->
  exists cb',
    wrapper clock func_name func cb w = (Raise e, cb', w')
    /\ state cb' = "OPEN"
    /\ failure_count cb' = failure_count cb + 1
    /\ last_failure_time cb' = Some (clock w').
Proof.
  intros Hs Hgo Hf He Hc. unfold wrapper.
  rewrite Hs. cbn [String.eqb Ascii.eqb Bool.eqb]. rewrite Hgo, Hf.
  cbn [with_state expected_exception]. rewrite He.
  eexists. split; [reflexivity|].
  cbn [_on_failure with_state state failure_count last_failure_time
       failure_threshold].
  replace (failure_count cb + 1 >=? failure_threshold cb) with true
    by (symmetry; apply Z.geb_le; lia).
  repeat split.
Qed.

(** An exception that is not of the expected class goes past the breaker:
    it is raised again and neither the count nor the time of the last
    failure changes.  When the call was the probe of an open breaker, the
    breaker is left half-open. *)
Theorem unexpected_exception_is_not_counted (func : Callable)
        (cb : CircuitBreaker) (w w' : W) (e : PyExc) :
  func w = (Raise e, w') ->
  expected_exception cb e = false ->
  state cb <> "OPEN" \/ _should_attempt_reset cb (clock w) = true ->
  exists cb',
    wrapper clock func_name func cb w = (Raise e, cb', w')
    /\ failure_count cb' = failure_count cb
    /\ last_failure_time cb' = last_failure_time cb
    /\ state cb' = (if String.eqb (state cb) "OPEN" then "HALF_OPEN"
                    else state cb).
Proof.
  intros Hf He Hgo. unfold wrapper.
  destruct (String.eqb_spec (state cb) "OPEN") as [Hs|Hs].
  - destruct Hgo as [Hgo|Hgo]; [contradiction|]. rewrite Hgo, Hf.
    cbn [with_state expected_exception]. rewrite He.
    eexists. split; [reflexivity|]. repeat split.
  - rewrite Hf, He. eexists. split; [reflexivity|]. repeat split.
Qed.


End Breaker.


(** A service that answers. *)
Lemma success_closes_breaker_witness :
  exists cb',
    wrapper time "fetch"
      (fun w : Probe => (Ret 7%Z, w))
      {| failure_threshold := 5; recovery_timeout := 60;
         expected_exception := Exception; failure_count := 5;
         last_failure_time := Some 1000%Q; state := "OPEN" |}
      {| invocations := 5; time := 1100 |}
    = (Ret 7%Z, cb', {| invocations := 5; time := 1100 |})
    /\ state cb' = "CLOSED" /\ failure_count cb' = 0.
Proof.
  destruct (success_closes_breaker time "fetch"
              (fun w : Probe => (Ret 7%Z, w))
              {| failure_threshold := 5; recovery_timeout := 60;
                 expected_exception := Exception; failure_count := 5;
                 last_failure_time := Some 1000%Q; state := "OPEN" |}
              {| invocations := 5; time := 1100 |}
              {| invocations := 5; time := 1100 |} 7%Z)
    as (cb' & E & Hs & Hc & _).
  - reflexivity.
  - right. vm_compute. reflexivity.
  - exists cb'. split; [exact E|]. split; [exact Hs|exact Hc].
Defined.

Lemma half_open_failure_reopens_witness :
  exists cb',
    wrapper time "fetch" unreachable_service
      {| failure_threshold := 5; recovery_timeout := 60;
         expected_exception := Exception; failure_count := 5;
         last_failure_time := Some 1000%Q; state := "OPEN" |}
      {| invocations := 5; time := 1100 |}
    = (Raise (OtherException "connection refused"), cb',
       {| invocations := 6; time := (1100 + 1)%Q |})
    /\ state cb' = "OPEN" /\ failure_count cb' = 6.
Proof.
  destruct (half_open_failure_reopens time "fetch" unreachable_service
              {| failure_threshold := 5; recovery_timeout := 60;
                 expected_exception := Exception; failure_count := 5;
                 last_failure_time := Some 1000%Q; state := "OPEN" |}
              {| invocations := 5; time := 1100 |}
              {| invocations := 6; time := (1100 + 1)%Q |}
              (OtherException "connection refused"))
    as (cb' & E & Hs & Hc & _).
  - reflexivity.
  - vm_compute. reflexivity.
  - reflexivity.
  - reflexivity.
  - cbn. lia.
  - exists cb'. split; [exact E|]. split; [exact Hs|exact Hc].
Defined.

(** A breaker that expects [ValueError] only, and a service that raises
    something else. *)
Lemma unexpected_exception_is_not_counted_witness :
  exists cb',
    wrapper time "fetch" unreachable_service
      {| failure_threshold := 5; recovery_timeout := 60;
         expected_exception :=
           (fun e => match e with ValueError _ => true | _ => false end);
         failure_count := 4; last_failure_time := Some 1000%Q;
         state := "CLOSED" |}
      {| invocations := 4; time := 1100 |}
    = (Raise (OtherException "connection refused"), cb',
       {| invocations := 5; time := (1100 + 1)%Q |})
    /\ failure_count cb' = 4 /\ state cb' = "CLOSED".
Proof.
  destruct (unexpected_exception_is_not_counted time "fetch"
              unreachable_service
              {| failure_threshold := 5; recovery_timeout := 60;
                 expected_exception :=
                   (fun e => match e with
                             | ValueError _ => true
                             | _ => false
                             end);
                 failure_count := 4; last_failure_time := Some 1000%Q;
                 state := "CLOSED" |}
              {| invocations := 4; time := 1100 |}
              {| invocations := 5; time := (1100 + 1)%Q |}
              (OtherException "connection refused"))
    as (cb' & E & Hc & _ & Hs).
  - reflexivity.
  - reflexivity.
  - left. discriminate.
  - exists cb'. split; [exact E|]. split; [exact Hc|exact Hs].
Defined.

End CircuitBreakerProperties.

(** ** Dictionaries used as tallies *)

Module TallyFacts.
Import Tally.

Lemma dict_get_set {V} (d : list (string * V)) (k : string) (v : V)
      (k' : string) :
  dict_get (dict_set d k v) k'
  = if String.eqb k' k then Some v else dict_get d k'.
Proof.
  induction d as [|[k0 v0] d IH]; cbn [dict_set dict_get].
  - reflexivity.
  - destruct (String.eqb_spec k k0) as [->|Hk]; cbn [dict_get].
    + destruct (String.eqb_spec k' k0); reflexivity.
    + rewrite IH. destruct (String.eqb_spec k' k0) as [->|Hk'];
        [|reflexivity].
      destruct (String.eqb_spec k0 k) as [->|]; [contradiction|reflexivity].
Qed.

Lemma total_set (d : list (string * Z)) (k : string) (v : Z) :
  total (dict_set d k v) = total d - default 0 (dict_get d k) + v.
Proof.
  unfold total. induction d as [|[k0 v0] d IH]; cbn [dict_set dict_get].
  - cbn. lia.
  - destruct (String.eqb_spec k k0) as [->|Hk]; cbn [map snd fold_right].
    + cbn. lia.
    + rewrite IH. lia.
Qed.

Lemma occurrences_snoc {A} (key : A -> string) (k : string) (xs : list A)
      (x : A) :
  occurrences key k (xs ++ [x])
  = occurrences key k xs + (if String.eqb (key x) k then 1 else 0).
Proof.
  unfold occurrences. rewrite List.filter_app, List.length_app.
  cbn [List.filter]. destruct (String.eqb (key x) k); cbn [length]; lia.
Qed.

Lemma occurrences_nonneg {A} (key : A -> string) (k : string) (xs : list A) :
  0 <= occurrences key k xs.
Proof. unfold occurrences. lia. Qed.

End TallyFacts.

(** ** [app/core/error_handling.py]: the error handler's bookkeeping *)

Module ErrorMetricsProperties.
Import Tally TallyFacts ErrorMetrics.

Lemma handle_all_snoc (errors : list AppError) (error : AppError) :
  handle_all (errors ++ [error])
  = update_error_metrics (handle_all errors) error.
Proof. unfold handle_all. now rewrite fold_left_app. Qed.

Lemma last_items_length {A} (n : nat) (xs : list A) :
  length (last_items n xs) = Nat.min n (length xs).
Proof. unfold last_items. rewrite length_skipn. lia. Qed.

Lemma last_items_snoc {A} (n : nat) (xs : list A) (x : A) :
  (0 < n)%nat ->
  last_items n (xs ++ [x])
  = if (n <? length (last_items n xs ++ [x]))%nat
    then last_items n (last_items n xs ++ [x])
    else last_items n xs ++ [x].
Proof.
  intros Hn. rewrite List.length_app, last_items_length. cbn [length].
  unfold last_items. rewrite !List.length_app, length_skipn. cbn [length].
  destruct (Nat.ltb_spec n (Nat.min n (length xs) + 1)) as [Hlt|Hge].
  - assert (n <= length xs)%nat as Hlen by lia.
    rewrite !skipn_app, length_skipn, skipn_skipn.
    replace (length xs - (length xs - n) + 1 - n
             + (length xs - n))%nat with (length xs + 1 - n)%nat by lia.
    replace (length xs - (length xs - n) + 1 - n
             - (length xs - (length xs - n)))%nat with 0%nat by lia.
    replace (length xs + 1 - n - length xs)%nat with 0%nat by lia.
    reflexivity.
  - assert (length xs < n)%nat as Hlen by lia.
    replace (length xs + 1 - n)%nat with 0%nat by lia.
    replace (length xs - n)%nat with 0%nat by lia.
    reflexivity.
Qed.

(** After any sequence of errors the handler has counted them all and
    keeps exactly the hundred most recent ones, oldest first. *)
Theorem handler_keeps_last_hundred (errors : list AppError) :
  error_count (handle_all errors) = Z.of_nat (length errors)
  /\ last_errors (handle_all errors) = last_items 100 errors
  /\ (length (last_errors (handle_all errors)) <= 100)%nat.
Proof.
  assert (error_count (handle_all errors) = Z.of_nat (length errors)
          /\ last_errors (handle_all errors) = last_items 100 errors)
    as [Hc Hl].
  { induction errors as [|error errors IH] using rev_ind.
    - split; reflexivity.
    - destruct IH as [IHc IHl]. rewrite handle_all_snoc.
      unfold update_error_metrics. cbn [error_count last_errors].
      rewrite IHc, IHl. split.
      + rewrite List.length_app. cbn [length]. lia.
      + symmetry. apply last_items_snoc. lia. }
  split; [exact Hc|]. split; [exact Hl|].
  rewrite Hl, last_items_length. lia.
Qed.

Lemma tally_snoc {A} (key : A -> string) (xs : list A) (x : A) :
  fold_left (fun d y => count_one d (key y)) (xs ++ [x]) []
  = count_one (fold_left (fun d y => count_one d (key y)) xs []) (key x).
Proof. now rewrite fold_left_app. Qed.

Lemma total_count_one (d : list (string * Z)) (k : string) :
  total (count_one d k) = total d + 1.
Proof. unfold count_one. rewrite total_set. lia. Qed.

Lemma get_count_one (d : list (string * Z)) (k k' : string) :
  default 0 (dict_get (count_one d k) k')
  = default 0 (dict_get d k') + (if String.eqb k k' then 1 else 0).
Proof.
  unfold count_one. rewrite dict_get_set, (String.eqb_sym k' k).
  destruct (String.eqb_spec k k') as [->|Hne]; unfold default; cbn [from_option id]; lia.
Qed.

Lemma tally_counts {A} (key : A -> string) (xs : list A) :
  let tally := fold_left (fun d y => count_one d (key y)) xs [] in
  total tally = Z.of_nat (length xs)
  /\ forall k, default 0 (dict_get tally k) = occurrences key k xs.
Proof.
  cbv zeta. induction xs as [|x xs IH] using rev_ind.
  - split; [reflexivity|]. intros k. reflexivity.
  - destruct IH as [IHt IHk]. rewrite tally_snoc. split.
    + rewrite total_count_one, IHt, List.length_app. cbn [length]. lia.
    + intros k. rewrite get_count_one, occurrences_snoc, IHk. reflexivity.
Qed.

(** The statistics are consistent with the errors kept: the counts by
    category and the counts by severity each add up to [recent_errors],
    and each count is the number of kept errors of that category or
    severity. *)
Theorem statistics_count_recent_errors (self : ErrorHandler)
        (stats : ErrorStatistics) :
  get_error_statistics self = Some stats ->
  recent_errors stats = length (last_errors self)
  /\ total (categories stats) = Z.of_nat (recent_errors stats)
  /\ total (severities stats) = Z.of_nat (recent_errors stats)
  /\ (forall k, default 0 (dict_get (categories stats) k)
                = occurrences category k (last_errors self))
  /\ (forall k, default 0 (dict_get (severities stats) k)
                = occurrences severity k (last_errors self)).
Proof.
  unfold get_error_statistics. intros E.
  destruct (last_errors self) as [|e0 rest] eqn:El; [discriminate|].
  injection E as <-.
  cbn [recent_errors categories severities].
  destruct (tally_counts category (e0 :: rest)) as [Hct Hck].
  destruct (tally_counts severity (e0 :: rest)) as [Hst Hsk].
  split; [reflexivity|]. split; [exact Hct|]. split; [exact Hst|].
  split; [exact Hck|exact Hsk].
Qed.

(** Two validation errors and a database error. *)
Lemma statistics_count_recent_errors_witness :
  exists stats,
    get_error_statistics
      (handle_all
         [ {| category := "validation"; severity := "low"; timestamp := 1 |};
           {| category := "database"; severity := "high"; timestamp := 2 |};
           {| category := "validation"; severity := "low"; timestamp := 3 |} ])
    = Some stats
    /\ total (categories stats) = 3
    /\ default 0 (dict_get (categories stats) "validation") = 2.
Proof.
  destruct (get_error_statistics
      (handle_all
         [ {| category := "validation"; severity := "low"; timestamp := 1 |};
           {| category := "database"; severity := "high"; timestamp := 2 |};
           {| category := "validation"; severity := "low"; timestamp := 3 |} ]))
    as [stats|] eqn:E; [|vm_compute in E; discriminate E].
  destruct (statistics_count_recent_errors _ stats E)
    as (Hr & Hc & _ & Hk & _).
  exists stats. split; [reflexivity|]. split.
  - rewrite Hc, Hr. vm_compute. reflexivity.
  - rewrite Hk. vm_compute. reflexivity.
Defined.

End ErrorMetricsProperties.

(** ** Rounding keeps a value between two integers *)

Lemma Qround_half_even_bounds (x : Q) (a b : Z) :
  (inject_Z a <= x <= inject_Z b)%Q ->
  (a <= Qround_half_even x <= b)%Z.
Proof.
  intros [Ha Hb]. unfold Qround_half_even. cbv zeta.
  pose proof (Qfloor_le x) as Hf. pose proof (Qlt_floor x) as Hc.
  assert (a <= Qfloor x)%Z as Hlow.
  { assert (inject_Z a < inject_Z (Qfloor x + 1))%Q as Hlt by lra.
    rewrite <- Zlt_Qlt in Hlt. lia. }
  assert (Qfloor x <= b)%Z as Hup.
  { rewrite Zle_Qle. lra. }
  assert ((1 # 2 <= x - inject_Z (Qfloor x))%Q -> (Qfloor x + 1 <= b)%Z)
    as Hhalf.
  { intros Hr.
    assert (inject_Z (Qfloor x) < inject_Z b)%Q as Hlt by lra.
    rewrite <- Zlt_Qlt in Hlt. lia. }
  unfold Qltb.
  destruct (Qle_bool (1 # 2) (x - inject_Z (Qfloor x))) eqn:E1;
    cbn [negb]; [|lia].
  apply Qle_bool_iff in E1. specialize (Hhalf E1).
  destruct (Qle_bool (x - inject_Z (Qfloor x)) (1 # 2)); cbn [negb];
    [|lia].
  destruct (Z.even (Qfloor x)); lia.
Qed.

Lemma py_round_bounds (x : Q) (a b : Z) (ndigits : nat) :
  (inject_Z a <= x <= inject_Z b)%Q ->
  (inject_Z a <= py_round x ndigits <= inject_Z b)%Q.
Proof.
  intros [Ha Hb]. unfold py_round. cbv zeta.
  set (s := (10 ^ Z.of_nat ndigits)%Z).
  assert (0 < s)%Z as Hs by (unfold s; apply Z.pow_pos_nonneg; lia).
  assert (0 < inject_Z s)%Q as Hq.
  { change 0%Q with (inject_Z 0). rewrite <- Zlt_Qlt. exact Hs. }
  destruct (Qround_half_even_bounds (x * inject_Z s) (a * s) (b * s))
    as [Hlow Hup].
  { rewrite !inject_Z_mult. split; apply Qmult_le_compat_r; lra. }
  split.
  - apply Qle_shift_div_l; [exact Hq|].
    rewrite <- inject_Z_mult, <- Zle_Qle. exact Hlow.
  - apply Qle_shift_div_r; [exact Hq|].
    rewrite <- inject_Z_mult, <- Zle_Qle. exact Hup.
Qed.

Lemma py_round_ge (x : Q) (a : Z) (ndigits : nat) :
  (inject_Z a <= x)%Q -> (inject_Z a <= py_round x ndigits)%Q.
Proof.
  intros Ha. apply (py_round_bounds x a (Qceiling x) ndigits).
  split; [exact Ha|apply Qle_ceiling].
Qed.

(** ** [app/blueprints/drones.py]: the fleet health score *)

Module FleetHealthProperties.
Import Models DronesApi.

Lemma drone_health_score_range (now : Q) (drone : Drone) :
  (25 <= drone_health_score now drone <= 100)%Q.
Proof.
  unfold drone_health_score. cbv zeta.
  destruct (is_battery_critical drone), (is_battery_low drone),
    (drone_status drone), (last_seen drone) as [seen|];
    try (generalize ((now - seen) / 3600)%Q; intros hours_since_seen;
         unfold Qgtb, Qltb;
         destruct (Qle_bool hours_since_seen 24),
           (Qle_bool hours_since_seen 1); cbn [negb]);
    q_compare; lra.
Qed.

Lemma total_score_range (now : Q) (drones : list Drone) : forall total,
  let n := inject_Z (Z.of_nat (length drones)) in
  (total + 25 * n
   <= fold_left (fun total drone => (total + drone_health_score now drone)%Q)
                drones total
   <= total + 100 * n)%Q.
Proof.
  cbv zeta. induction drones as [|drone rest IH]; intros total.
  - cbn [fold_left length]. change (inject_Z (Z.of_nat 0)) with 0%Q. lra.
  - cbn [fold_left length]. rewrite Nat2Z.inj_succ. unfold Z.succ.
    rewrite inject_Z_plus. change (inject_Z 1) with 1%Q.
    pose proof (drone_health_score_range now drone) as Hd.
    specialize (IH (total + drone_health_score now drone)%Q).
    lra.
Qed.

(** The health score of an empty fleet is 0; the score of any other fleet
    lies between 25 and 100, because no drone loses more than 75 points:
    the clamp [max(0.0, drone_score)] never applies. *)
Theorem fleet_health_score_range (now : Q) :
  calculate_fleet_health_score now [] = 0%Q
  /\ forall drone rest,
       (25 <= calculate_fleet_health_score now (drone :: rest) <= 100)%Q
       /\ (25 <= drone_health_score now drone <= 100)%Q.
Proof.
  split; [reflexivity|]. intros drone rest.
  split; [|apply drone_health_score_range].
  unfold calculate_fleet_health_score. cbv zeta.
  set (drones := drone :: rest).
  pose proof (total_score_range now drones 0) as Ht. cbv zeta in Ht.
  set (total := fold_left _ drones 0%Q) in *.
  set (n := inject_Z (Z.of_nat (length drones))) in *.
  assert (0 < n)%Q as Hn.
  { unfold n, drones. cbn [length]. rewrite Nat2Z.inj_succ. unfold Z.succ.
    rewrite inject_Z_plus. change (inject_Z 1) with 1%Q.
    assert (0 <= inject_Z (Z.of_nat (length rest)))%Q; [|lra].
    change 0%Q with (inject_Z 0). rewrite <- Zle_Qle. lia. }
  apply (py_round_bounds (total / n) 25 100 1). split.
  - apply Qle_shift_div_l; [exact Hn|]. change (inject_Z 25) with 25%Q. lra.
  - apply Qle_shift_div_r; [exact Hn|]. change (inject_Z 100) with 100%Q. lra.
Qed.

End FleetHealthProperties.

(** ** [app/services/ai_mission_optimizer.py]: terrain, weather, patterns *)

Module MissionOptimizerProperties.
Import Py Models DroneSelection MissionOptimizer.

Ltac q_minmax := unfold py_max2, py_min2 in *; q_compare; try lra.

Lemma py_max2_ge (a b : Q) : (a <= py_max2 a b /\ b <= py_max2 a b)%Q.
Proof. split; q_minmax. Qed.

Lemma fold_py_max2_ge (xs : list Q) : forall m,
  (m <= fold_left py_max2 xs m)%Q
  /\ forall x, In x xs -> (x <= fold_left py_max2 xs m)%Q.
Proof.
  induction xs as [|y xs IH]; intros m; cbn [fold_left].
  - split; [lra|intros x []].
  - destruct (IH (py_max2 m y)) as [H1 H2].
    destruct (py_max2_ge m y) as [Hm Hy].
    split; [lra|]. intros x [<-|Hx]; [lra|auto].
Qed.

Lemma py_max_default_ge (xs : list Q) (x : Q) :
  In x xs -> (x <= py_max_default xs)%Q.
Proof.
  destruct xs as [|y rest]; [intros []|]. cbn [py_max_default].
  destruct (fold_py_max2_ge rest y) as [H1 H2].
  intros [<-|Hx]; [exact H1|auto].
Qed.

(** *** Altitude *)

(** The recommended altitude never exceeds the legal limit of 400 m.  When
    it is below the limit, it is at least the base altitude with the
    terrain adjustment and clears every obstacle by 20 m; an obstacle that
    would need more than 400 m is not cleared. *)
Theorem optimal_altitude_limits (terrain_complexity : Q)
        (obstacles : list Obstacle) :
  let altitude := calculate_optimal_altitude terrain_complexity obstacles in
  (altitude <= 400)%Q
  /\ ((altitude < 400)%Q ->
      (100 + terrain_complexity * (5 # 10) <= altitude)%Q
      /\ forall obs h,
           In obs obstacles -> height obs = Some h ->
           (h + 20 <= altitude)%Q).
Proof.
  cbv zeta. unfold calculate_optimal_altitude. cbv zeta.
  set (heights := map (fun obs => default 0%Q (height obs)) obstacles).
  set (base := (100 + terrain_complexity * (5 # 10))%Q).
  assert (forall obs h, In obs obstacles -> height obs = Some h ->
                        (h <= py_max_default heights)%Q) as Hmax.
  { intros obs h Hin Hh. apply py_max_default_ge. unfold heights.
    apply in_map_iff. exists obs. split; [|exact Hin]. now rewrite Hh. }
  generalize dependent (py_max_default heights). intros top Hmax.
  split; [q_minmax|]. intros Hlt. split.
  - revert Hlt. q_minmax.
  - intros obs h Hin Hh. specialize (Hmax obs h Hin Hh).
    revert Hlt. q_minmax.
Qed.

(** A 60 m tower under moderately complex terrain. *)
Lemma optimal_altitude_limits_witness :
  let tower := {| obstacle_id := "obstacle_0"; obstacle_type := "tower";
                  obstacle_coordinates := (77 # 1, 12 # 1);
                  height := Some 60%Q; severity := "medium" |} in
  (60 + 20 <= calculate_optimal_altitude 40 [tower])%Q
  /\ (calculate_optimal_altitude 40 [tower] <= 400)%Q.
Proof.
  cbv zeta.
  destruct (optimal_altitude_limits 40
              [ {| obstacle_id := "obstacle_0"; obstacle_type := "tower";
                   obstacle_coordinates := (77 # 1, 12 # 1);
                   height := Some 60%Q; severity := "medium" |} ])
    as [Hmax Hclear].
  split; [|exact Hmax].
  destruct Hclear as [_ Hclear]; [vm_compute; reflexivity|].
  eapply Hclear; [left; reflexivity|reflexivity].
Defined.

(** *** Weather *)

Lemma uniform_range (random : nat -> Q) (k : nat) (a b : Q) :
  unit_draws random -> (a <= b)%Q ->
  (a <= fst (uniform random k a b) <= b)%Q
  /\ snd (uniform random k a b) = S k.
Proof.
  intros Hr Hab. unfold uniform. cbn [fst snd]. split; [|reflexivity].
  destruct (Hr k) as [H0 H1]. generalize dependent (random k). intros r H0 H1.
  assert (0 <= (b - a) * r)%Q as Hlow.
  { apply Qmult_le_0_compat; lra. }
  assert ((b - a) * r <= (b - a) * 1)%Q as Hup.
  { rewrite (Qmult_comm (b - a) r), (Qmult_comm (b - a) 1).
    apply Qmult_le_compat_r; lra. }
  lra.
Qed.

(** The weather impact score lies between 0 and 100, seven draws are
    consumed, and the weather data has a wind speed between 0 and 25, so
    [_select_adaptive_pattern] finds the entry it reads. *)
Theorem weather_impact_score_range (random : nat -> Q) (k : nat) :
  unit_draws random ->
  let out := get_weather_impact_score random k in
  (0 <= fst (fst out) <= 100)%Q
  /\ snd out = (k + 7)%nat
  /\ exists wind_speed,
       dict_get (snd (fst out)) "wind_speed" = Some wind_speed
       /\ (0 <= wind_speed <= 25)%Q.
Proof.
  intros Hr. cbv zeta. unfold get_weather_impact_score.
  destruct (uniform random k 0 25) as [wind_speed k1] eqn:E1.
  destruct (uniform random k1 0 360) as [wind_direction k2] eqn:E2.
  destruct (uniform random k2 1 10) as [visibility k3] eqn:E3.
  destruct (uniform random k3 0 10) as [precipitation k4] eqn:E4.
  destruct (uniform random k4 (-10) 40) as [temperature k5] eqn:E5.
  destruct (uniform random k5 980 1030) as [pressure k6] eqn:E6.
  destruct (uniform random k6 30 95) as [humidity k7] eqn:E7.
  cbn [fst snd].
  pose proof (uniform_range random k 0 25 Hr ltac:(lra)) as [Hw K1].
  pose proof (uniform_range random k2 1 10 Hr ltac:(lra)) as [Hv K3].
  pose proof (uniform_range random k3 0 10 Hr ltac:(lra)) as [Hp K4].
  pose proof (uniform_range random k1 0 360 Hr ltac:(lra)) as [_ K2].
  pose proof (uniform_range random k4 (-10) 40 Hr ltac:(lra)) as [_ K5].
  pose proof (uniform_range random k5 980 1030 Hr ltac:(lra)) as [_ K6].
  pose proof (uniform_range random k6 30 95 Hr ltac:(lra)) as [_ K7].
  rewrite E1 in Hw, K1. rewrite E2 in K2. rewrite E3 in Hv, K3.
  rewrite E4 in Hp, K4. rewrite E5 in K5. rewrite E6 in K6. rewrite E7 in K7.
  cbn [fst snd] in *.
  split; [|split].
  - clear E1 E2 E3 E4 E5 E6 E7.
    destruct (Qltb temperature 0 || Qgtb temperature 35);
      split; q_minmax.
  - lia.
  - exists wind_speed. split; [reflexivity|exact Hw].
Qed.

Lemma weather_impact_score_range_witness :
  let out := get_weather_impact_score (fun _ => 1 # 2) 0 in
  (0 <= fst (fst out) <= 100)%Q /\ snd out = 7%nat.
Proof.
  cbv zeta.
  destruct (weather_impact_score_range (fun _ => 1 # 2) 0) as (Hs & Hk & _).
  - intros k. split; discriminate.
  - split; [exact Hs|exact Hk].
Defined.

(** *** Patterns *)

(** [_select_adaptive_pattern] reads the wind speed whatever the terrain:
    without it the call raises [KeyError]; with it the call returns one of
    the five patterns [_calculate_efficiency] has a base efficiency for,
    and [ai_adaptive] only for terrain of complexity at most 70 and wind
    of at most 20 km/h. *)
Theorem adaptive_pattern_is_known (terrain_complexity : Q)
        (weather_data : list (string * Q)) (requirements : PyDict) :
  match dict_get weather_data "wind_speed" with
  | None =>
      _select_adaptive_pattern terrain_complexity weather_data requirements
      = Raise (KeyError "wind_speed")
  | Some wind_speed =>
      exists pattern,
        _select_adaptive_pattern terrain_complexity weather_data requirements
        = Ret pattern
        /\ dict_has base_efficiencies pattern = true
        /\ (pattern = "ai_adaptive" <->
            (terrain_complexity <= 70)%Q /\ (wind_speed <= 20)%Q
            /\ priority_is_speed requirements = false)
  end.
Proof.
  unfold _select_adaptive_pattern, item.
  destruct (dict_get weather_data "wind_speed") as [wind_speed|];
    [|destruct (Qgtb terrain_complexity 70); reflexivity].
  cbn [Py.bind].
  destruct (priority_is_speed requirements); q_compare;
    eexists; (split; [reflexivity|]); (split; [reflexivity|]);
    split; try discriminate; try (intros (? & ? & ?)); try lra;
    try discriminate; try reflexivity; intros _; repeat split; lra.
Qed.

Lemma base_efficiency_le (pattern_type : string) :
  (78 <= default 80%Q (dict_get base_efficiencies pattern_type) <= 92)%Q.
Proof.
  unfold base_efficiencies. cbn [dict_get].
  repeat match goal with
         | |- context [if String.eqb ?a ?b then _ else _] =>
             destruct (String.eqb a b)
         end; cbn; split; discriminate.
Qed.

(** The efficiency score is always between 60 and 100, and under the same
    conditions no pattern scores higher than [ai_adaptive]. *)
Theorem ai_adaptive_is_most_efficient (pattern_type : string)
        (terrain_complexity weather_impact : Q) :
  (60 <= _calculate_efficiency pattern_type terrain_complexity weather_impact
   <= 100)%Q
  /\ (_calculate_efficiency pattern_type terrain_complexity weather_impact
      <= _calculate_efficiency "ai_adaptive" terrain_complexity
                               weather_impact)%Q.
Proof.
  unfold _calculate_efficiency. cbv zeta.
  pose proof (base_efficiency_le pattern_type) as Hb.
  change (default 80%Q (dict_get base_efficiencies "ai_adaptive")) with 92%Q.
  generalize dependent (default 80%Q (dict_get base_efficiencies pattern_type)).
  intros base Hb.
  set (tp := (terrain_complexity * (2 # 10))%Q).
  set (wp := (weather_impact * (15 # 100))%Q).
  repeat split; q_minmax.
Qed.

(** The safety rating is always between 50 and 100, and one more obstacle
    never raises it. *)
Theorem safety_rating_range {A} (altitude : Q) (obstacle : A)
        (obstacles : list A) (weather_impact : Q) :
  (50 <= _calculate_safety_rating altitude obstacles weather_impact <= 100)%Q
  /\ (_calculate_safety_rating altitude (obstacle :: obstacles)
                               weather_impact
      <= _calculate_safety_rating altitude obstacles weather_impact)%Q.
Proof.
  unfold _calculate_safety_rating. cbv zeta. cbn [length].
  rewrite Nat2Z.inj_succ. unfold Z.succ.
  rewrite Z.mul_add_distr_r, inject_Z_plus.
  change (inject_Z (1 * 3)) with 3%Q.
  generalize (inject_Z (Z.of_nat (length obstacles) * 3)). intros penalty.
  generalize (if Qle_bool 80 altitude && Qle_bool altitude 200 then 5%Q
              else if Qle_bool 50 altitude && Qle_bool altitude 300
                   then 0%Q else (-10)%Q).
  intros bonus.
  set (wp := (weather_impact * (3 # 10))%Q).
  repeat split; q_minmax.
Qed.

End MissionOptimizerProperties.

(** ** [app/services/ai_mission_optimizer.py]: the choice of a drone *)

Module OptimalDroneProperties.
Import Py Models DroneSelection MissionOptimizer.
Import MissionOptimizerProperties.

Lemma DroneStatus_eqb_eq (a b : DroneStatus) :
  DroneStatus_eqb a b = true <-> a = b.
Proof. destruct a, b; cbn; split; congruence. Qed.

Lemma weighted_total_six (b a p e m w : Q) :
  (weighted_total
     [ ("battery_level", b); ("availability", a); ("proximity", p);
       ("mission_experience", e); ("maintenance_status", m);
       ("weather_suitability", w) ]
   == b * (25 # 100) + a * (30 # 100) + p * (15 # 100) + e * (15 # 100)
      + m * (10 # 100) + w * (5 # 100))%Q.
Proof.
  unfold weighted_total. cbn [map fst fold_left]. unfold factor, weights.
  cbn [dict_get String.eqb Ascii.eqb Bool.eqb default from_option id].
  ring.
Qed.

(** What a score is made of: the battery, 100 or 0 for the availability,
    and four factors within the ranges of their draws (the proximity is 50
    for a drone without a position). *)
Lemma score_shape (random : nat -> Q) (k : nat) (drone_id : Z)
      (drone : Drone) (mission_requirements : PyDict) :
  let score := fst (score_drone_for_mission random k drone_id drone
                                            mission_requirements) in
  exists p e m w,
    factors score
    = [ ("battery_level", battery_percentage drone);
        ("availability",
         if DroneStatus_eqb (drone_status drone) AVAILABLE
         then 100%Q else 0%Q);
        ("proximity", p); ("mission_experience", e);
        ("maintenance_status", m); ("weather_suitability", w) ]
    /\ recommendation score
       = fst (recommendation_band (weighted_total (factors score)))
    /\ total_score score = py_round (weighted_total (factors score)) 2
    /\ score_drone_id score = drone_id
    /\ score_drone_name score = drone_name drone
    /\ (unit_draws random ->
        (50 <= p <= 95)%Q /\ (70 <= e <= 95)%Q /\ (80 <= m <= 98)%Q
        /\ (75 <= w <= 95)%Q).
Proof.
  cbv zeta. unfold score_drone_for_mission.
  destruct (located (drone_latitude drone) (drone_longitude drone)).
  - destruct (uniform random k 60 95) as [p k1] eqn:E1.
    destruct (uniform random k1 70 95) as [e k2] eqn:E2.
    destruct (uniform random k2 80 98) as [m k3] eqn:E3.
    destruct (uniform random k3 75 95) as [w k4] eqn:E4.
    cbn [fst snd app factors recommendation total_score score_drone_id
         score_drone_name].
    exists p, e, m, w. repeat split; try reflexivity.
    all: pose proof (uniform_range random k 60 95 H ltac:(lra)) as [Hp _];
      pose proof (uniform_range random k1 70 95 H ltac:(lra)) as [He _];
      pose proof (uniform_range random k2 80 98 H ltac:(lra)) as [Hm _];
      pose proof (uniform_range random k3 75 95 H ltac:(lra)) as [Hw _];
      rewrite E1 in Hp; rewrite E2 in He; rewrite E3 in Hm;
      rewrite E4 in Hw; cbn [fst] in *; lra.
  - destruct (uniform random k 70 95) as [e k2] eqn:E2.
    destruct (uniform random k2 80 98) as [m k3] eqn:E3.
    destruct (uniform random k3 75 95) as [w k4] eqn:E4.
    cbn [fst snd app factors recommendation total_score score_drone_id
         score_drone_name].
    exists 50%Q, e, m, w. repeat split; try reflexivity.
    all: try discriminate.
    all: pose proof (uniform_range random k 70 95 H ltac:(lra)) as [He _];
      pose proof (uniform_range random k2 80 98 H ltac:(lra)) as [Hm _];
      pose proof (uniform_range random k3 75 95 H ltac:(lra)) as [Hw _];
      rewrite E2 in He; rewrite E3 in Hm;
      rewrite E4 in Hw; cbn [fst] in *; lra.
Qed.

Lemma band_of_total (t : Q) :
  ((55 < t)%Q -> fst (recommendation_band t) <> "Not Recommended")
  /\ ((t <= 70)%Q ->
      fst (recommendation_band t) = "Suitable with Cautions"
      \/ fst (recommendation_band t) = "Not Recommended").
Proof.
  unfold recommendation_band.
  split; intros Ht; q_compare; cbn [fst]; try discriminate; try lra; auto.
Qed.

(** The total of an available drone with a charge that is not negative is
    at least 59.75; the total of any other drone with a charge of at most
    100 is at most 68.05. *)
Lemma total_by_availability (random : nat -> Q) (k : nat) (drone_id : Z)
      (drone : Drone) (mission_requirements : PyDict) :
  unit_draws random ->
  let score := fst (score_drone_for_mission random k drone_id drone
                                            mission_requirements) in
  (drone_status drone = AVAILABLE ->
   (0 <= battery_percentage drone)%Q ->
   (5975 # 100 <= weighted_total (factors score))%Q
   /\ factor (factors score) "availability" = 100%Q)
  /\ (drone_status drone <> AVAILABLE ->
      factor (factors score) "availability" = 0%Q
      /\ ((battery_percentage drone <= 100)%Q ->
          (weighted_total (factors score) <= 6805 # 100)%Q)).
Proof.
  intros Hr. cbv zeta.
  destruct (score_shape random k drone_id drone mission_requirements)
    as (p & e & m & w & Ef & _ & _ & _ & _ & Hrange).
  destruct (Hrange Hr) as (Hp & He & Hm & Hw). rewrite Ef.
  rewrite weighted_total_six. split.
  - intros Hs Hb. rewrite Hs. cbn [DroneStatus_eqb].
    split; [lra|reflexivity].
  - intros Hs.
    destruct (DroneStatus_eqb (drone_status drone) AVAILABLE) eqn:E.
    + apply DroneStatus_eqb_eq in E. contradiction.
    + split; [reflexivity|]. intros Hb. lra.
Qed.

(** With draws between 0 and 1 and a charge between 0 and 100 %, the
    availability decides the recommendation: an available drone is never
    [Not Recommended], whatever its charge, and a drone that is not
    available is never recommended. *)
Theorem recommendation_follows_availability
        (random : nat -> Q) (k : nat) (drone_id : Z) (drone : Drone)
        (mission_requirements : PyDict) :
  unit_draws random ->
  (0 <= battery_percentage drone <= 100)%Q ->
  let score := fst (score_drone_for_mission random k drone_id drone
                                            mission_requirements) in
  if DroneStatus_eqb (drone_status drone) AVAILABLE
  then recommendation score <> "Not Recommended"
  else recommendation score = "Suitable with Cautions"
       \/ recommendation score = "Not Recommended".
Proof.
  intros Hr [Hb0 Hb1]. cbv zeta.
  destruct (total_by_availability random k drone_id drone
              mission_requirements Hr) as [Hav Hun].
  destruct (score_shape random k drone_id drone mission_requirements)
    as (_ & _ & _ & _ & _ & -> & _).
  destruct (DroneStatus_eqb (drone_status drone) AVAILABLE) eqn:E.
  - apply DroneStatus_eqb_eq in E. destruct (Hav E Hb0) as [Ht _].
    apply band_of_total. lra.
  - assert (drone_status drone <> AVAILABLE) as Hs.
    { intros Hs. apply DroneStatus_eqb_eq in Hs. congruence. }
    destruct (Hun Hs) as [_ Ht]. apply band_of_total.
    specialize (Ht Hb1). lra.
Qed.

(** A fully charged drone that is in maintenance. *)
Lemma recommendation_follows_availability_witness :
  let score :=
    fst (score_drone_for_mission (fun _ => 1%Q) 0 7
           {| drone_name := "Kite"; drone_model := "Surveyor X";
              drone_status := MAINTENANCE; battery_percentage := 100;
              drone_latitude := Some 12%Q; drone_longitude := Some 77%Q;
              drone_altitude := None; last_seen := None;
              missions_completed := 9 |} []) in
  recommendation score = "Suitable with Cautions"
  \/ recommendation score = "Not Recommended".
Proof.
  cbv zeta.
  apply (recommendation_follows_availability (fun _ => 1%Q) 0 7
           {| drone_name := "Kite"; drone_model := "Surveyor X";
              drone_status := MAINTENANCE; battery_percentage := 100;
              drone_latitude := Some 12%Q; drone_longitude := Some 77%Q;
              drone_altitude := None; last_seen := None;
              missions_completed := 9 |} []).
  - intros k. split; discriminate.
  - split; discriminate.
Defined.

(** *** The selection *)

Lemma score_each_In (random : nat -> Q) (mission_requirements : PyDict)
      (drones : list (Z * Drone)) : forall k,
  let scores := fst (score_each random k drones mission_requirements) in
  (forall drone_id drone,
      In (drone_id, drone) drones ->
      exists k', In (fst (score_drone_for_mission random k' drone_id drone
                                                  mission_requirements))
                    scores)
  /\ (forall score,
         In score scores ->
         exists drone_id drone k',
           In (drone_id, drone) drones
           /\ score = fst (score_drone_for_mission random k' drone_id drone
                                                   mission_requirements)).
Proof.
  cbv zeta. induction drones as [|[id0 d0] rest IH]; intros k.
  - split; [intros ? ? []|intros ? []].
  - cbn [score_each].
    destruct (score_drone_for_mission random k id0 d0 mission_requirements)
      as [s0 k1] eqn:E0.
    specialize (IH k1).
    destruct (score_each random k1 rest mission_requirements)
      as [scores k2].
    cbn [fst] in *. destruct IH as [IHl IHr]. split.
    + intros drone_id drone [Hin|Hin].
      * injection Hin as <- <-. exists k. rewrite E0. left. reflexivity.
      * destruct (IHl drone_id drone Hin) as [k' Hk']. exists k'.
        right. exact Hk'.
    + intros score [<-|Hin].
      * exists id0, d0, k. rewrite E0. split; [left|]; reflexivity.
      * destruct (IHr score Hin) as (drone_id & drone & k' & Hd & Hs).
        exists drone_id, drone, k'. split; [right; exact Hd|exact Hs].
Qed.

Lemma max_by_total_score_spec (rest : list DroneScore) : forall first,
  In (max_by_total_score first rest) (first :: rest)
  /\ forall score, In score (first :: rest) ->
                   (total_score score
                    <= total_score (max_by_total_score first rest))%Q.
Proof.
  unfold max_by_total_score.
  induction rest as [|x rest IH]; intros first; cbn [fold_left].
  - split; [left; reflexivity|]. intros score [<-|[]]. lra.
  - set (best := if Qgtb (total_score x) (total_score first)
                 then x else first).
    destruct (IH best) as [Hin Hge].
    assert ((best = x \/ best = first)
            /\ (total_score x <= total_score best)%Q
            /\ (total_score first <= total_score best)%Q) as (Hb & Hx & Hf).
    { unfold best. q_compare; repeat split; auto; lra. }
    split.
    + destruct Hin as [Hin|Hin].
      * rewrite <- Hin. destruct Hb as [->| ->]; cbn; auto.
      * right. right. exact Hin.
    + intros score [<-|[<-|Hs]].
      * pose proof (Hge best (or_introl eq_refl)). lra.
      * pose proof (Hge best (or_introl eq_refl)). lra.
      * apply Hge. right. exact Hs.
Qed.

Lemma suitable_iff_available (random : nat -> Q) (k : nat) (drone_id : Z)
      (drone : Drone) (mission_requirements : PyDict) :
  unit_draws random ->
  (0 <= battery_percentage drone)%Q ->
  let score := fst (score_drone_for_mission random k drone_id drone
                                            mission_requirements) in
  (Qgtb (total_score score) 50
   && Qgtb (factor (factors score) "availability") 0 = true
   <-> drone_status drone = AVAILABLE)
  /\ (factor (factors score) "availability" = 100%Q ->
      drone_status drone = AVAILABLE).
Proof.
  intros Hr Hb. cbv zeta.
  destruct (total_by_availability random k drone_id drone
              mission_requirements Hr) as [Hav Hun].
  destruct (score_shape random k drone_id drone mission_requirements)
    as (_ & _ & _ & _ & _ & _ & Et & _).
  destruct (DroneStatus_eqb (drone_status drone) AVAILABLE) eqn:Es.
  - apply DroneStatus_eqb_eq in Es.
    destruct (Hav Es Hb) as [Ht Ha]. rewrite Ha, Et.
    split; [|intros _; exact Es]. split; [intros _; exact Es|]. intros _.
    apply andb_true_intro. split; [|reflexivity]. apply Qltb_lt.
    pose proof (py_round_ge
                  (weighted_total
                     (factors (fst (score_drone_for_mission
                                      random k drone_id drone
                                      mission_requirements))))
                  59 2) as Hlow.
    change (inject_Z 59) with 59%Q in Hlow.
    assert (59 <= 5975 # 100)%Q by discriminate.
    apply Qlt_le_trans with (y := 59%Q); [reflexivity|].
    apply Hlow. lra.
  - assert (drone_status drone <> AVAILABLE) as Hs.
    { intros Hs. apply DroneStatus_eqb_eq in Hs. congruence. }
    destruct (Hun Hs) as [Ha _]. rewrite Ha. split.
    + split; [|contradiction]. intros E.
      apply andb_prop in E. destruct E as [_ E]. discriminate E.
    + intros E. discriminate E.
Qed.

(** With draws between 0 and 1 and no negative charge,
    [select_optimal_drone] returns [None] exactly when no drone is
    available; otherwise it returns the score of an available drone, and no
    available drone was scored higher: for an available drone the
    threshold of 50 never matters. *)
Theorem optimal_drone_is_available (random : nat -> Q) (k : nat)
        (drones : list (Z * Drone)) (mission_requirements : PyDict) :
  unit_draws random ->
  Forall (fun d => (0 <= battery_percentage (snd d))%Q) drones ->
  match fst (select_optimal_drone random k drones mission_requirements) with
  | None => Forall (fun d => drone_status (snd d) <> AVAILABLE) drones
  | Some best =>
      (exists drone_id drone,
          In (drone_id, drone) drones
          /\ drone_status drone = AVAILABLE
          /\ score_drone_id best = drone_id
          /\ score_drone_name best = drone_name drone)
      /\ forall score,
           In score (fst (score_each random k drones mission_requirements)) ->
           factor (factors score) "availability" = 100%Q ->
           (total_score score <= total_score best)%Q
  end.
Proof.
  intros Hr Hb. rewrite List.Forall_forall in Hb.
  unfold select_optimal_drone.
  destruct (score_each_In random mission_requirements drones k)
    as [Hl Hrt].
  destruct (score_each random k drones mission_requirements)
    as [scores k1]. cbn [fst] in Hl, Hrt |- *.
  set (suitable := fun score : DroneScore =>
                     Qgtb (total_score score) 50
                     && Qgtb (factor (factors score) "availability") 0).
  destruct (List.filter suitable scores) as [|first rest] eqn:Ef;
    cbn [fst].
  - apply List.Forall_forall. intros [drone_id drone] Hin. cbn [snd].
    intros Hs. destruct (Hl drone_id drone Hin) as [k' Hk'].
    destruct (suitable_iff_available random k' drone_id drone
                mission_requirements Hr (Hb _ Hin)) as [Hiff _].
    apply Hiff in Hs.
    assert (In (fst (score_drone_for_mission random k' drone_id drone
                                             mission_requirements))
               (List.filter suitable scores)) as Hf.
    { apply filter_In. split; [exact Hk'|exact Hs]. }
    rewrite Ef in Hf. destruct Hf.
  - destruct (max_by_total_score_spec rest first) as [Hin Hge].
    rewrite <- Ef in Hin, Hge. split.
    + apply filter_In in Hin. destruct Hin as [Hin Hs].
      destruct (Hrt _ Hin) as (drone_id & drone & k' & Hd & E).
      rewrite E in Hs |- *.
      destruct (suitable_iff_available random k' drone_id drone
                  mission_requirements Hr (Hb _ Hd)) as [Hiff _].
      destruct (score_shape random k' drone_id drone mission_requirements)
        as (_ & _ & _ & _ & _ & _ & _ & Eid & En & _).
      exists drone_id, drone. split; [exact Hd|].
      split; [apply Hiff; exact Hs|]. split; [exact Eid|exact En].
    + intros score Hs Ha. apply Hge. apply filter_In.
      split; [exact Hs|].
      destruct (Hrt _ Hs) as (drone_id & drone & k' & Hd & E).
      rewrite E in Ha |- *.
      destruct (suitable_iff_available random k' drone_id drone
                  mission_requirements Hr (Hb _ Hd)) as [Hiff Hav].
      apply Hiff, Hav, Ha.
Qed.

(** A fleet of two: one drone in maintenance, one available with an empty
    battery. *)
Lemma optimal_drone_is_available_witness :
  exists best,
    fst (select_optimal_drone (fun _ => 0%Q) 0
           [ (1%Z, {| drone_name := "Kite"; drone_model := "Surveyor X";
                      drone_status := MAINTENANCE;
                      battery_percentage := 100;
                      drone_latitude := Some 12%Q;
                      drone_longitude := Some 77%Q;
                      drone_altitude := None; last_seen := None;
                      missions_completed := 9 |});
             (2%Z, {| drone_name := "Swift"; drone_model := "Surveyor X";
                      drone_status := AVAILABLE;
                      battery_percentage := 0;
                      drone_latitude := None; drone_longitude := None;
                      drone_altitude := None; last_seen := None;
                      missions_completed := 0 |}) ] [])
    = Some best
    /\ score_drone_id best = 2%Z.
Proof.
  pose proof (optimal_drone_is_available (fun _ => 0%Q) 0
           [ (1%Z, {| drone_name := "Kite"; drone_model := "Surveyor X";
                      drone_status := MAINTENANCE;
                      battery_percentage := 100;
                      drone_latitude := Some 12%Q;
                      drone_longitude := Some 77%Q;
                      drone_altitude := None; last_seen := None;
                      missions_completed := 9 |});
             (2%Z, {| drone_name := "Swift"; drone_model := "Surveyor X";
                      drone_status := AVAILABLE;
                      battery_percentage := 0;
                      drone_latitude := None; drone_longitude := None;
                      drone_altitude := None; last_seen := None;
                      missions_completed := 0 |}) ] []) as Hsel.
  destruct (fst (select_optimal_drone _ _ _ _)) as [best|].
  - exists best. split; [reflexivity|].
    destruct Hsel as [(drone_id & drone & Hin & Hs & Eid & _) _].
    + intros k. split; discriminate.
    + repeat constructor; discriminate.
    + rewrite Eid. destruct Hin as [Hin|[Hin|[]]];
        injection Hin as <- <-; [discriminate Hs|reflexivity].
  - exfalso.
    assert (Forall (fun d : Z * Drone => drone_status (snd d) <> AVAILABLE)
              [ (1%Z, {| drone_name := "Kite"; drone_model := "Surveyor X";
                      drone_status := MAINTENANCE;
                      battery_percentage := 100;
                      drone_latitude := Some 12%Q;
                      drone_longitude := Some 77%Q;
                      drone_altitude := None; last_seen := None;
                      missions_completed := 9 |});
             (2%Z, {| drone_name := "Swift"; drone_model := "Surveyor X";
                      drone_status := AVAILABLE;
                      battery_percentage := 0;
                      drone_latitude := None; drone_longitude := None;
                      drone_altitude := None; last_seen := None;
                      missions_completed := 0 |}) ]) as Hall.
    { apply Hsel; [intros k; split; discriminate
                  |repeat constructor; discriminate]. }
    apply Forall_cons in Hall. destruct Hall as [_ Hall].
    apply Forall_cons in Hall. destruct Hall as [Hall _].
    apply Hall. reflexivity.
Defined.

End OptimalDroneProperties.

(** ** [simulator.py]: positions, batteries and idle passes *)

Module SimulatorProperties.
Import Models Simulator SimulatorVocabulary.





Section Flight.
Variable calculate_distance : Q -> Q -> Q -> Q -> Q.

Lemma advance_flight_battery (now : Q) (fs : FlightState) (db : Database)
      (mission : Mission) (drone : Drone) (waypoints : list Waypoint) :
  let fs' := snd (fst (fst (advance_flight calculate_distance now fs db
                                           mission drone waypoints))) in
  (- (15 # 10) <= Simulator.battery_percentage fs')%Q
  /\ ((last_update fs <= now)%Q ->
      (Simulator.battery_percentage fs'
       <= Qmax 0 (Simulator.battery_percentage fs))%Q).
Proof.
  cbv zeta. unfold advance_flight. cbv zeta.
  cbn [target_waypoint_index with_flight mission_id drone_id is_moving
       Simulator.battery_percentage current_lat current_lon current_alt
       last_update speed_mps emergency_landing current_waypoint_index].
  set (drain := if is_moving fs
                then (battery_consumption_rate / 60 * (now - last_update fs))%Q
                else (hover_battery_rate / 60 * (now - last_update fs))%Q).
  assert ((last_update fs <= now)%Q -> (0 <= drain)%Q) as Hdrain.
  { intros Hnow. unfold drain, battery_consumption_rate, hover_battery_rate.
    destruct (is_moving fs); q_div; lra. }
  generalize dependent drain. intros drain Hdrain.
  set (battery := Qmax 0 (Simulator.battery_percentage fs - drain)).
  assert (0 <= battery)%Q as Hlow by (unfold battery; apply Qmax_ge_l).
  assert ((last_update fs <= now)%Q ->
          (battery <= Qmax 0 (Simulator.battery_percentage fs))%Q) as Hup.
  { intros Hnow. specialize (Hdrain Hnow). unfold battery.
    q_compare; lra. }
  generalize dependent battery. intros battery Hlow Hup.
  unfold takeoff_landing_rate.
  destruct (nth_error waypoints (target_waypoint_index fs)) as [tw|].
  - destruct (Qle_bool _ 5).
    + destruct (String.eqb (waypoint_action tw) "takeoff");
        [|destruct (String.eqb (waypoint_action tw) "land");
          [|destruct (String.eqb (waypoint_action tw) "hover")]];
        cbn [fst snd with_flight Simulator.battery_percentage];
        (split; [lra|intros Hnow; specialize (Hup Hnow); lra]).
    + destruct (is_moving fs).
      * destruct (interpolate_position _ _ _ _ _ _) as [new_lat new_lon].
        cbn [fst snd with_flight Simulator.battery_percentage].
        split; [lra|exact Hup].
      * cbn [fst snd with_flight Simulator.battery_percentage].
        split; [lra|exact Hup].
  - cbn [fst snd with_flight Simulator.battery_percentage].
    split; [lra|exact Hup].
Qed.

(** One update of a flight never raises its battery, as long as the clock
    does not run backwards.  The drain is clamped at 0, but the cost of a
    takeoff or of a landing is not: the battery of a flight can be left
    negative, by at most 1.5. *)
Theorem update_never_charges (now : Q) (fs : FlightState) (db : Database) :
  (last_update fs <= now)%Q ->
  let fs' := snd (fst (fst (update_flight_state calculate_distance now fs
                                                db))) in
  (Simulator.battery_percentage fs'
   <= Qmax 0 (Simulator.battery_percentage fs))%Q
  /\ (Qmin (Simulator.battery_percentage fs) (- (15 # 10))
      <= Simulator.battery_percentage fs')%Q.
Proof.
  intros Hnow. cbv zeta. unfold update_flight_state.
  assert (Simulator.battery_percentage fs
          <= Qmax 0 (Simulator.battery_percentage fs))%Q as Hsame
      by apply Qmax_ge_r.
  assert (Qmin (Simulator.battery_percentage fs) (- (15 # 10))
          <= Simulator.battery_percentage fs)%Q as Hsame'
      by apply Qmin_le_l.
  destruct (missions db !! mission_id fs) as [mission|];
    [|split; assumption].
  destruct (drones db !! drone_id fs) as [drone|]; [|split; assumption].
  destruct (mission_waypoints db (mission_id fs)) as [|w ws];
    [split; assumption|].
  destruct (negb (MissionStatus_eqb (mission_status mission) IN_PROGRESS));
    [split; assumption|].
  destruct (Qle_bool (Simulator.battery_percentage fs) 5
            && negb (emergency_landing fs));
    [split; assumption|].
  destruct (advance_flight_battery now fs db mission drone (w :: ws))
    as [Hlow Hup].
  split; [exact (Hup Hnow)|].
  pose proof (Qmin_le_r (Simulator.battery_percentage fs) (- (15 # 10))).
  lra.
Qed.

Lemma no_active_missions (db : Database) :
  idle db -> get_active_missions db = [].
Proof.
  intros Hidle. unfold get_active_missions.
  assert (forall entry, In entry (map_to_list (missions db)) ->
                        missions db !! fst entry = Some (snd entry)) as Hin.
  { intros [m mission] H. apply list_elem_of_In in H.
    apply elem_of_map_to_list in H. exact H. }
  induction (map_to_list (missions db)) as [|[m mission] rest IH];
    [reflexivity|].
  cbn [List.filter].
  pose proof (Hin (m, mission) (or_introl eq_refl)) as Em. cbn in Em.
  specialize (Hidle m mission Em).
  destruct (mission_status mission); try contradiction;
    cbn [MissionStatus_eqb andb]; apply IH; intros e He; apply Hin;
    right; exact He.
Qed.

Lemma idle_update_flights (now : Q) (db : Database)
      (flights : Flights) :
  idle db ->
  update_flights calculate_distance now flights db
  = (flights, map fst flights, db, []).
Proof.
  intros Hidle. induction flights as [|[d fs] rest IH]; [reflexivity|].
  cbn [update_flights].
  rewrite (SimulatorFacts.update_not_in_progress calculate_distance now fs db
             (Hidle (mission_id fs))).
  rewrite IH. reflexivity.
Qed.

Lemma untrack_all (completed : list Z) : forall flights : Flights,
  (forall entry, In entry flights -> In (fst entry) completed) ->
  fold_left untrack completed flights = [].
Proof.
  induction completed as [|k rest IH]; intros flights Hall.
  - destruct flights as [|entry flights]; [reflexivity|].
    destruct (Hall entry (or_introl eq_refl)).
  - cbn [fold_left]. apply IH. intros [d fs] Hin.
    unfold untrack in Hin. apply filter_In in Hin.
    destruct Hin as [Hin Hne]. cbn [fst].
    destruct (Hall (d, fs) Hin) as [Hk|Hr]; [|exact Hr].
    cbn [fst] in Hk. subst k. rewrite Z.eqb_refl in Hne. discriminate Hne.
Qed.

(** While no stored mission is in progress, a pass of the simulation loop
    changes nothing in the database, emits no event and forgets every
    flight it was tracking; so does any number of passes. *)
Theorem idle_passes_are_inert (times : list Q) : forall sim : Simulation,
  idle (database sim) ->
  database (fst (ticks calculate_distance times sim)) = database sim
  /\ snd (ticks calculate_distance times sim) = []
  /\ (times <> [] ->
      active_flights (fst (ticks calculate_distance times sim)) = []).
Proof.
  induction times as [|now later IH]; intros sim Hidle.
  - cbn [ticks fst snd]. split; [reflexivity|]. split; [reflexivity|].
    intros Hne. now contradiction Hne.
  - assert (tick calculate_distance now sim
            = ({| active_flights := []; database := database sim |}, []))
      as Etick.
    { unfold tick. rewrite (no_active_missions _ Hidle).
      cbn [initialize_flights].
      rewrite (idle_update_flights now _ _ Hidle).
      rewrite untrack_all; [reflexivity|].
      intros entry Hin. apply in_map. exact Hin. }
    cbn [ticks]. rewrite Etick.
    destruct (IH {| active_flights := []; database := database sim |} Hidle)
      as (Hdb & Hev & Hfl).
    destruct (ticks calculate_distance later
                {| active_flights := []; database := database sim |})
      as [sim' events] eqn:E.
    cbn [fst snd database] in *.
    split; [exact Hdb|]. split; [now rewrite Hev|].
    intros _. destruct later as [|now' later'].
    + cbn [ticks] in E. injection E as <- _. reflexivity.
    + apply Hfl. discriminate.
Qed.

End Flight.

(** A flight at 6 % that lands after a minute. *)
Lemma update_never_charges_witness :
  let fs := {| drone_id := 7; mission_id := 2; current_waypoint_index := 0;
               target_waypoint_index := 1; current_lat := 12;
               current_lon := 77; current_alt := 100;
               Simulator.battery_percentage := 6; speed_mps := 15;
               last_update := 1000; is_moving := true;
               emergency_landing := false |} in
  (Simulator.battery_percentage
     (snd (fst (fst (update_flight_state grid_distance 1060 fs
                       (low_battery_airfield IN_PROGRESS)))))
   <= 6)%Q.
Proof.
  cbv zeta.
  destruct (update_never_charges grid_distance 1060
              {| drone_id := 7; mission_id := 2; current_waypoint_index := 0;
                 target_waypoint_index := 1; current_lat := 12;
                 current_lon := 77; current_alt := 100;
                 Simulator.battery_percentage := 6; speed_mps := 15;
                 last_update := 1000; is_moving := true;
                 emergency_landing := false |}
              (low_battery_airfield IN_PROGRESS)) as [Hup _].
  - discriminate.
  - exact Hup.
Defined.

(** The hangar has a completed and a planned mission. *)
Lemma idle_passes_are_inert_witness :
  let sim := {| active_flights := [(7%Z, stale_flight)];
                database := MissionsApi.hangar |} in
  database (fst (ticks grid_distance [2000%Q; 2002%Q] sim))
  = MissionsApi.hangar
  /\ snd (ticks grid_distance [2000%Q; 2002%Q] sim) = []
  /\ active_flights (fst (ticks grid_distance [2000%Q; 2002%Q] sim)) = [].
Proof.
  cbv zeta.
  destruct (idle_passes_are_inert grid_distance [2000%Q; 2002%Q]
              {| active_flights := [(7%Z, stale_flight)];
                 database := MissionsApi.hangar |})
    as (Hdb & Hev & Hfl).
  - intros m mission Em. cbn [database] in Em.
    unfold MissionsApi.hangar in Em. cbn [missions] in Em.
    destruct (decide (m = 1)) as [->|H1].
    + rewrite lookup_insert_eq in Em. injection Em as <-. discriminate.
    + rewrite lookup_insert_ne in Em by congruence.
      destruct (decide (m = 2)) as [->|H2].
      * rewrite lookup_singleton_eq in Em. injection Em as <-. discriminate.
      * rewrite lookup_singleton_ne in Em by congruence. discriminate.
  - split; [exact Hdb|]. split; [exact Hev|]. apply Hfl. discriminate.
Defined.

End SimulatorProperties.

(** ** [app/blueprints/missions.py]: a mission that does not exist *)

Module MissionsApiProperties.
Import Models MissionsApi.

(** [get_or_404] raises inside the [try] of the view, and the view's
    [except Exception] answers: starting, pausing or resuming a mission
    that does not exist is a 500, not a 404, and the database is left as it
    was. *)
Theorem unknown_mission_is_a_500 (db : Database) (now : Q) (mission_id : Z) :
  missions db !! mission_id = None ->
  Forall (fun out : Response * Database =>
            status_code (fst out) = 500 /\ snd out = db)
         [ start_mission db now mission_id;
           pause_mission db now mission_id;
           resume_mission db now mission_id ].
Proof.
  intros Hm. unfold start_mission, pause_mission, resume_mission, get_or_404.
  rewrite Hm. cbn [Py.bind or_500].
  repeat constructor.
Qed.

Lemma unknown_mission_is_a_500_witness :
  status_code (fst (pause_mission hangar 2000 9)) = 500
  /\ snd (pause_mission hangar 2000 9) = hangar.
Proof.
  pose proof (unknown_mission_is_a_500 hangar 2000 9) as H.
  apply Forall_cons in H; [|reflexivity]. destruct H as [_ H].
  apply Forall_cons in H. destruct H as [H _]. exact H.
Defined.

End MissionsApiProperties.
